(** * cse-scraper-backend: a shallow embedding of [scraper.py]

    The development follows the source file top to bottom:

    - text helpers ([str.strip], [str.endswith], [os.path.join],
      [os.path.basename]) and the two date formats the script parses and
      prints ([datetime.strptime] with ['%d %b %Y'] and ['%Y-%m-%d'],
      [strftime] with ['%Y-%m-%d']);
    - the parsed page as a tree of tags and strings, with the descendant
      searches [find] and [find_all] of the markup library;
    - the outside world (local files, the remote folder store, the HTTP
      server, the browser) as an explicit state, an oracle record and an
      output trace, threaded by a small exception monad;
    - [get_or_create_folder], [upload_to_drive], [download_report],
      [run_downloader] and the entry point, line by line.

    Text is modelled as [string] (bytes); the character classes of the date
    patterns and of [strip] are their ASCII parts, so that the helpers
    below are those of Python on texts of ASCII characters ([isascii]).
    The theorems that depend on how a text is read carry that condition. *)

From Stdlib Require Import String Ascii List Bool Arith PeanoNat Lia.
From Stdlib Require Import Sorted RelationClasses.
Import ListNotations.

Open Scope string_scope.
Open Scope list_scope.
Open Scope nat_scope.

Set Warnings "-register-all".

(** String concatenation, as [+] on [str] and as adjacent pieces of an
    f-string. *)
Infix "^^" := String.append (at level 60, right associativity).

(* ================================================================== *)
(** ** Text helpers *)

Module Text.

(** [str.isspace] on ASCII: tab, line feed, vertical tab, form feed,
    carriage return, the four separators 0x1c-0x1f, and the space. *)
Definition is_space (c : ascii) : bool :=
  let n := nat_of_ascii c in
  ((9 <=? n) && (n <=? 13)) || ((28 <=? n) && (n <=? 32)).

(** The digits of ASCII: the [\d] of the date patterns on an ASCII text
    (beyond ASCII, [\d] takes every decimal digit of Unicode). *)
Definition is_digit (c : ascii) : bool :=
  let n := nat_of_ascii c in (48 <=? n) && (n <=? 57).

(** [s.isascii()] *)
Definition isascii (s : string) : bool :=
  forallb (fun c => nat_of_ascii c <? 128) (list_ascii_of_string s).

Definition digit_val (c : ascii) : nat := nat_of_ascii c - 48.

Definition to_lower (c : ascii) : ascii :=
  let n := nat_of_ascii c in
  if (65 <=? n) && (n <=? 90) then ascii_of_nat (n + 32) else c.

Fixpoint lstrip (l : list ascii) : list ascii :=
  match l with
  | c :: r => if is_space c then lstrip r else l
  | [] => []
  end.

Definition rstrip (l : list ascii) : list ascii := rev (lstrip (rev l)).

(** [s.strip()] on an ASCII text ([str.strip] also removes the white
    space beyond ASCII, U+00A0 for one). *)
Definition strip (s : string) : string :=
  string_of_list_ascii (rstrip (lstrip (list_ascii_of_string s))).

Fixpoint starts_with (p l : list ascii) : bool :=
  match p, l with
  | [], _ => true
  | a :: p', b :: l' => Ascii.eqb a b && starts_with p' l'
  | _ :: _, [] => false
  end.

(** [s.endswith(suffix)] *)
Definition endswith (s suffix : string) : bool :=
  starts_with (rev (list_ascii_of_string suffix)) (rev (list_ascii_of_string s)).

Definition slash : ascii := "/"%char.

Definition has_slash (s : string) : bool :=
  existsb (Ascii.eqb slash) (list_ascii_of_string s).

(** The part of [l] after its last ["/"], all of [l] when it has none. *)
Fixpoint after_last_slash (l : list ascii) : list ascii :=
  match l with
  | [] => []
  | c :: r =>
      if existsb (Ascii.eqb slash) r then after_last_slash r
      else if Ascii.eqb c slash then r else l
  end.

(** The part of [l] before its last ["/"], empty when it has none. *)
Fixpoint before_last_slash (l : list ascii) : list ascii :=
  match l with
  | [] => []
  | c :: r =>
      if existsb (Ascii.eqb slash) r then c :: before_last_slash r
      else []
  end.

(** [os.path.basename(p)] (posixpath): [p[p.rfind('/') + 1:]]. *)
Definition basename (p : string) : string :=
  string_of_list_ascii (after_last_slash (list_ascii_of_string p)).

(** The directory a path names its entry in: [p[:p.rfind('/')]], the
    working directory (the empty string) when [p] has no ["/"]. *)
Definition parent_dir (p : string) : string :=
  string_of_list_ascii (before_last_slash (list_ascii_of_string p)).

(** [os.path.join(a, b)] (posixpath) for two components. *)
Definition path_join (a b : string) : string :=
  if starts_with [slash] (list_ascii_of_string b) then b
  else if String.eqb a "" || endswith a "/" then a ^^ b
  else a ^^ "/" ^^ b.

(** ["-" * n] *)
Fixpoint repeat_str (s : string) (n : nat) : string :=
  match n with
  | 0 => ""
  | S k => s ^^ repeat_str s k
  end.

End Text.

(* ================================================================== *)
(** ** Dates: [datetime.strptime] and [strftime] *)

Module Date.
Import Text.

(** A [datetime] built by [strptime] from a date-only format: the time of
    day is midnight, so comparison is that of (year, month, day). *)
Record date := mkDate { year : nat; month : nat; day : nat }.

(** [a <= b] on datetimes. *)
Definition date_leb (a b : date) : bool :=
  (year a <? year b)
  || ((year a =? year b)
      && ((month a <? month b)
          || ((month a =? month b) && (day a <=? day b)))).

(** [a >= b] *)
Definition date_geb (a b : date) : bool := date_leb b a.

Definition is_leap (y : nat) : bool :=
  ((y mod 4 =? 0) && negb (y mod 100 =? 0)) || (y mod 400 =? 0).

Definition days_in_month (y m : nat) : nat :=
  match m with
  | 2 => if is_leap y then 29 else 28
  | 4 | 6 | 9 | 11 => 30
  | _ => 31
  end.

(** The checks of the [datetime] constructor: [MINYEAR <= year], a month
    of the year, a day of that month. *)
Definition valid_date (d : date) : bool :=
  (1 <=? year d) && (1 <=? month d) && (month d <=? 12)
  && (1 <=? day d) && (day d <=? days_in_month (year d) (month d)).

(** *** The format patterns

    [strptime] turns a format into a regular expression and takes its
    first match in priority order; a parser here returns its matches in
    that order, each with the text left over. *)
Definition parser (A : Type) := list ascii -> list (A * list ascii).

Definition pseq {A B C} (p : parser A) (q : parser B) (f : A -> B -> C)
  : parser C :=
  fun s => flat_map (fun '(a, r) => map (fun '(b, r') => (f a b, r')) (q r)) (p s).

Definition in_range (lo hi : nat) (c : ascii) : bool :=
  let n := nat_of_ascii c in (lo <=? n) && (n <=? hi).

(** [%d]: [3[0-1]|[1-2]\d|0[1-9]|[1-9]| [1-9]] *)
Definition p_day : parser nat := fun s =>
  (match s with
   | a :: b :: r =>
       (if Ascii.eqb a "3" && in_range 48 49 b then [(30 + digit_val b, r)] else [])
       ++ (if in_range 49 50 a && is_digit b then [(10 * digit_val a + digit_val b, r)] else [])
       ++ (if Ascii.eqb a "0" && in_range 49 57 b then [(digit_val b, r)] else [])
   | _ => []
   end)
  ++ (match s with
      | a :: r => if in_range 49 57 a then [(digit_val a, r)] else []
      | _ => []
      end)
  ++ (match s with
      | a :: b :: r =>
          if Ascii.eqb a " " && in_range 49 57 b then [(digit_val b, r)] else []
      | _ => []
      end).

(** [%m]: [1[0-2]|0[1-9]|[1-9]] *)
Definition p_month_num : parser nat := fun s =>
  (match s with
   | a :: b :: r =>
       (if Ascii.eqb a "1" && in_range 48 50 b then [(10 + digit_val b, r)] else [])
       ++ (if Ascii.eqb a "0" && in_range 49 57 b then [(digit_val b, r)] else [])
   | _ => []
   end)
  ++ (match s with
      | a :: r => if in_range 49 57 a then [(digit_val a, r)] else []
      | _ => []
      end).

(** [%Y]: [\d\d\d\d] *)
Definition p_year : parser nat := fun s =>
  match s with
  | a :: b :: c :: d :: r =>
      if is_digit a && is_digit b && is_digit c && is_digit d
      then [(1000 * digit_val a + 100 * digit_val b + 10 * digit_val c + digit_val d, r)]
      else []
  | _ => []
  end.

(** The abbreviated month names of the C locale, lower-cased. *)
Definition month_abbr : list string :=
  ["jan"; "feb"; "mar"; "apr"; "may"; "jun";
   "jul"; "aug"; "sep"; "oct"; "nov"; "dec"].

Fixpoint index_of (x : string) (l : list string) (i : nat) : option nat :=
  match l with
  | [] => None
  | y :: r => if String.eqb x y then Some i else index_of x r (S i)
  end.

(** [%b], matched ignoring case; the value is the month number. *)
Definition p_month_abbr : parser nat := fun s =>
  match s with
  | a :: b :: c :: r =>
      match index_of (string_of_list_ascii [to_lower a; to_lower b; to_lower c])
                     month_abbr 1 with
      | Some m => [(m, r)]
      | None => []
      end
  | _ => []
  end.

(** All ways to split off a non-empty run of leading spaces, longest
    first ([\s+] is greedy). *)
Fixpoint p_spaces_from (s : list ascii) : list (unit * list ascii) :=
  match s with
  | c :: r => if is_space c then p_spaces_from r ++ [(tt, r)] else []
  | [] => []
  end.

(** A blank in a format stands for [\s+]. *)
Definition p_spaces : parser unit := p_spaces_from.

Definition p_char (c : ascii) : parser unit := fun s =>
  match s with
  | a :: r => if Ascii.eqb a c then [(tt, r)] else []
  | [] => []
  end.

(** The first match must use up the text ("unconverted data remains"
    otherwise) and name a real date; [None] stands for [ValueError]. *)
Definition finish (ms : list (date * list ascii)) : option date :=
  match ms with
  | (d, []) :: _ => if valid_date d then Some d else None
  | _ => None
  end.

(** [datetime.strptime(s, '%d %b %Y')] *)
Definition strptime_dbY (s : string) : option date :=
  finish
    (pseq p_day
       (pseq p_spaces
          (pseq p_month_abbr (pseq p_spaces p_year (fun _ y => y))
             (fun m y => (m, y)))
          (fun _ my => my))
       (fun d my => mkDate (snd my) (fst my) d)
       (list_ascii_of_string s)).

(** [datetime.strptime(s, '%Y-%m-%d')] *)
Definition strptime_Ymd (s : string) : option date :=
  finish
    (pseq p_year
       (pseq (p_char "-")
          (pseq p_month_num (pseq (p_char "-") p_day (fun _ d => d))
             (fun m d => (m, d)))
          (fun _ md => md))
       (fun y md => mkDate y (fst md) (snd md))
       (list_ascii_of_string s)).

Definition digit_char (n : nat) : ascii := ascii_of_nat (48 + n mod 10).

Definition pad2 (n : nat) : string :=
  String (digit_char (n / 10)) (String (digit_char n) "").

Definition pad4 (n : nat) : string :=
  String (digit_char (n / 1000)) (String (digit_char (n / 100))
    (String (digit_char (n / 10)) (String (digit_char n) ""))).

(** [d.strftime('%Y-%m-%d')], the year on four digits: what is printed
    everywhere for the years from 1000 on (below 1000 some platforms leave
    out the leading zeros). *)
Definition strftime_Ymd (d : date) : string :=
  pad4 (year d) ^^ "-" ^^ pad2 (month d) ^^ "-" ^^ pad2 (day d).

End Date.

Import Text Date.

(* ================================================================== *)
(** ** The parsed page *)

Module Markup.

(** What [BeautifulSoup(page_source, 'html.parser')] holds: strings and
    tags, a tag with its attributes and its children ([.contents]). *)
Inductive node :=
| NavigableString (s : string)
| Tag (name : string) (attrs : list (string * string)) (contents : list node).

Definition contents_of (n : node) : list node :=
  match n with Tag _ _ cs => cs | NavigableString _ => [] end.

(** [tag.get(key)] *)
Fixpoint get_attr (key : string) (attrs : list (string * string)) : option string :=
  match attrs with
  | [] => None
  | (k, v) :: r => if String.eqb k key then Some v else get_attr key r
  end.

Definition attr_of (key : string) (n : node) : option string :=
  match n with Tag _ a _ => get_attr key a | NavigableString _ => None end.

(** [.descendants]: every node below [n], in document order. *)
Fixpoint descendants (n : node) : list node :=
  match n with
  | NavigableString _ => []
  | Tag _ _ cs =>
      (fix below (l : list node) : list node :=
         match l with
         | [] => []
         | c :: r => c :: descendants c ++ below r
         end) cs
  end.

Definition is_tag (nm : string) (n : node) : bool :=
  match n with Tag x _ _ => String.eqb x nm | NavigableString _ => false end.

(** [n.find_all(nm)] *)
Definition find_all (nm : string) (n : node) : list node :=
  filter (is_tag nm) (descendants n).

(** [n.find(nm)]: the first of [find_all], [None] when there is none. *)
Definition find (nm : string) (n : node) : option node :=
  hd_error (find_all nm n).

(** [soup.find('div', id=table_id)] *)
Definition find_div_by_id (table_id : string) (soup : node) : option node :=
  hd_error
    (filter (fun n =>
               match attr_of "id" n with
               | Some v => String.eqb v table_id
               | None => false
               end)
       (find_all "div" soup)).

(** [lambda href: href and href.endswith('.pdf')] *)
Definition href_is_pdf (href : option string) : bool :=
  match href with
  | Some h => negb (String.eqb h "") && Text.endswith h ".pdf"
  | None => false
  end.

(** [report_row.find('a', href=lambda href: href and href.endswith('.pdf'))] *)
Definition find_pdf_link (report_row : node) : option node :=
  hd_error (filter (fun n => href_is_pdf (attr_of "href" n)) (find_all "a" report_row)).

End Markup.

Import Markup.

(* ================================================================== *)
(** ** Exceptions, the world and the monad *)

(** A raised [Exception]: its class and what [str(e)] gives. *)
Record exn := mkExn { exn_class : string; exn_msg : string }.

Inductive outcome (A : Type) :=
| Ok (a : A)
| Raise (e : exn).
Arguments Ok {A} a.
Arguments Raise {A} e.

(** The identifier of a folder or file of the remote store; ["root"] is
    the alias the script passes for the top of the tree. *)
Inductive file_id :=
| root
| gen (n : nat).

Definition file_id_eqb (a b : file_id) : bool :=
  match a, b with
  | root, root => true
  | gen n, gen m => n =? m
  | _, _ => false
  end.

(** An entry of the remote store. *)
Record drive_file := mkDriveFile {
  df_id : file_id;
  df_title : string;
  df_parents : list file_id;
  df_is_folder : bool;      (* mimeType = 'application/vnd.google-apps.folder' *)
  df_trashed : bool;
  df_content : string
}.

(** What the script can change: the local files (path and bytes) and
    directories, paths relative to the working directory; the remote
    store, in the order its listings answer; the number of remote calls
    made so far. *)
Record state := mkState {
  files : list (string * string);
  dirs : list string;
  drive : list drive_file;
  api_calls : nat
}.

(** An HTTP response: status code and body. *)
Record response := mkResponse { status_code : nat; content : string }.

(** What the script observes and cannot change: whether each outside call
    succeeds and what it returns. *)
Record env := mkEnv {
  auth : option exn;                      (* gauth.ServiceAuth() *)
  chrome : option exn;                    (* installing and starting the browser *)
  navigate : string -> option exn;        (* driver.get(url) *)
  clickable : string -> option exn;       (* wait.until(element_to_be_clickable(<a> containing text)) *)
  visible : string -> option exn;         (* wait.until(visibility of a row under the div) *)
  page_source : string -> node;           (* the parsed page once the tab is open *)
  requests_get : string -> outcome response;
  drive_fault : nat -> option exn         (* the n-th remote call fails *)
}.

(** What the script does to the outside, in order. *)
Inductive event :=
| Print (line : string)
| ServiceAuth
| BrowserStart
| BrowserGet (url : string)
| Click (link_text : string)
| Sleep (seconds : nat)
| BrowserQuit
| HttpGet (url : string)
| MakeDirs (path : string)
| FileWrite (path : string)
| FileRemove (path : string)
| DriveList (title : string) (parent : file_id)
| DriveInsert (f : drive_file).

Record run (A : Type) := mkRun { res : outcome A; st : state; out : list event }.
Arguments mkRun {A} res st out.
Arguments res {A} r.
Arguments st {A} r.
Arguments out {A} r.

Definition M (A : Type) := state -> run A.

Definition ret {A} (a : A) : M A := fun s => mkRun (Ok a) s [].

Definition raise {A} (e : exn) : M A := fun s => mkRun (Raise e) s [].

Definition bind {A B} (m : M A) (f : A -> M B) : M B := fun s =>
  match m s with
  | mkRun (Ok a) s1 o1 =>
      match f a s1 with
      | mkRun r2 s2 o2 => mkRun r2 s2 (o1 ++ o2)
      end
  | mkRun (Raise e) s1 o1 => mkRun (Raise e) s1 o1
  end.

(** [try: m  except Exception as e: h e] *)
Definition try_except {A} (m : M A) (h : exn -> M A) : M A := fun s =>
  match m s with
  | mkRun (Ok a) s1 o1 => mkRun (Ok a) s1 o1
  | mkRun (Raise e) s1 o1 =>
      match h e s1 with
      | mkRun r2 s2 o2 => mkRun r2 s2 (o1 ++ o2)
      end
  end.

(** [try: m  finally: c]: what [m] gave stands unless [c] raises. *)
Definition try_finally {A} (m : M A) (c : M unit) : M A := fun s =>
  match m s with
  | mkRun r1 s1 o1 =>
      match c s1 with
      | mkRun (Ok _) s2 o2 => mkRun r1 s2 (o1 ++ o2)
      | mkRun (Raise e) s2 o2 => mkRun (Raise e) s2 (o1 ++ o2)
      end
  end.

Declare Scope py_scope.
Delimit Scope py_scope with py.
Notation "x <- m ;; k" := (bind m (fun x => k))
  (at level 100, m at next level, right associativity) : py_scope.
Notation "m ;; k" := (bind m (fun _ => k))
  (at level 100, right associativity) : py_scope.
Open Scope py_scope.

Definition emit (e : event) : M unit := fun s => mkRun (Ok tt) s [e].

Definition print (line : string) : M unit := emit (Print line).

Definition get_state : M state := fun s => mkRun (Ok s) s [].

Definition put_state (s' : state) : M unit := fun _ => mkRun (Ok tt) s' [].

(** An outside call that either raises or goes through. *)
Definition attempt (r : option exn) : M unit :=
  match r with
  | Some e => raise e
  | None => ret tt
  end.

Definition lift {A} (o : outcome A) : M A :=
  match o with
  | Ok a => ret a
  | Raise e => raise e
  end.

(* ================================================================== *)
(** ** Local files *)

Module Fs.

Fixpoint lookup (path : string) (fs : list (string * string)) : option string :=
  match fs with
  | [] => None
  | (p, c) :: r => if String.eqb p path then Some c else lookup path r
  end.

Definition delete (path : string) (fs : list (string * string)) : list (string * string) :=
  filter (fun pc => negb (String.eqb (fst pc) path)) fs.

Definition is_dir (path : string) (s : state) : bool :=
  existsb (String.eqb path) (dirs s).

Definition is_file (path : string) (s : state) : bool :=
  match lookup path (files s) with Some _ => true | None => false end.

Definition FileExistsError (path : string) : exn :=
  mkExn "FileExistsError" ("[Errno 17] File exists: '" ^^ path ^^ "'").
Definition FileNotFoundError (path : string) : exn :=
  mkExn "FileNotFoundError" ("[Errno 2] No such file or directory: '" ^^ path ^^ "'").
Definition IsADirectoryError (path : string) : exn :=
  mkExn "IsADirectoryError" ("[Errno 21] Is a directory: '" ^^ path ^^ "'").

(** [os.makedirs(path, exist_ok=True)] for a one-component path. *)
Definition makedirs (path : string) : M unit :=
  s <- get_state ;;
  if is_dir path s then ret tt
  else if is_file path s then raise (FileExistsError path)
  else put_state (mkState (files s) (dirs s ++ [path]) (drive s) (api_calls s)) ;;
       emit (MakeDirs path).

(** [with open(path, 'wb') as f: f.write(data)]: the entry is made in the
    directory the path names, which has to exist.  The path is taken as
    it is written, and the limits of the file system on a name (its
    length, the null character) are left to the statements that need
    them ([fits_file_name]). *)
Definition write_file (path data : string) : M unit :=
  s <- get_state ;;
  if is_dir path s then raise (IsADirectoryError path)
  else if negb (String.eqb (Text.parent_dir path) "")
          && negb (is_dir (Text.parent_dir path) s)
  then raise (FileNotFoundError path)
  else put_state (mkState ((path, data) :: delete path (files s)) (dirs s)
                    (drive s) (api_calls s)) ;;
       emit (FileWrite path).

(** Opening a file for reading, as [SetContentFile] does. *)
Definition read_file (path : string) : M string :=
  s <- get_state ;;
  match lookup path (files s) with
  | Some c => ret c
  | None => raise (FileNotFoundError path)
  end.

(** [os.remove(path)] *)
Definition remove (path : string) : M unit :=
  s <- get_state ;;
  if is_file path s
  then put_state (mkState (delete path (files s)) (dirs s) (drive s) (api_calls s)) ;;
       emit (FileRemove path)
  else raise (FileNotFoundError path).

End Fs.

(* ================================================================== *)
(** ** The script *)

Definition nl : string := String (ascii_of_nat 10) "".

(** What a function of the script hands back. *)
Inductive retval :=
| None_
| Int_ (n : nat).

Section Script.

Variable E : env.

(** One round trip to the remote store: it is counted, and fails when
    the oracle says so. *)
Definition drive_call : M unit :=
  s <- get_state ;;
  put_state (mkState (files s) (dirs s) (drive s) (S (api_calls s))) ;;
  attempt (drive_fault E (api_calls s)).

(** [authenticate_google_drive()] *)
Definition authenticate_google_drive : M unit :=
  emit ServiceAuth ;;
  attempt (auth E).

(** The query of [get_or_create_folder]:
    ['<parent>' in parents and mimeType='...folder' and title='<name>'
    and trashed=false].  The name is pasted between the quotes as it is,
    so this is what the query asks for when the name holds neither a
    quote nor a backslash ([plain_title]). *)
Definition folder_matches (folder_name : string) (parent_folder_id : file_id)
    (f : drive_file) : bool :=
  existsb (file_id_eqb parent_folder_id) (df_parents f)
  && df_is_folder f
  && String.eqb (df_title f) folder_name
  && negb (df_trashed f).

Definition id_number (i : file_id) : nat :=
  match i with root => 0 | gen n => n end.

(** The identifier the store gives a new entry: one it does not hold. *)
Definition fresh_id (store : list drive_file) : file_id :=
  gen (S (fold_right (fun f m => Nat.max (id_number (df_id f)) m) 0 store)).

(** [drive.CreateFile(metadata)] followed by [.Upload()] *)
Definition drive_insert (title : string) (parent : file_id) (is_folder : bool)
    (data : string) : M file_id :=
  drive_call ;;
  s <- get_state ;;
  let f := mkDriveFile (fresh_id (drive s)) title [parent] is_folder false data in
  put_state (mkState (files s) (dirs s) (drive s ++ [f]) (api_calls s)) ;;
  emit (DriveInsert f) ;;
  ret (df_id f).

(** [get_or_create_folder(drive, folder_name, parent_folder_id)] *)
Definition get_or_create_folder (folder_name : string) (parent_folder_id : file_id)
  : M file_id :=
  emit (DriveList folder_name parent_folder_id) ;;
  drive_call ;;
  s <- get_state ;;
  let file_list := filter (folder_matches folder_name parent_folder_id) (drive s) in
  match file_list with
  | f :: _ =>
      print ("  - Found existing folder: '" ^^ folder_name ^^ "'") ;;
      ret (df_id f)
  | [] =>
      print ("  - Folder '" ^^ folder_name ^^ "' not found. Creating...") ;;
      drive_insert folder_name parent_folder_id true ""
  end.

(** [upload_to_drive(drive, file_path, company_code, report_type)] *)
Definition upload_to_drive (file_path company_code report_type : string) : M unit :=
  print (nl ^^ "  - Uploading to Google Drive path: /CSE Reports/" ^^ company_code
         ^^ "/" ^^ report_type ^^ " Reports") ;;
  root_folder_id <- get_or_create_folder "CSE Reports" root ;;
  company_folder_id <- get_or_create_folder company_code root_folder_id ;;
  let report_type_folder_name := report_type ^^ " Reports" in
  destination_folder_id <- get_or_create_folder report_type_folder_name company_folder_id ;;
  let file_name := Text.basename file_path in
  data <- Fs.read_file file_path ;;
  drive_insert file_name destination_folder_id false data ;;
  print ("  - ✅ File '" ^^ file_name ^^ "' uploaded successfully.").

Definition IndexError : exn := mkExn "IndexError" "list index out of range".
Definition TypeError : exn := mkExn "TypeError" "'NoneType' object is not callable".
Definition AttributeError : exn :=
  mkExn "AttributeError" "'NoneType' object has no attribute 'find_all'".
(** The error of [strptime]; the message is that of a text the pattern
    does not match (for a text that matches and names no date, or that
    goes on after the match, the wording is another). *)
Definition ValueError (text fmt : string) : exn :=
  mkExn "ValueError" ("time data '" ^^ text ^^ "' does not match format '" ^^ fmt ^^ "'").
(** The error of [raise_for_status]; the message keeps the URL and
    leaves out the status and the reason phrase that come before it. *)
Definition HTTPError (url : string) : exn :=
  mkExn "HTTPError" ("Error for url: " ^^ url).

(** [cell.contents[0].strip()]: the cell may be empty, and its first child
    may be a tag, which has no [strip]. *)
Definition first_text (cell : node) : outcome string :=
  match contents_of cell with
  | [] => Raise IndexError
  | NavigableString s :: _ => Ok (Text.strip s)
  | Tag _ _ _ :: _ => Raise TypeError
  end.

(** [pdf_response.raise_for_status()] *)
Definition raise_for_status (url : string) (r : response) : M unit :=
  if (400 <=? status_code r) && (status_code r <? 600) then raise (HTTPError url)
  else ret tt.

Section Cycle.

Variables company_code report_type : string.
Variable cutoff_date : date.

(** Lines 102-120: one qualifying row, from the link to the removal of
    the local file. *)
Definition fetch_and_upload (pdf_link_tag : node) (date_obj : date) : M unit :=
  let download_url := match attr_of "href" pdf_link_tag with Some h => h | None => "" end in
  let formatted_date := strftime_Ymd date_obj in
  let temp_download_dir := "temp_reports" in
  Fs.makedirs temp_download_dir ;;
  let local_filename := formatted_date ^^ "-" ^^ company_code ^^ ".pdf" in
  let file_path := Text.path_join temp_download_dir local_filename in
  print (nl ^^ "  - Found valid report: " ^^ local_filename) ;;
  print "    - Downloading temporarily..." ;;
  emit (HttpGet download_url) ;;
  pdf_response <- lift (requests_get E download_url) ;;
  raise_for_status download_url pdf_response ;;
  Fs.write_file file_path (content pdf_response) ;;
  upload_to_drive file_path company_code report_type ;;
  Fs.remove file_path.

(** The loop of lines 90-123 over [all_report_rows], with the counter
    [downloads_found]; [continue] goes on with the rows left, [break]
    leaves with the counter. *)
Fixpoint for_rows (rows : list node) (downloads_found : nat) : M nat :=
  match rows with
  | [] => ret downloads_found
  | report_row :: rest =>
      let columns := find_all "td" report_row in
      if length columns <? 2 then for_rows rest downloads_found
      else
        uploaded_date_str <- lift (first_text (hd report_row columns)) ;;
        match strptime_dbY uploaded_date_str with
        | None => for_rows rest downloads_found
        | Some date_obj =>
            if date_geb date_obj cutoff_date then
              match find_pdf_link report_row with
              | None => for_rows rest downloads_found
              | Some pdf_link_tag =>
                  fetch_and_upload pdf_link_tag date_obj ;;
                  for_rows rest (downloads_found + 1)
              end
            else
              print "  - Reached end of valid date range. No more reports to check." ;;
              ret downloads_found
        end
  end.

End Cycle.

(** Lines 72-126, once the tab and the table identifier are chosen. *)
Definition report_cycle (company_code report_type start_date_str tab_name table_id : string)
  : M retval :=
  print ("Step A: Clicking '" ^^ tab_name ^^ "' tab...") ;;
  attempt (clickable E tab_name) ;;
  emit (Click tab_name) ;;
  attempt (visible E table_id) ;;
  emit (Sleep 1) ;;
  print "Step B: Parsing page for all report links..." ;;
  let soup := page_source E tab_name in
  match find_div_by_id table_id soup with
  | None => ret None_
  | Some report_container =>
      match find "tbody" report_container with
      | None => raise AttributeError
      | Some tbody =>
          let all_report_rows := find_all "tr" tbody in
          match all_report_rows with
          | [] => ret None_
          | _ :: _ =>
              match strptime_Ymd start_date_str with
              | None => raise (ValueError start_date_str "%Y-%m-%d")
              | Some cutoff_date =>
                  downloads_found <-
                    for_rows company_code report_type cutoff_date all_report_rows 0 ;;
                  (if downloads_found =? 0
                   then print (nl ^^ "  - No new " ^^ report_type ^^ " reports found after "
                               ^^ strftime_Ymd cutoff_date ^^ ".")
                   else ret tt) ;;
                  ret None_
              end
          end
      end
  end.

(** The body of the [try] of [download_report]. *)
Definition download_report_body (company_code report_type start_date_str : string)
  : M retval :=
  print (Text.repeat_str "-" 40) ;;
  print ("Starting process for " ^^ report_type ^^ " Reports...") ;;
  if String.eqb report_type "Quarterly"
  then report_cycle company_code report_type start_date_str "Quarterly Reports" "21b"
  else if String.eqb report_type "Annual"
  then report_cycle company_code report_type start_date_str "Annual Reports " "11b"
  else ret None_.

(** [download_report(driver, wait, company_code, report_type, drive,
    start_date_str)] *)
Definition download_report (company_code report_type start_date_str : string)
  : M retval :=
  try_except
    (download_report_body company_code report_type start_date_str)
    (fun e =>
       print ("❌ An error occurred during the " ^^ report_type
              ^^ " report download: " ^^ exn_msg e) ;;
       ret None_).

Definition base_url : string :=
  "https://www.cse.lk/pages/company-profile/company-profile.component.html?symbol=".

(** [run_downloader(company_code, start_date_str)]. [driver] is set as
    soon as the browser has started, which is when the oracle [chrome]
    reports no failure. *)
Definition run_downloader (company_code start_date_str : string) : M unit :=
  print "Step 1: Authenticating with Google Drive using Service Account..." ;;
  authenticated <-
    try_except
      (authenticate_google_drive ;;
       print "✅ Google Drive authentication successful." ;;
       ret true)
      (fun e =>
         print ("❌ Could not authenticate with Google Drive. Error: " ^^ exn_msg e) ;;
         ret false) ;;
  if authenticated : bool then
    try_finally
      (try_except
         (attempt (chrome E) ;;
          emit BrowserStart ;;
          print (nl ^^ Text.repeat_str "=" 50 ^^ nl ^^ "Starting scrape for company: "
                 ^^ company_code ^^ nl ^^ Text.repeat_str "=" 50) ;;
          let company_url := base_url ^^ company_code in
          print "Navigating to the company page..." ;;
          emit (BrowserGet company_url) ;;
          attempt (navigate E company_url) ;;
          print "Clicking 'Financials' tab..." ;;
          attempt (clickable E "Financials") ;;
          emit (Click "Financials") ;;
          emit (Sleep 2) ;;
          download_report company_code "Quarterly" start_date_str ;;
          download_report company_code "Annual" start_date_str ;;
          ret tt)
         (fun e =>
            print (nl ^^ "❌ A critical error occurred in the main process: " ^^ exn_msg e)))
      ((match chrome E with
        | None => emit BrowserQuit
        | Some _ => ret tt
        end) ;;
       print (nl ^^ "Browser closed."))
  else ret tt.

(** The [__main__] block, given [sys.argv]. *)
Definition main (argv : list string) : M unit :=
  print "Script started." ;;
  (if length argv =? 3 then
     let company_code_arg := nth 1 argv "" in
     let start_date_arg := nth 2 argv "" in
     run_downloader company_code_arg start_date_arg
   else print "Usage: python scraper.py <COMPANY_CODE> <YYYY-MM-DD>") ;;
  print "Script finished.".

End Script.

(* ================================================================== *)
(** ** Reading a trace *)

(** The URLs requested, in order. *)
Definition fetched (evs : list event) : list string :=
  flat_map (fun e => match e with HttpGet u => [u] | _ => [] end) evs.

(** The entries added to the remote store, in order. *)
Definition inserted (evs : list event) : list drive_file :=
  flat_map (fun e => match e with DriveInsert f => [f] | _ => [] end) evs.

(** The documents uploaded: the entries added that are not folders. *)
Definition uploaded (evs : list event) : list drive_file :=
  filter (fun f => negb (df_is_folder f)) (inserted evs).

Definition is_fetch (e : event) : bool :=
  match e with HttpGet _ => true | _ => false end.

Definition is_remote_write (e : event) : bool :=
  match e with DriveInsert _ => true | _ => false end.

Definition is_remote_call (e : event) : bool :=
  match e with DriveInsert _ | DriveList _ _ => true | _ => false end.

Definition is_local_file_op (e : event) : bool :=
  match e with MakeDirs _ | FileWrite _ | FileRemove _ => true | _ => false end.

Definition is_usage (e : event) : bool :=
  match e with
  | Print line => String.eqb line "Usage: python scraper.py <COMPANY_CODE> <YYYY-MM-DD>"
  | _ => false
  end.

(** Neither a request for a document, nor a call to the remote store,
    nor a change to the local files, nor the usage line. *)
Definition harmless (e : event) : bool :=
  negb (is_fetch e || is_remote_call e || is_local_file_op e || is_usage e).

(** [m] hands back [None] whenever it returns. *)
Definition returns_none (m : M retval) : Prop :=
  forall s v, res (m s) = Ok v -> v = None_.

(** [m] returns from every state. *)
Definition never_raises {A} (m : M A) : Prop :=
  forall s, exists a, res (m s) = Ok a.

(** The tab and the container [download_report] binds to a report type. *)
Definition bound_to (report_type tab_name table_id : string) : Prop :=
  (report_type = "Quarterly" /\ tab_name = "Quarterly Reports" /\ table_id = "21b")
  \/ (report_type = "Annual" /\ tab_name = "Annual Reports " /\ table_id = "11b").

(** What [run_downloader] emits before the first cycle when nothing
    fails on the way. *)
Definition run_prologue (company_code : string) : list event :=
  [Print "Step 1: Authenticating with Google Drive using Service Account...";
   ServiceAuth;
   Print "✅ Google Drive authentication successful.";
   BrowserStart;
   Print (nl ^^ Text.repeat_str "=" 50 ^^ nl ^^ "Starting scrape for company: "
          ^^ company_code ^^ nl ^^ Text.repeat_str "=" 50);
   Print "Navigating to the company page...";
   BrowserGet (base_url ^^ company_code);
   Print "Clicking 'Financials' tab...";
   Click "Financials";
   Sleep 2].

(** What a cycle emits when its table is absent or has no row. *)
Definition quiet_cycle (report_type tab_name : string) : list event :=
  [Print (Text.repeat_str "-" 40);
   Print ("Starting process for " ^^ report_type ^^ " Reports...");
   Print ("Step A: Clicking '" ^^ tab_name ^^ "' tab...");
   Click tab_name; Sleep 1;
   Print "Step B: Parsing page for all report links..."].

(** Every event of [m], from every state, satisfies [P]. *)
Definition only (P : event -> bool) {A} (m : M A) : Prop :=
  forall s, forallb P (out (m s)) = true.

(** [m] leaves the local files and the remote store as they are. *)
Definition keeps_data {A} (m : M A) : Prop :=
  forall s, files (st (m s)) = files s /\ dirs (st (m s)) = dirs s
            /\ drive (st (m s)) = drive s.

(** The three-level destination of an upload in a store: a folder
    ["CSE Reports"] under the root, in it a folder named by the company
    code, in it a folder ["<report_type> Reports"] with identifier
    [dest]. *)
Definition is_live_folder (title : string) (parent : file_id) (f : drive_file) : Prop :=
  df_title f = title /\ In parent (df_parents f)
  /\ df_is_folder f = true /\ df_trashed f = false.

Definition destination (store : list drive_file) (company_code report_type : string)
    (dest : file_id) : Prop :=
  exists top company leaf,
    In top store /\ In company store /\ In leaf store
    /\ is_live_folder "CSE Reports" root top
    /\ is_live_folder company_code (df_id top) company
    /\ is_live_folder (report_type ^^ " Reports") (df_id company) leaf
    /\ df_id leaf = dest.

(** An uploaded entry [f] sits in the store, directly under the
    three-level destination. *)
Definition placed (company_code report_type : string) (f : drive_file)
    (store : list drive_file) : Prop :=
  exists dest, df_parents f = [dest] /\ In f store
               /\ destination store company_code report_type dest.

(** [m] only adds to the remote store, and each document it uploads
    satisfies [Q] in the store it leaves. *)
Definition tidy (Q : drive_file -> list drive_file -> Prop) {A} (m : M A) : Prop :=
  forall s,
    (exists l, drive (st (m s)) = drive s ++ l)
    /\ (forall f, In f (uploaded (out (m s))) -> Q f (drive (st (m s)))).

(** [Q] survives additions to the store. *)
Definition monotone (Q : drive_file -> list drive_file -> Prop) : Prop :=
  forall f store l, Q f store -> Q f (store ++ l).

(** The local name of the document of a record dated [d]. *)
Definition local_name (company_code : string) (d : date) : string :=
  strftime_Ymd d ^^ "-" ^^ company_code ^^ ".pdf".

(** The title an upload gets from the local path of a record dated [d]. *)
Definition title_for (company_code : string) (d : date) : string :=
  Text.basename (Text.path_join "temp_reports" (local_name company_code d)).

(** [f] is the document of one of [rows]: a row whose first cell reads as
    a date [d] at or after the cutoff, which gives [f] its title; and [f]
    sits under the three-level destination in [store]. *)
Definition filed (company_code report_type : string) (cutoff_date : date)
    (rows : list node) (f : drive_file) (store : list drive_file) : Prop :=
  (exists report_row text d,
      In report_row rows
      /\ first_text (hd report_row (find_all "td" report_row)) = Ok text
      /\ strptime_dbY text = Some d
      /\ date_geb d cutoff_date = true
      /\ df_title f = title_for company_code d)
  /\ placed company_code report_type f store.

(** The state after [k] more remote calls that changed nothing. *)
Definition called (k : nat) (s : state) : state :=
  mkState (files s) (dirs s) (drive s) (k + api_calls s).

(** At most one live folder of each name under each parent. *)
Definition unique_folders (store : list drive_file) : Prop :=
  forall name parent,
    length (filter (folder_matches name parent) store) <= 1.

(** A row that carries a report record: at least two cells, a first cell
    that starts with a parseable date text, and a link to a [.pdf]. *)
Definition row_record (report_row : node) : option (date * string) :=
  let columns := find_all "td" report_row in
  if length columns <? 2 then None
  else
    match first_text (hd report_row columns) with
    | Ok text =>
        match strptime_dbY text, find_pdf_link report_row with
        | Some d, Some a =>
            Some (d, match attr_of "href" a with Some h => h | None => "" end)
        | _, _ => None
        end
    | Raise _ => None
    end.

(** Newest first: each date is at or after the next one. *)
Definition descending (ds : list date) : Prop :=
  Sorted (fun d d' => date_geb d d' = true) ds.

(* ================================================================== *)
(** ** Further readings of a trace and of a store *)

(** The events that open and close a run: the authentication, the start
    and the end of the browser session. *)
Definition is_session_bracket (e : event) : bool :=
  match e with
  | ServiceAuth | BrowserStart | BrowserQuit => true
  | _ => false
  end.

(** What the [except] of [run_downloader] prints. *)
Definition critical_line (e : exn) : event :=
  Print (nl ^^ "❌ A critical error occurred in the main process: " ^^ exn_msg e).

(** What [run_downloader] prints when the key is refused. *)
Definition refused_line (e : exn) : event :=
  Print ("❌ Could not authenticate with Google Drive. Error: " ^^ exn_msg e).

(** The last line of a run that got past the authentication. *)
Definition closed_line : event := Print (nl ^^ "Browser closed.").

(** The store [m] leaves is the store it found followed by the entries
    it inserted, in order. *)
Definition appends {A} (m : M A) : Prop :=
  forall s, drive (st (m s)) = drive s ++ inserted (out (m s)).

(** The identifier a listing for ([name], [parent]) puts first. *)
Definition first_match (name : string) (parent : file_id) (store : list drive_file)
  : option file_id :=
  hd_error (map df_id (filter (folder_matches name parent) store)).

(** The local path of the document of a record dated [d]. *)
Definition local_path (company_code : string) (d : date) : string :=
  Text.path_join "temp_reports" (local_name company_code d).

(** No file of [after] is new: each is in [before] with the same bytes. *)
Definition no_new_file (before after : list (string * string)) : Prop :=
  forall path data, Fs.lookup path after = Some data -> Fs.lookup path before = Some data.

(** [m] leaves no new local file when it returns. *)
Definition cleans_up {A} (m : M A) : Prop :=
  forall s a, res (m s) = Ok a -> no_new_file (files s) (files (st (m s))).

(** [m] leaves the part [part] of the state as it found it. *)
Definition keeps {A T} (part : state -> T) (m : M A) : Prop :=
  forall s, part (st (m s)) = part s.

(** [m] removes no directory. *)
Definition dirs_stay {A} (m : M A) : Prop :=
  forall s path, Fs.is_dir path s = true -> Fs.is_dir path (st (m s)) = true.

(** The line of a cycle that uploaded nothing. *)
Definition no_new_line (report_type : string) (cutoff_date : date) : event :=
  Print (nl ^^ "  - No new " ^^ report_type ^^ " reports found after "
         ^^ strftime_Ymd cutoff_date ^^ ".").

(** A date the [datetime] constructor accepts and whose year has four
    digits at most. *)
Definition printable (d : date) : Prop :=
  valid_date d = true /\ year d < 100 * 100.

(** A name that stands for itself between the quotes of a query: it
    holds no quote and no backslash. *)
Definition plain_title (name : string) : bool :=
  negb (existsb (fun c => Ascii.eqb c "'" || Ascii.eqb c "\")
          (list_ascii_of_string name)).

(** The first cell of each of [rows], when it starts with a text, starts
    with an ASCII one. *)
Definition ascii_cells (rows : list node) : bool :=
  forallb (fun report_row =>
             match contents_of (hd report_row (find_all "td" report_row)) with
             | NavigableString raw :: _ => isascii raw
             | _ => true
             end)
          rows.

(** A company code the file system takes in a local name: ASCII without
    the null character, and short enough for
    [<YYYY-MM-DD>-<company_code>.pdf] to stay within the 255 bytes of a
    file name. *)
Definition fits_file_name (company_code : string) : bool :=
  isascii company_code
  && negb (existsb (Ascii.eqb zero) (list_ascii_of_string company_code))
  && (String.length company_code <=? 240).

(* ================================================================== *)
(** ** Sample pages, oracles and states *)

Module Samples.

Definition cell (text : string) : node := Tag "td" [] [NavigableString text].

Definition anchor (href : string) : node :=
  Tag "a" [("href", href)] [NavigableString "Download"].

(** A row with a date and a document link. *)
Definition report (date_text href : string) : node :=
  Tag "tr" [] [cell date_text; Tag "td" [] [anchor href]].

(** A row with a date and no link. *)
Definition linkless (date_text : string) : node :=
  Tag "tr" [] [cell date_text; cell "pending"].

(** A row with a single cell. *)
Definition lonely (text : string) : node := Tag "tr" [] [cell text].

(** A row whose first cell holds a tag before any text. *)
Definition wrapped (date_text href : string) : node :=
  Tag "tr" [] [Tag "td" [] [Tag "b" [] [NavigableString date_text]];
               Tag "td" [] [anchor href]].

Definition table_page (table_id : string) (rows : list node) : node :=
  Tag "html" []
    [Tag "body" []
       [Tag "div" [("id", table_id)] [Tag "table" [] [Tag "tbody" [] rows]]]].

(** The container is there, its table has rows and no [tbody]. *)
Definition bare_page (table_id : string) (rows : list node) : node :=
  Tag "html" []
    [Tag "body" [] [Tag "div" [("id", table_id)] [Tag "table" [] rows]]].

Definition pdf_of (url : string) : outcome response :=
  Ok (mkResponse 200 ("%PDF " ^^ url)).

(** Every outside call goes through; the quarterly tab shows [quarterly],
    the annual tab [annual]. *)
Definition calm (quarterly annual : list node) : env :=
  mkEnv None None (fun _ => None) (fun _ => None) (fun _ => None)
    (fun tab => if String.eqb tab "Quarterly Reports"
                then table_page "21b" quarterly else table_page "11b" annual)
    pdf_of
    (fun _ => None).

Definition HttpError404 (url : string) : outcome response :=
  Ok (mkResponse 404 "").

(** As [calm], with the server answering 404 for [missing]. *)
Definition missing_document (missing : string) (quarterly annual : list node) : env :=
  mkEnv None None (fun _ => None) (fun _ => None) (fun _ => None)
    (fun tab => if String.eqb tab "Quarterly Reports"
                then table_page "21b" quarterly else table_page "11b" annual)
    (fun url => if String.eqb url missing then HttpError404 url else pdf_of url)
    (fun _ => None).

Definition DriveDown : exn := mkExn "ApiRequestError" "HttpError 503".

(** As [calm], with every remote call from the [k]-th on failing. *)
Definition remote_down_from (k : nat) (quarterly annual : list node) : env :=
  mkEnv None None (fun _ => None) (fun _ => None) (fun _ => None)
    (fun tab => if String.eqb tab "Quarterly Reports"
                then table_page "21b" quarterly else table_page "11b" annual)
    pdf_of
    (fun n => if k <=? n then Some DriveDown else None).

(** As [calm], the quarterly container holding a table without [tbody]. *)
Definition no_tbody (quarterly annual : list node) : env :=
  mkEnv None None (fun _ => None) (fun _ => None) (fun _ => None)
    (fun tab => if String.eqb tab "Quarterly Reports"
                then bare_page "21b" quarterly else table_page "11b" annual)
    pdf_of
    (fun _ => None).

(** Nothing on disk, nothing in the store. *)
Definition blank : state := mkState [] [] [] 0.

(** A disk that already holds the directory [temp_reports/2024-03-01-A]. *)
Definition nested_dir : state :=
  mkState [] ["temp_reports"; "temp_reports/2024-03-01-A"] [] 0.

Definition march : node := report "01 Mar 2024" "https://cdn.cse.lk/q1.pdf".
Definition december : node := report "01 Dec 2023" "https://cdn.cse.lk/q4.pdf".
Definition february : node := report "15 Feb 2024" "https://cdn.cse.lk/feb.pdf".
Definition january : node := report "20 Jan 2024" "https://cdn.cse.lk/jan.pdf".
Definition december_linkless : node := linkless "01 Dec 2023".
Definition march_linkless : node := linkless "01 Mar 2024".
Definition undated : node := report "to be announced" "https://cdn.cse.lk/tba.pdf".

Definition cutoff_2024 : date := mkDate 2024 1 1.

(** The table of the specification's example, and its records. *)
Definition two_rows : list node := [march; december].
Definition two_records : list (date * string) :=
  [(mkDate 2024 3 1, "https://cdn.cse.lk/q1.pdf");
   (mkDate 2023 12 1, "https://cdn.cse.lk/q4.pdf")].

Definition november_wrapped : node := wrapped "01 Nov 2023" "https://cdn.cse.lk/nov.pdf".

Definition code : string := "JKH.N0000".

(** The entry the March report becomes in an empty store. *)
Definition march_upload : drive_file :=
  mkDriveFile (gen 4) "2024-03-01-JKH.N0000.pdf" [gen 3] false false
    "%PDF https://cdn.cse.lk/q1.pdf".

(** The store after one quarterly upload for [code] from an empty store. *)
Definition store_after_march : list drive_file :=
  [mkDriveFile (gen 1) "CSE Reports" [root] true false "";
   mkDriveFile (gen 2) code [gen 1] true false "";
   mkDriveFile (gen 3) "Quarterly Reports" [gen 2] true false "";
   march_upload].

Definition march_path : string := "temp_reports/2024-03-01-JKH.N0000.pdf".



(** Three qualifying reports, newest first. *)
Definition three_rows : list node := [march; february; january].

(** The server has lost the February document. *)
Definition february_missing : env :=
  missing_document "https://cdn.cse.lk/feb.pdf" three_rows [].

Definition bad_date_argv : list string := ["scraper.py"; code; "01/01/2024"].
Definition short_argv : list string := ["scraper.py"; code].

(** A row whose first cell is empty. *)
Definition hollow : node :=
  Tag "tr" [] [Tag "td" [] []; Tag "td" [] [anchor "https://cdn.cse.lk/q1.pdf"]].

(** A report published on the cutoff day. *)
Definition new_year : node := report "01 Jan 2024" "https://cdn.cse.lk/ny.pdf".

(** The local copy of the March report is on disk. *)
Definition with_local_copy : state :=
  mkState [(march_path, "%PDF https://cdn.cse.lk/q1.pdf")] ["temp_reports"] [] 0.

(** A store whose only entries named ["CSE Reports"] under the root are
    a folder in the bin and a plain file. *)
Definition binned_store : state :=
  mkState [] []
    [mkDriveFile (gen 1) "CSE Reports" [root] true true "";
     mkDriveFile (gen 2) "CSE Reports" [root] false false "notes"]
    0.

(** As [calm], the store refusing the key. *)
Definition key_refused : env :=
  mkEnv (Some (mkExn "RefreshError" "invalid_grant: Invalid JWT Signature."))
    None (fun _ => None) (fun _ => None) (fun _ => None)
    (fun tab => table_page "21b" two_rows) pdf_of (fun _ => None).

(** As [calm], the browser failing to start. *)
Definition no_browser : env :=
  mkEnv None (Some (mkExn "WebDriverException" "unknown error: Chrome failed to start"))
    (fun _ => None) (fun _ => None) (fun _ => None)
    (fun tab => table_page "21b" two_rows) pdf_of (fun _ => None).

(** As [calm], the company page failing to load. *)
Definition page_unreachable : env :=
  mkEnv None None
    (fun _ => Some (mkExn "WebDriverException" "net::ERR_NAME_NOT_RESOLVED"))
    (fun _ => None) (fun _ => None)
    (fun tab => table_page "21b" two_rows) pdf_of (fun _ => None).

(** As [calm], the page showing no Financials tab. *)
Definition no_financials_tab : env :=
  mkEnv None None (fun _ => None)
    (fun text => if String.eqb text "Financials"
                 then Some (mkExn "TimeoutException" "Message: ") else None)
    (fun _ => None)
    (fun tab => table_page "21b" two_rows) pdf_of (fun _ => None).

End Samples.

(* ================================================================== *)
(** ** Checks of the text and date helpers *)

Example strptime_dbY_ex1 : strptime_dbY "01 Mar 2024" = Some (mkDate 2024 3 1).
Proof. reflexivity. Qed.
Example strptime_dbY_ex2 : strptime_dbY "5 mar 2024" = Some (mkDate 2024 3 5).
Proof. reflexivity. Qed.
Example strptime_dbY_ex3 : strptime_dbY "31 Feb 2024" = None.
Proof. reflexivity. Qed.
Example strptime_dbY_ex4 : strptime_dbY "35 Jan 2024" = None.
Proof. reflexivity. Qed.
Example strptime_dbY_ex5 : strptime_dbY "1  Jan  20245" = None.
Proof. reflexivity. Qed.
Example strptime_Ymd_ex1 : strptime_Ymd "2024-01-01" = Some (mkDate 2024 1 1).
Proof. reflexivity. Qed.
Example strptime_Ymd_ex2 : strptime_Ymd "2024-1-5" = Some (mkDate 2024 1 5).
Proof. reflexivity. Qed.
Example strptime_Ymd_ex3 : strptime_Ymd "01/01/2024" = None.
Proof. reflexivity. Qed.
Example strftime_ex1 : strftime_Ymd (mkDate 2024 3 1) = "2024-03-01".
Proof. reflexivity. Qed.
Example basename_ex1 : basename (path_join "temp_reports" "2024-03-01-JKH.pdf") = "2024-03-01-JKH.pdf".
Proof. reflexivity. Qed.
Example basename_ex2 : basename (path_join "temp_reports" "2024-03-01-A/B.pdf") = "B.pdf".
Proof. reflexivity. Qed.
Example strip_ex1 : strip "  01 Mar 2024
 " = "01 Mar 2024".
Proof. reflexivity. Qed.

(* ================================================================== *)
(** ** Laws of the monad *)

Lemma out_bind {A B} (m : M A) (f : A -> M B) s :
  out (bind m f s) =
  out (m s) ++ match res (m s) with
               | Ok a => out (f a (st (m s)))
               | Raise _ => []
               end.
Proof.
  unfold bind. destruct (m s) as [[a|e] s1 o1]; simpl.
  - now destruct (f a s1).
  - now rewrite app_nil_r.
Qed.

Lemma res_bind {A B} (m : M A) (f : A -> M B) s :
  res (bind m f s) =
  match res (m s) with
  | Ok a => res (f a (st (m s)))
  | Raise e => Raise e
  end.
Proof.
  unfold bind. destruct (m s) as [[a|e] s1 o1]; simpl; [|reflexivity].
  now destruct (f a s1).
Qed.

Lemma st_bind {A B} (m : M A) (f : A -> M B) s :
  st (bind m f s) =
  match res (m s) with
  | Ok a => st (f a (st (m s)))
  | Raise e => st (m s)
  end.
Proof.
  unfold bind. destruct (m s) as [[a|e] s1 o1]; simpl; [|reflexivity].
  now destruct (f a s1).
Qed.

Lemma bind_ext {A B} (m : M A) (f g : A -> M B) s :
  (forall a s', f a s' = g a s') -> bind m f s = bind m g s.
Proof.
  intro H. unfold bind. destruct (m s) as [[a|e] s1 o1]; [now rewrite H | reflexivity].
Qed.

Lemma out_try_except {A} (m : M A) (h : exn -> M A) s :
  out (try_except m h s) =
  out (m s) ++ match res (m s) with
               | Ok _ => []
               | Raise e => out (h e (st (m s)))
               end.
Proof.
  unfold try_except. destruct (m s) as [[a|e] s1 o1]; simpl.
  - now rewrite app_nil_r.
  - now destruct (h e s1).
Qed.

Lemma res_try_except {A} (m : M A) (h : exn -> M A) s :
  res (try_except m h s) =
  match res (m s) with
  | Ok a => Ok a
  | Raise e => res (h e (st (m s)))
  end.
Proof.
  unfold try_except. destruct (m s) as [[a|e] s1 o1]; simpl; [reflexivity|].
  now destruct (h e s1).
Qed.

Lemma st_try_except {A} (m : M A) (h : exn -> M A) s :
  st (try_except m h s) =
  match res (m s) with
  | Ok a => st (m s)
  | Raise e => st (h e (st (m s)))
  end.
Proof.
  unfold try_except. destruct (m s) as [[a|e] s1 o1]; simpl; [reflexivity|].
  now destruct (h e s1).
Qed.

Lemma out_try_finally {A} (m : M A) (c : M unit) s :
  out (try_finally m c s) = out (m s) ++ out (c (st (m s))).
Proof.
  unfold try_finally. destruct (m s) as [r1 s1 o1]; simpl.
  now destruct (c s1) as [[[]|e] s2 o2].
Qed.

Lemma st_try_finally {A} (m : M A) (c : M unit) s :
  st (try_finally m c s) = st (c (st (m s))).
Proof.
  unfold try_finally. destruct (m s) as [r1 s1 o1]; simpl.
  now destruct (c s1) as [[[]|e] s2 o2].
Qed.

Lemma res_try_finally {A} (m : M A) (c : M unit) s :
  res (try_finally m c s) =
  match res (c (st (m s))) with
  | Ok _ => res (m s)
  | Raise e => Raise e
  end.
Proof.
  unfold try_finally. destruct (m s) as [r1 s1 o1]; simpl.
  now destruct (c s1) as [[[]|e] s2 o2].
Qed.

Lemma fetched_app a b : fetched (a ++ b) = fetched a ++ fetched b.
Proof. apply flat_map_app. Qed.

Lemma inserted_app a b : inserted (a ++ b) = inserted a ++ inserted b.
Proof. apply flat_map_app. Qed.

Lemma uploaded_app a b : uploaded (a ++ b) = uploaded a ++ uploaded b.
Proof. unfold uploaded. now rewrite inserted_app, filter_app. Qed.

Section Only.

Variable P : event -> bool.

Lemma only_ret {A} (a : A) : only P (ret a).
Proof. intro s. reflexivity. Qed.

Lemma only_raise {A} (e : exn) : only P (@raise A e).
Proof. intro s. reflexivity. Qed.

Lemma only_get_state : only P get_state.
Proof. intro s. reflexivity. Qed.

Lemma only_put_state s' : only P (put_state s').
Proof. intro s. reflexivity. Qed.

Lemma only_attempt r : only P (attempt r).
Proof. destruct r; [apply only_raise | apply only_ret]. Qed.

Lemma only_lift {A} (o : outcome A) : only P (lift o).
Proof. destruct o; [apply only_ret | apply only_raise]. Qed.

Lemma only_emit e : P e = true -> only P (emit e).
Proof. intros H s. simpl. now rewrite H. Qed.

Lemma only_print line : P (Print line) = true -> only P (print line).
Proof. apply only_emit. Qed.

Lemma only_bind {A B} (m : M A) (f : A -> M B) :
  only P m -> (forall a, only P (f a)) -> only P (bind m f).
Proof.
  intros Hm Hf s. rewrite out_bind, forallb_app, Hm. simpl.
  destruct (res (m s)); [apply Hf | reflexivity].
Qed.

Lemma only_try_except {A} (m : M A) (h : exn -> M A) :
  only P m -> (forall e, only P (h e)) -> only P (try_except m h).
Proof.
  intros Hm Hh s. rewrite out_try_except, forallb_app, Hm. simpl.
  destruct (res (m s)); [reflexivity | apply Hh].
Qed.

Lemma only_try_finally {A} (m : M A) (c : M unit) :
  only P m -> only P c -> only P (try_finally m c).
Proof.
  intros Hm Hc s. now rewrite out_try_finally, forallb_app, Hm, Hc.
Qed.

End Only.

Lemma keeps_ret {A} (a : A) : keeps_data (ret a).
Proof. intro s. now repeat split. Qed.

Lemma keeps_raise {A} (e : exn) : keeps_data (@raise A e).
Proof. intro s. now repeat split. Qed.

Lemma keeps_emit e : keeps_data (emit e).
Proof. intro s. now repeat split. Qed.

Lemma keeps_print line : keeps_data (print line).
Proof. apply keeps_emit. Qed.

Lemma keeps_attempt r : keeps_data (attempt r).
Proof. destruct r; [apply keeps_raise | apply keeps_ret]. Qed.

Lemma keeps_bind {A B} (m : M A) (f : A -> M B) :
  keeps_data m -> (forall a, keeps_data (f a)) -> keeps_data (bind m f).
Proof.
  intros Hm Hf s. rewrite st_bind.
  destruct (res (m s)) as [a|e]; [|apply Hm].
  destruct (Hf a (st (m s))) as (F & D & R), (Hm s) as (F' & D' & R').
  repeat split; congruence.
Qed.

Lemma keeps_try_except {A} (m : M A) (h : exn -> M A) :
  keeps_data m -> (forall e, keeps_data (h e)) -> keeps_data (try_except m h).
Proof.
  intros Hm Hh s. rewrite st_try_except.
  destruct (res (m s)) as [a|e]; [apply Hm|].
  destruct (Hh e (st (m s))) as (F & D & R), (Hm s) as (F' & D' & R').
  repeat split; congruence.
Qed.

Lemma keeps_try_finally {A} (m : M A) (c : M unit) :
  keeps_data m -> keeps_data c -> keeps_data (try_finally m c).
Proof.
  intros Hm Hc s. rewrite st_try_finally.
  destruct (Hc (st (m s))) as (F & D & R), (Hm s) as (F' & D' & R').
  repeat split; congruence.
Qed.

Lemma only_nothing_fetched {A} (m : M A) s :
  only (fun e => negb (is_fetch e)) m -> fetched (out (m s)) = [].
Proof.
  intros H. specialize (H s). induction (out (m s)) as [|e l IH]; [reflexivity|].
  simpl in H. apply andb_prop in H as [He Hl].
  destruct e; try discriminate; simpl; auto.
Qed.

Lemma only_nothing_inserted {A} (m : M A) s :
  only (fun e => negb (is_remote_write e)) m -> inserted (out (m s)) = [].
Proof.
  intros H. specialize (H s). induction (out (m s)) as [|e l IH]; [reflexivity|].
  simpl in H. apply andb_prop in H as [He Hl].
  destruct e; try discriminate; simpl; auto.
Qed.

(** Repeated steps: split a sequence, settle an emitted event by
    evaluation, branch on what a test or a lookup gives. *)
Ltac step_only :=
  first
    [ apply only_ret | apply only_raise | apply only_get_state
    | apply only_put_state | apply only_attempt | apply only_lift
    | apply only_emit; reflexivity | apply only_print; reflexivity
    | apply only_bind; [|intro]
    | apply only_try_except; [|intro]
    | apply only_try_finally
    | match goal with
      | |- only _ (if ?b then _ else _) => destruct b
      | |- only _ (match ?x with _ => _ end) => destruct x
      end ].

Ltac step_keeps :=
  first
    [ apply keeps_ret | apply keeps_raise | apply keeps_emit
    | apply keeps_print | apply keeps_attempt
    | apply keeps_bind; [|intro]
    | apply keeps_try_except; [|intro]
    | apply keeps_try_finally
    | match goal with
      | |- keeps_data (if ?b then _ else _) => destruct b
      | |- keeps_data (match ?x with _ => _ end) => destruct x
      end ].

(* ================================================================== *)
(** ** What each operation of the script can emit *)

Section Quiet.

Variable E : env.
Variable P : event -> bool.

Lemma only_drive_call : only P (drive_call E).
Proof. unfold drive_call. repeat step_only. Qed.

Lemma only_makedirs path : P (MakeDirs path) = true -> only P (Fs.makedirs path).
Proof. intro H. unfold Fs.makedirs. repeat step_only. now apply only_emit. Qed.

Lemma only_write_file path data :
  P (FileWrite path) = true -> only P (Fs.write_file path data).
Proof. intro H. unfold Fs.write_file. repeat step_only. now apply only_emit. Qed.

Lemma only_read_file path : only P (Fs.read_file path).
Proof. unfold Fs.read_file. repeat step_only. Qed.

Lemma only_remove path : P (FileRemove path) = true -> only P (Fs.remove path).
Proof. intro H. unfold Fs.remove. repeat step_only. now apply only_emit. Qed.

Lemma only_raise_for_status url r : only P (raise_for_status url r).
Proof. unfold raise_for_status. repeat step_only. Qed.

Hypothesis P_print : forall line, P (Print line) = true.
Hypothesis P_list : forall t p, P (DriveList t p) = true.
Hypothesis P_insert : forall f, P (DriveInsert f) = true.

Lemma only_drive_insert title parent is_folder data :
  only P (drive_insert E title parent is_folder data).
Proof.
  unfold drive_insert.
  apply only_bind; [apply only_drive_call|intro].
  apply only_bind; [apply only_get_state|intro].
  apply only_bind; [apply only_put_state|intro].
  apply only_bind; [now apply only_emit|intro]. apply only_ret.
Qed.

Lemma only_get_or_create_folder name parent :
  only P (get_or_create_folder E name parent).
Proof.
  unfold get_or_create_folder.
  apply only_bind; [now apply only_emit|intro].
  apply only_bind; [apply only_drive_call|intro].
  apply only_bind; [apply only_get_state|intro].
  destruct (filter _ _).
  - apply only_bind; [now apply only_print|intro]. apply only_drive_insert.
  - apply only_bind; [now apply only_print|intro]. apply only_ret.
Qed.

Lemma only_upload_to_drive path cc rt : only P (upload_to_drive E path cc rt).
Proof.
  unfold upload_to_drive.
  apply only_bind; [now apply only_print|intro].
  do 3 (apply only_bind; [apply only_get_or_create_folder|intro]).
  apply only_bind; [apply only_read_file|intro].
  apply only_bind; [apply only_drive_insert|intro].
  now apply only_print.
Qed.

End Quiet.

(* ================================================================== *)
(** ** The loop over the rows *)

Section Loop.

Variable E : env.
Variables company_code report_type : string.
Variable cutoff_date : date.

Local Abbreviation loop := (for_rows E company_code report_type cutoff_date).
Local Abbreviation process := (fetch_and_upload E company_code report_type).

(** One turn of the loop. *)
Lemma for_rows_cons report_row rest n :
  loop (report_row :: rest) n =
  let columns := find_all "td" report_row in
  if length columns <? 2 then loop rest n
  else
    bind (lift (first_text (hd report_row columns)))
      (fun uploaded_date_str =>
         match strptime_dbY uploaded_date_str with
         | None => loop rest n
         | Some date_obj =>
             if date_geb date_obj cutoff_date then
               match find_pdf_link report_row with
               | None => loop rest n
               | Some pdf_link_tag =>
                   bind (process pdf_link_tag date_obj) (fun _ => loop rest (n + 1))
               end
             else
               bind (print "  - Reached end of valid date range. No more reports to check.")
                 (fun _ => ret n)
         end).
Proof. reflexivity. Qed.

Lemma for_rows_few_cells row rest n s :
  length (find_all "td" row) < 2 ->
  loop (row :: rest) n s = loop rest n s.
Proof.
  intro H. apply Nat.ltb_lt in H. rewrite for_rows_cons. cbv zeta. now rewrite H.
Qed.

Lemma bind_lift_ok {A B} (a : A) (f : A -> M B) s : bind (lift (Ok a)) f s = f a s.
Proof. unfold bind, lift, ret. simpl. now destruct (f a s). Qed.

Lemma for_rows_bad_date row rest n s text :
  first_text (hd row (find_all "td" row)) = Ok text ->
  strptime_dbY text = None ->
  loop (row :: rest) n s = loop rest n s.
Proof.
  intros T D. rewrite for_rows_cons. cbv zeta. destruct (_ <? 2); [reflexivity|].
  now rewrite T, bind_lift_ok, D.
Qed.

Lemma for_rows_no_link row rest n s text d :
  first_text (hd row (find_all "td" row)) = Ok text ->
  strptime_dbY text = Some d ->
  date_geb d cutoff_date = true ->
  find_pdf_link row = None ->
  loop (row :: rest) n s = loop rest n s.
Proof.
  intros T D G L. rewrite for_rows_cons. cbv zeta. destruct (_ <? 2); [reflexivity|].
  now rewrite T, bind_lift_ok, D, G, L.
Qed.

(** A row dated before the cutoff ends the loop, with or without a link. *)
Lemma for_rows_old_row row rest n s text d :
  first_text (hd row (find_all "td" row)) = Ok text ->
  strptime_dbY text = Some d ->
  date_geb d cutoff_date = false ->
  2 <= length (find_all "td" row) ->
  loop (row :: rest) n s =
  mkRun (Ok n) s [Print "  - Reached end of valid date range. No more reports to check."].
Proof.
  intros T D G L. apply Nat.ltb_ge in L.
  rewrite for_rows_cons. cbv zeta. now rewrite L, T, bind_lift_ok, D, G.
Qed.

(** A record row unfolds to its date, its link and its URL. *)
Lemma row_record_inv row d u :
  row_record row = Some (d, u) ->
  exists text a,
    (length (find_all "td" row) <? 2) = false
    /\ first_text (hd row (find_all "td" row)) = Ok text
    /\ strptime_dbY text = Some d
    /\ find_pdf_link row = Some a
    /\ u = match attr_of "href" a with Some h => h | None => "" end.
Proof.
  unfold row_record.
  destruct (_ <? 2) eqn:C; [discriminate|].
  destruct (first_text _) as [text|] eqn:T; [|discriminate].
  destruct (strptime_dbY text) as [d'|] eqn:D; [|discriminate].
  destruct (find_pdf_link row) as [a|] eqn:L; [|discriminate].
  intro H. inversion H; subst. now exists text, a.
Qed.

Lemma for_rows_old_record row rest n s d u :
  row_record row = Some (d, u) ->
  date_geb d cutoff_date = false ->
  loop (row :: rest) n s =
  mkRun (Ok n) s [Print "  - Reached end of valid date range. No more reports to check."].
Proof.
  intros R G. apply row_record_inv in R as (text & a & C & T & D & L & U).
  rewrite for_rows_cons. cbv zeta. now rewrite C, T, bind_lift_ok, D, G.
Qed.

Lemma for_rows_new_record row rest n s d u :
  row_record row = Some (d, u) ->
  date_geb d cutoff_date = true ->
  exists a,
    find_pdf_link row = Some a
    /\ u = match attr_of "href" a with Some h => h | None => "" end
    /\ loop (row :: rest) n s = bind (process a d) (fun _ => loop rest (n + 1)) s.
Proof.
  intros R G. apply row_record_inv in R as (text & a & C & T & D & L & U).
  exists a. repeat split; trivial.
  rewrite for_rows_cons. cbv zeta. now rewrite C, T, bind_lift_ok, D, G, L.
Qed.

(** Whatever follows a record older than the cutoff is never looked at. *)
Lemma for_rows_stops pre old rest rest' n s d u :
  row_record old = Some (d, u) ->
  date_geb d cutoff_date = false ->
  loop (pre ++ old :: rest) n s = loop (pre ++ old :: rest') n s.
Proof.
  intros R G. revert n s.
  induction pre as [|row pre IH]; intros n s; simpl app.
  - now rewrite !(for_rows_old_record old _ n s d u R G).
  - rewrite !for_rows_cons. cbv zeta.
    destruct (_ <? 2); [apply IH|].
    apply bind_ext; intros text s1.
    destruct (strptime_dbY text) as [dt|]; [|apply IH].
    destruct (date_geb dt cutoff_date); [|reflexivity].
    destruct (find_pdf_link row) as [a|]; [|apply IH].
    apply bind_ext; intros _ s2. apply IH.
Qed.

(** One qualifying record asks for its URL once, and at most once when
    the step fails. *)
Lemma fetch_and_upload_fetched a d s :
  let u := match attr_of "href" a with Some h => h | None => "" end in
  let r := process a d s in
  (fetched (out r) = [] \/ fetched (out r) = [u])
  /\ (res r = Ok tt -> fetched (out r) = [u]).
Proof.
  intros u r. subst r. unfold fetch_and_upload.
  rewrite out_bind, res_bind, fetched_app.
  rewrite (only_nothing_fetched (Fs.makedirs "temp_reports") s)
    by (now apply only_makedirs).
  destruct (res (Fs.makedirs "temp_reports" s)) as [[]|e];
    [|split; [now left | discriminate]].
  set (s1 := st (Fs.makedirs "temp_reports" s)).
  do 3 (rewrite out_bind, fetched_app; simpl (res _); cbv iota beta).
  fold u.
  match goal with
  | |- context [fetched (out (bind ?m ?f ?x))] =>
      assert (Q : fetched (out (bind m f x)) = [])
  end.
  { apply only_nothing_fetched.
    apply only_bind; [apply only_lift|intro].
    apply only_bind; [apply only_raise_for_status|intro].
    apply only_bind; [now apply only_write_file|intro].
    apply only_bind; [now apply only_upload_to_drive|intro].
    now apply only_remove. }
  rewrite Q. simpl. split; [now right | reflexivity].
Qed.

End Loop.

(* ================================================================== *)
(** ** Order of dates *)

Lemma date_geb_trans a b c :
  date_geb a b = true -> date_geb b c = true -> date_geb a c = true.
Proof.
  unfold date_geb, date_leb.
  destruct a as [ya ma da], b as [yb mb db], c as [yc mc dc]; simpl.
  rewrite !orb_true_iff, !andb_true_iff, !orb_true_iff, !andb_true_iff,
    !Nat.ltb_lt, !Nat.eqb_eq, !Nat.leb_le.
  lia.
Qed.

Lemma descending_strong ds :
  descending ds -> StronglySorted (fun d d' => date_geb d d' = true) ds.
Proof.
  apply Sorted_StronglySorted. intros a b c. apply date_geb_trans.
Qed.

Lemma descending_tail d ds : descending (d :: ds) -> descending ds.
Proof. intro H. now inversion H. Qed.

(** Below the cutoff once, below it from there on. *)
Lemma descending_all_old (cutoff d : date) (recs : list (date * string)) :
  descending (d :: map fst recs) ->
  date_geb d cutoff = false ->
  filter (fun rc => date_geb (fst rc) cutoff) recs = []
  /\ filter (fun rc => negb (date_geb (fst rc) cutoff)) recs = recs.
Proof.
  intros S G. apply descending_strong in S. inversion S as [|? ? _ F]; subst.
  clear S. induction recs as [|[d' u'] recs IH]; [now split|].
  simpl in F. inversion F as [|? ? Hd F']; subst.
  destruct (IH F') as [K O]. simpl.
  destruct (date_geb d' cutoff) eqn:G'.
  - rewrite (date_geb_trans d d' cutoff Hd G') in G. discriminate.
  - simpl. now rewrite O.
Qed.

(** In a newest-first table the records at or after the cutoff come
    first. *)
Lemma descending_split (cutoff : date) (recs : list (date * string)) :
  descending (map fst recs) ->
  recs = filter (fun rc => date_geb (fst rc) cutoff) recs
         ++ filter (fun rc => negb (date_geb (fst rc) cutoff)) recs.
Proof.
  induction recs as [|[d u] recs IH]; intro S; [reflexivity|].
  simpl. destruct (date_geb d cutoff) eqn:G; simpl.
  - f_equal. apply IH. now apply descending_tail in S.
  - destruct (descending_all_old cutoff d recs S G) as [K O].
    now rewrite K, O.
Qed.

Section Cutoff.

Variable E : env.
Variables company_code report_type : string.
Variable cutoff_date : date.

Local Abbreviation loop := (for_rows E company_code report_type cutoff_date).
Local Abbreviation keep :=
  (filter (fun rc : date * string => date_geb (fst rc) cutoff_date)).

Lemma loop_fetches_prefix rows : forall recs n s,
  map row_record rows = map Some recs ->
  descending (map fst recs) ->
  (exists t, map snd (keep recs) = fetched (out (loop rows n s)) ++ t)
  /\ (forall k, res (loop rows n s) = Ok k ->
                fetched (out (loop rows n s)) = map snd (keep recs)
                /\ k = n + length (keep recs)).
Proof.
  induction rows as [|row rows IH]; intros [|[d u] recs] n s Hr Hs;
    try discriminate.
  - simpl. split; [now exists [] | intros k H; inversion H; split; [reflexivity | lia]].
  - simpl in Hr. injection Hr as Hrow Hrows.
    destruct (date_geb d cutoff_date) eqn:G.
    + destruct (for_rows_new_record E company_code report_type cutoff_date
                  row rows n s d u Hrow G) as (a & L & U & Eq).
      rewrite Eq, out_bind, res_bind, fetched_app. simpl filter. rewrite G. simpl map.
      destruct (fetch_and_upload_fetched E company_code report_type a d s) as [F1 F2].
      cbv zeta in F1, F2. rewrite <- U in F1, F2.
      destruct (res (fetch_and_upload E company_code report_type a d s)) as [[]|e].
      * rewrite (F2 eq_refl).
        destruct (IH recs (n + 1) (st (fetch_and_upload E company_code report_type a d s))
                    Hrows (descending_tail _ _ Hs)) as [[t Ht] Hk].
        split.
        -- exists t. simpl. now rewrite Ht.
        -- intros k H. destruct (Hk k H) as [Hf Hn]. simpl. rewrite Hf.
           split; [reflexivity | simpl; lia].
      * split; [|discriminate]. rewrite app_nil_r.
        destruct F1 as [F|F]; rewrite F;
          [now exists (u :: map snd (keep recs)) | now exists (map snd (keep recs))].
    + rewrite (for_rows_old_record E company_code report_type cutoff_date
                 row rows n s d u Hrow G).
      simpl filter. rewrite G.
      destruct (descending_all_old cutoff_date d recs Hs G) as [K _]. rewrite K.
      simpl. split; [now exists []|].
      intros k H. inversion H. split; [reflexivity | lia].
Qed.

Lemma loop_ignores_rest rows : forall recs n s pre old rest rest',
  map row_record rows = map Some recs ->
  descending (map fst recs) ->
  rows = pre ++ old :: rest ->
  length pre = length (keep recs) ->
  loop (pre ++ old :: rest') n s = loop rows n s.
Proof.
  intros recs n s pre old rest rest' Hr Hs -> Hl.
  pose proof (descending_split cutoff_date recs Hs) as Sp.
  set (older := filter (fun rc => negb (date_geb (fst rc) cutoff_date)) recs) in Sp.
  assert (Ho : exists d u, row_record old = Some (d, u) /\ date_geb d cutoff_date = false).
  { rewrite Sp, !map_app in Hr.
    assert (Hlen : length (map row_record pre) = length (map Some (keep recs)))
      by (now rewrite !length_map).
    destruct (app_eq_app _ _ _ _ Hr) as [l [[H1 H2]|[H1 H2]]].
    - rewrite H1, length_app in Hlen.
      destruct l; [|simpl in Hlen; lia].
      simpl in H2. destruct older as [|[d u] older'] eqn:Ol; [discriminate|].
      simpl in H2. injection H2 as H2 _. exists d, u. split; [now symmetry|].
      assert (I : In (d, u) older) by (rewrite Ol; now left).
      apply filter_In in I as [_ I]. simpl in I. now apply negb_true_iff in I.
    - rewrite H1, length_app in Hlen.
      destruct l; [|simpl in Hlen; lia].
      rewrite app_nil_r in H1. simpl in H2.
      destruct older as [|[d u] older'] eqn:Ol; [discriminate|].
      simpl in H2. injection H2 as H2 _. exists d, u. split; [exact H2|].
      assert (I : In (d, u) older) by (rewrite Ol; now left).
      apply filter_In in I as [_ I]. simpl in I. now apply negb_true_iff in I. }
  destruct Ho as (d & u & Ro & Go).
  apply (for_rows_stops E company_code report_type cutoff_date pre old rest' rest n s d u Ro Go).
Qed.

End Cutoff.

(* ================================================================== *)
(** ** The cutoff *)

(** C1. On a table of report records sorted newest first, the loop asks
    for exactly the records dated at or after the cutoff, which form the
    front of the table: the requests made are always a prefix of their
    URLs, in order, and all of them once the loop completes, its counter
    then having grown by their number. The first record older than the
    cutoff ends the loop: whatever rows stand after it, the run is the
    same. *)
Theorem cutoff_filter_prefix_and_stop :
  forall (E : env) (company_code report_type : string) (cutoff_date : date)
         (rows : list node) (recs : list (date * string)) (n : nat) (s : state),
    map row_record rows = map Some recs ->
    descending (map fst recs) ->
    let keep := filter (fun rc => date_geb (fst rc) cutoff_date) recs in
    let older := filter (fun rc => negb (date_geb (fst rc) cutoff_date)) recs in
    let r := for_rows E company_code report_type cutoff_date rows n s in
    recs = keep ++ older
    /\ (exists t, map snd keep = fetched (out r) ++ t)
    /\ (forall k, res r = Ok k ->
                  fetched (out r) = map snd keep /\ k = n + length keep)
    /\ (forall pre old rest rest',
          rows = pre ++ old :: rest ->
          length pre = length keep ->
          for_rows E company_code report_type cutoff_date (pre ++ old :: rest') n s = r).
Proof.
  intros E cc rt cutoff rows recs n s Hr Hs keep older r.
  split; [apply descending_split, Hs|].
  destruct (loop_fetches_prefix E cc rt cutoff rows recs n s Hr Hs) as [Hp Hk].
  split; [exact Hp|]. split; [exact Hk|].
  intros pre old rest rest' Hrows Hlen.
  now apply (loop_ignores_rest E cc rt cutoff rows recs n s pre old rest rest').
Qed.

(** The table of the specification: a March 2024 report above a December
    2023 one, cutoff 2024-01-01; only the first is asked for, and a row
    put after the second, even one that would fail, changes nothing. *)
Lemma cutoff_filter_prefix_and_stop_witness :
  map row_record Samples.two_rows = map Some Samples.two_records
  /\ descending (map fst Samples.two_records)
  /\ fetched (out (for_rows (Samples.calm [] []) Samples.code "Quarterly"
                     Samples.cutoff_2024 Samples.two_rows 0 Samples.blank))
     = ["https://cdn.cse.lk/q1.pdf"]
  /\ for_rows (Samples.calm [] []) Samples.code "Quarterly" Samples.cutoff_2024
       ([Samples.march] ++ Samples.december :: [Samples.november_wrapped])
       0 Samples.blank
     = for_rows (Samples.calm [] []) Samples.code "Quarterly" Samples.cutoff_2024
         Samples.two_rows 0 Samples.blank.
Proof.
  assert (Hr : map row_record Samples.two_rows = map Some Samples.two_records)
    by reflexivity.
  assert (Hs : descending (map fst Samples.two_records)) by (repeat constructor).
  destruct (cutoff_filter_prefix_and_stop (Samples.calm [] []) Samples.code "Quarterly"
              Samples.cutoff_2024 Samples.two_rows Samples.two_records 0
              Samples.blank Hr Hs)
    as (_ & _ & Hk & Hstop).
  split; [exact Hr|]. split; [exact Hs|]. split.
  - exact (proj1 (Hk 1 eq_refl)).
  - exact (Hstop [Samples.march] Samples.december [] [Samples.november_wrapped]
             eq_refl eq_refl).
Defined.

(* ================================================================== *)
(** ** Rows that are not records *)

(** C9. A row with fewer than two cells is passed over at once: the loop
    goes on with the rows after it, with the same counter and from the
    same state, whatever the cutoff, the row's text and its links. *)
Theorem short_row_is_skipped :
  forall (E : env) (company_code report_type : string) (cutoff_date : date)
         (report_row : node) (rest : list node) (n : nat) (s : state),
    length (find_all "td" report_row) < 2 ->
    for_rows E company_code report_type cutoff_date (report_row :: rest) n s
    = for_rows E company_code report_type cutoff_date rest n s.
Proof.
  intros. now apply for_rows_few_cells.
Qed.

(** A one-cell row whose text is not a date and that heads a table: the
    March report after it is still processed. *)
Lemma short_row_is_skipped_witness :
  length (find_all "td" (Samples.lonely "Financial Year 2024")) < 2
  /\ for_rows (Samples.calm [] []) Samples.code "Quarterly" Samples.cutoff_2024
       [Samples.lonely "Financial Year 2024"; Samples.march] 0 Samples.blank
     = for_rows (Samples.calm [] []) Samples.code "Quarterly" Samples.cutoff_2024
         [Samples.march] 0 Samples.blank.
Proof.
  split.
  - simpl. lia.
  - apply (short_row_is_skipped (Samples.calm [] []) Samples.code "Quarterly"
             Samples.cutoff_2024 (Samples.lonely "Financial Year 2024")
             [Samples.march] 0 Samples.blank).
    simpl. lia.
Defined.

(** C2, as stated, fails: a row without a document link whose date is
    before the cutoff ends the loop. Here the December row has no link
    and the March report after it is never asked for, while the table
    without the December row has it fetched. *)
Lemma linkless_old_row_ends_the_loop :
  find_pdf_link Samples.december_linkless = None
  /\ fetched (out (for_rows (Samples.calm [] []) Samples.code "Quarterly"
                     Samples.cutoff_2024
                     [Samples.december_linkless; Samples.march] 0 Samples.blank)) = []
  /\ fetched (out (for_rows (Samples.calm [] []) Samples.code "Quarterly"
                     Samples.cutoff_2024 [Samples.march] 0 Samples.blank))
     = ["https://cdn.cse.lk/q1.pdf"]
  /\ for_rows (Samples.calm [] []) Samples.code "Quarterly" Samples.cutoff_2024
       [Samples.december_linkless; Samples.march] 0 Samples.blank
     <> for_rows (Samples.calm [] []) Samples.code "Quarterly" Samples.cutoff_2024
          [Samples.march] 0 Samples.blank.
Proof.
  split; [reflexivity|]. split; [reflexivity|]. split; [reflexivity|].
  intro H. apply (f_equal (fun r => fetched (out r))) in H.
  vm_compute in H. discriminate.
Qed.

(** C2, amended. Take a row whose first cell starts with a text of ASCII
    characters, and read that text, stripped, as a date.  If it does not
    read as one, or if it reads as a date at or after the cutoff and the
    row has no link to a [.pdf], the row is passed over: the loop goes on
    with the rows after it, with the same counter and from the same
    state.  If it reads as a date before the cutoff and the row has two
    cells or more, the loop ends there, whether or not the row has a
    link: the link is looked for after the cutoff test only. *)
Theorem malformed_row_is_skipped :
  forall (E : env) (company_code report_type : string) (cutoff_date : date)
         (report_row : node) (rest : list node) (n : nat) (s : state)
         (raw : string) (more : list node),
    contents_of (hd report_row (find_all "td" report_row)) = NavigableString raw :: more ->
    isascii raw = true ->
    (strptime_dbY (Text.strip raw) = None ->
     for_rows E company_code report_type cutoff_date (report_row :: rest) n s
     = for_rows E company_code report_type cutoff_date rest n s)
    /\ (forall d,
          strptime_dbY (Text.strip raw) = Some d ->
          date_geb d cutoff_date = true ->
          find_pdf_link report_row = None ->
          for_rows E company_code report_type cutoff_date (report_row :: rest) n s
          = for_rows E company_code report_type cutoff_date rest n s)
    /\ (forall d,
          strptime_dbY (Text.strip raw) = Some d ->
          date_geb d cutoff_date = false ->
          2 <= length (find_all "td" report_row) ->
          for_rows E company_code report_type cutoff_date (report_row :: rest) n s
          = mkRun (Ok n) s
              [Print "  - Reached end of valid date range. No more reports to check."]).
Proof.
  intros E cc rt cutoff row rest n s raw more C _.
  assert (T : first_text (hd row (find_all "td" row)) = Ok (Text.strip raw))
    by (unfold first_text; now rewrite C).
  split; [|split].
  - intro D. now apply for_rows_bad_date with (Text.strip raw).
  - intros d D G L. now apply for_rows_no_link with (Text.strip raw) d.
  - intros d D G L. now apply for_rows_old_row with (Text.strip raw) d.
Qed.

Lemma malformed_row_is_skipped_witness :
  (for_rows (Samples.calm [] []) Samples.code "Quarterly" Samples.cutoff_2024
     [Samples.undated; Samples.march] 0 Samples.blank
   = for_rows (Samples.calm [] []) Samples.code "Quarterly" Samples.cutoff_2024
       [Samples.march] 0 Samples.blank)
  /\ (for_rows (Samples.calm [] []) Samples.code "Quarterly" Samples.cutoff_2024
        [Samples.march_linkless; Samples.february] 0 Samples.blank
      = for_rows (Samples.calm [] []) Samples.code "Quarterly" Samples.cutoff_2024
          [Samples.february] 0 Samples.blank)
  /\ (for_rows (Samples.calm [] []) Samples.code "Quarterly" Samples.cutoff_2024
        [Samples.december_linkless; Samples.march] 0 Samples.blank
      = mkRun (Ok 0) Samples.blank
          [Print "  - Reached end of valid date range. No more reports to check."]).
Proof.
  split; [|split].
  - apply (proj1 (malformed_row_is_skipped (Samples.calm [] []) Samples.code "Quarterly"
                    Samples.cutoff_2024 Samples.undated [Samples.march] 0 Samples.blank
                    "to be announced" [] eq_refl eq_refl)).
    reflexivity.
  - apply (proj1 (proj2 (malformed_row_is_skipped (Samples.calm [] []) Samples.code
                           "Quarterly" Samples.cutoff_2024 Samples.march_linkless
                           [Samples.february] 0 Samples.blank "01 Mar 2024" []
                           eq_refl eq_refl))
             (mkDate 2024 3 1)); reflexivity.
  - apply (proj2 (proj2 (malformed_row_is_skipped (Samples.calm [] []) Samples.code
                           "Quarterly" Samples.cutoff_2024 Samples.december_linkless
                           [Samples.march] 0 Samples.blank "01 Dec 2023" []
                           eq_refl eq_refl))
             (mkDate 2023 12 1)); [reflexivity | reflexivity | simpl; lia].
Defined.

(* ================================================================== *)
(** ** Folders of the remote store *)

Lemma file_id_eqb_eq a b : file_id_eqb a b = true <-> a = b.
Proof.
  destruct a, b; simpl; try (split; [discriminate | intro H; inversion H]).
  - now split.
  - rewrite Nat.eqb_eq. split; [now intros -> | intro H; now inversion H].
Qed.

Lemma existsb_file_id p ps : existsb (file_id_eqb p) ps = true <-> In p ps.
Proof.
  rewrite existsb_exists. split.
  - intros (x & I & H). apply file_id_eqb_eq in H. now subst.
  - intro I. exists p. split; [exact I | now apply file_id_eqb_eq].
Qed.

Lemma folder_matches_spec name parent f :
  folder_matches name parent f = true <-> is_live_folder name parent f.
Proof.
  unfold folder_matches, is_live_folder.
  rewrite !andb_true_iff, existsb_file_id, String.eqb_eq, negb_true_iff. tauto.
Qed.

(** The folder [get_or_create_folder] creates is found by its own query,
    and by no query for another name or parent. *)
Lemma folder_matches_new name parent name' parent' i :
  folder_matches name' parent' (mkDriveFile i name [parent] true false "") = true
  <-> name' = name /\ parent' = parent.
Proof.
  rewrite folder_matches_spec. unfold is_live_folder. simpl.
  split.
  - intros (T & [P|[]] & _). now split.
  - intros [-> ->]. repeat split. now left.
Qed.

Section Folders.

Variable E : env.

(** The four ways a call of [get_or_create_folder] can go. *)
Lemma get_or_create_folder_run name parent s :
  get_or_create_folder E name parent s =
  match drive_fault E (api_calls s) with
  | Some e => mkRun (Raise e) (called 1 s) [DriveList name parent]
  | None =>
      match filter (folder_matches name parent) (drive s) with
      | f :: _ =>
          mkRun (Ok (df_id f)) (called 1 s)
            [DriveList name parent;
             Print ("  - Found existing folder: '" ^^ name ^^ "'")]
      | [] =>
          match drive_fault E (S (api_calls s)) with
          | Some e =>
              mkRun (Raise e) (called 2 s)
                [DriveList name parent;
                 Print ("  - Folder '" ^^ name ^^ "' not found. Creating...")]
          | None =>
              let f := mkDriveFile (fresh_id (drive s)) name [parent] true false "" in
              mkRun (Ok (df_id f))
                (mkState (files s) (dirs s) (drive s ++ [f]) (2 + api_calls s))
                [DriveList name parent;
                 Print ("  - Folder '" ^^ name ^^ "' not found. Creating...");
                 DriveInsert f]
          end
      end
  end.
Proof.
  unfold get_or_create_folder, drive_insert, drive_call, bind, called. simpl.
  destruct (drive_fault E (api_calls s)); simpl; [reflexivity|].
  destruct (filter _ _); simpl; [|reflexivity].
  destruct (drive_fault E (S (api_calls s))); reflexivity.
Qed.

End Folders.

(** C3. Two calls of [get_or_create_folder] in a row with the same name
    and parent, both returning, the name holding neither a quote nor a
    backslash (so that the query asks for that title): they return the
    same identifier; the
    second call adds nothing to the store, so that the two together add
    at most one folder; the identifier is that of a live folder of that
    name under that parent; and a store with at most one live folder per
    name and parent stays so, with exactly one for this name and
    parent. *)
Theorem get_or_create_folder_idempotent :
  forall (E : env) (folder_name : string) (parent_folder_id : file_id) (s : state)
         (id1 id2 : file_id),
    plain_title folder_name = true ->
    res (get_or_create_folder E folder_name parent_folder_id s) = Ok id1 ->
    res (get_or_create_folder E folder_name parent_folder_id
           (st (get_or_create_folder E folder_name parent_folder_id s))) = Ok id2 ->
    let r1 := get_or_create_folder E folder_name parent_folder_id s in
    let r2 := get_or_create_folder E folder_name parent_folder_id (st r1) in
    id1 = id2
    /\ inserted (out r2) = []
    /\ drive (st r2) = drive (st r1)
    /\ length (inserted (out r1 ++ out r2)) <= 1
    /\ (exists f, In f (drive (st r2)) /\ df_id f = id1
                  /\ is_live_folder folder_name parent_folder_id f)
    /\ (unique_folders (drive s) ->
        unique_folders (drive (st r2))
        /\ length (filter (folder_matches folder_name parent_folder_id)
                     (drive (st r2))) = 1).
Proof.
  intros E name parent s id1 id2 _ H1 H2 r1 r2. subst r1 r2.
  revert H2. rewrite (get_or_create_folder_run E name parent s) in *.
  destruct (drive_fault E (api_calls s)) as [e|]; [discriminate|].
  destruct (filter (folder_matches name parent) (drive s)) as [|f fs] eqn:Q.
  - (* nothing found: the first call creates the folder *)
    destruct (drive_fault E (S (api_calls s))) as [e|]; [discriminate|].
    cbv zeta in *. simpl in H1. injection H1 as <-.
    set (f := mkDriveFile (fresh_id (drive s)) name [parent] true false "").
    rewrite get_or_create_folder_run. simpl drive. simpl api_calls.
    destruct (drive_fault E (S (S (api_calls s)))) as [e|]; [discriminate|].
    assert (Q' : filter (folder_matches name parent) (drive s ++ [f]) = [f]).
    { rewrite filter_app, Q. simpl. unfold f.
      now rewrite (proj2 (folder_matches_new name parent name parent
                            (fresh_id (drive s))) (conj eq_refl eq_refl)). }
    rewrite Q'. simpl. intro H2. injection H2 as <-.
    split; [reflexivity|]. split; [reflexivity|]. split; [reflexivity|].
    split; [lia|]. split.
    + exists f. split; [apply in_or_app; right; now left|].
      split; [reflexivity|]. apply folder_matches_spec.
      now apply folder_matches_new.
    + intro U. split; [|now rewrite Q'].
      intros name' parent'. rewrite filter_app, length_app. simpl.
      destruct (folder_matches name' parent' f) eqn:M.
      * apply folder_matches_new in M as [-> ->]. rewrite Q. simpl. lia.
      * specialize (U name' parent'). simpl. lia.
  - (* found: both calls return the first match *)
    simpl in H1. injection H1 as <-.
    rewrite get_or_create_folder_run. simpl drive. simpl api_calls.
    destruct (drive_fault E (S (api_calls s))) as [e|]; [discriminate|].
    rewrite Q. simpl. intro H2. injection H2 as <-.
    split; [reflexivity|]. split; [reflexivity|]. split; [reflexivity|].
    split; [lia|]. split.
    + assert (I : In f (filter (folder_matches name parent) (drive s)))
        by (rewrite Q; now left).
      apply filter_In in I as [I M]. exists f. split; [exact I|].
      split; [reflexivity|]. now apply folder_matches_spec.
    + intro U. split; [exact U|].
      specialize (U name parent). rewrite Q in *. simpl in *. lia.
Qed.

(** From an empty store, the first call creates ["CSE Reports"] under the
    root and the second finds it. *)
Lemma get_or_create_folder_idempotent_witness :
  res (get_or_create_folder (Samples.calm [] []) "CSE Reports" root Samples.blank)
  = Ok (gen 1)
  /\ res (get_or_create_folder (Samples.calm [] []) "CSE Reports" root
            (st (get_or_create_folder (Samples.calm [] []) "CSE Reports" root
                   Samples.blank)))
     = Ok (gen 1)
  /\ length (inserted
               (out (get_or_create_folder (Samples.calm [] []) "CSE Reports" root
                       Samples.blank)
                ++ out (get_or_create_folder (Samples.calm [] []) "CSE Reports" root
                          (st (get_or_create_folder (Samples.calm [] [])
                                 "CSE Reports" root Samples.blank))))) <= 1
  /\ length (filter (folder_matches "CSE Reports" root)
               (drive (st (get_or_create_folder (Samples.calm [] []) "CSE Reports" root
                             (st (get_or_create_folder (Samples.calm [] [])
                                    "CSE Reports" root Samples.blank)))))) = 1.
Proof.
  destruct (get_or_create_folder_idempotent (Samples.calm [] []) "CSE Reports" root
              Samples.blank (gen 1) (gen 1) eq_refl eq_refl eq_refl)
    as (_ & _ & _ & Hone & _ & Huniq).
  split; [reflexivity|]. split; [reflexivity|]. split; [exact Hone|].
  apply Huniq. intros name parent. simpl. lia.
Defined.

(* ================================================================== *)
(** ** Where uploads go *)

Lemma destination_monotone cc rt dest store l :
  destination store cc rt dest -> destination (store ++ l) cc rt dest.
Proof.
  intros (top & company & leaf & I1 & I2 & I3 & H).
  exists top, company, leaf.
  repeat split; try (apply in_or_app; now left); apply H.
Qed.

Lemma placed_monotone cc rt : monotone (placed cc rt).
Proof.
  intros f store l (dest & P & I & D). exists dest.
  split; [exact P|]. split; [apply in_or_app; now left|].
  now apply destination_monotone.
Qed.

Section Tidy.

Variable Q : drive_file -> list drive_file -> Prop.
Hypothesis Q_monotone : monotone Q.

Lemma tidy_bind {A B} (m : M A) (k : A -> M B) :
  tidy Q m -> (forall a, tidy Q (k a)) -> tidy Q (bind m k).
Proof.
  intros Hm Hk s. destruct (Hm s) as [[l Hl] Hu].
  rewrite st_bind, out_bind, uploaded_app.
  destruct (res (m s)) as [a|e].
  - destruct (Hk a (st (m s))) as [[l' Hl'] Hu']. split.
    + exists (l ++ l'). now rewrite Hl', Hl, app_assoc.
    + intros f I. apply in_app_or in I as [I|I].
      * rewrite Hl'. apply Q_monotone. now apply Hu.
      * now apply Hu'.
  - split; [now exists l|]. intros f I. rewrite app_nil_r in I. now apply Hu.
Qed.

(** An operation that adds nothing to the store is tidy. *)
Lemma tidy_quiet {A} (m : M A) :
  only (fun e => negb (is_remote_write e)) m ->
  (forall s, drive (st (m s)) = drive s) ->
  tidy Q m.
Proof.
  intros Ho Hd s. split.
  - exists []. now rewrite app_nil_r.
  - intros f I. unfold uploaded in I.
    rewrite (only_nothing_inserted m s Ho) in I. contradiction.
Qed.

Lemma tidy_ret {A} (a : A) : tidy Q (ret a).
Proof. apply tidy_quiet; [apply only_ret | reflexivity]. Qed.

Lemma tidy_raise {A} (e : exn) : tidy Q (@raise A e).
Proof. apply tidy_quiet; [apply only_raise | reflexivity]. Qed.

Lemma tidy_lift {A} (o : outcome A) : tidy Q (lift o).
Proof. destruct o; [apply tidy_ret | apply tidy_raise]. Qed.

Lemma tidy_print line : tidy Q (print line).
Proof. apply tidy_quiet; [now apply only_print | reflexivity]. Qed.

Lemma tidy_emit e : is_remote_write e = false -> tidy Q (emit e).
Proof.
  intro H. apply tidy_quiet; [apply only_emit; now rewrite H | reflexivity].
Qed.

Lemma tidy_makedirs path : tidy Q (Fs.makedirs path).
Proof.
  apply tidy_quiet; [now apply only_makedirs|].
  intro s. unfold Fs.makedirs, bind, get_state. simpl.
  destruct (Fs.is_dir path s); [reflexivity|].
  now destruct (Fs.is_file path s).
Qed.

Lemma tidy_write_file path data : tidy Q (Fs.write_file path data).
Proof.
  apply tidy_quiet; [now apply only_write_file|].
  intro s. unfold Fs.write_file, bind, get_state. simpl.
  destruct (Fs.is_dir path s); [reflexivity|].
  now destruct (_ && _).
Qed.

Lemma tidy_remove path : tidy Q (Fs.remove path).
Proof.
  apply tidy_quiet; [now apply only_remove|].
  intro s. unfold Fs.remove, bind, get_state. simpl.
  now destruct (Fs.is_file path s).
Qed.

Lemma tidy_raise_for_status url r : tidy Q (raise_for_status url r).
Proof.
  unfold raise_for_status. destruct (_ && _); [apply tidy_raise | apply tidy_ret].
Qed.

End Tidy.

Lemma tidy_weaken (Q Q' : drive_file -> list drive_file -> Prop) {A} (m : M A) :
  (forall f store, Q f store -> Q' f store) -> tidy Q m -> tidy Q' m.
Proof.
  intros H Hm s. destruct (Hm s) as [Hl Hu]. split; [exact Hl|].
  intros f I. now apply H, Hu.
Qed.

Section Uploads.

Variable E : env.

Lemma drive_insert_run title parent is_folder data s :
  drive_insert E title parent is_folder data s =
  match drive_fault E (api_calls s) with
  | Some e => mkRun (Raise e) (called 1 s) []
  | None =>
      let f := mkDriveFile (fresh_id (drive s)) title [parent] is_folder false data in
      mkRun (Ok (df_id f))
        (mkState (files s) (dirs s) (drive s ++ [f]) (1 + api_calls s))
        [DriveInsert f]
  end.
Proof.
  unfold drive_insert, drive_call, bind, called. simpl.
  now destruct (drive_fault E (api_calls s)).
Qed.

(** What a call of [get_or_create_folder] leaves: a store that has only
    grown, no document, and, when it returns, a live folder of the name
    asked for under the parent asked for. *)
Lemma get_or_create_folder_post name parent s :
  (exists l, drive (st (get_or_create_folder E name parent s)) = drive s ++ l)
  /\ uploaded (out (get_or_create_folder E name parent s)) = []
  /\ (forall i, res (get_or_create_folder E name parent s) = Ok i ->
        exists f, In f (drive (st (get_or_create_folder E name parent s)))
                  /\ df_id f = i /\ is_live_folder name parent f).
Proof.
  rewrite get_or_create_folder_run.
  destruct (drive_fault E (api_calls s)) as [e|].
  { simpl. split; [exists []; now rewrite app_nil_r|]. split; [reflexivity | discriminate]. }
  destruct (filter (folder_matches name parent) (drive s)) as [|f fs] eqn:F.
  - destruct (drive_fault E (S (api_calls s))) as [e|].
    { simpl. split; [exists []; now rewrite app_nil_r|].
      split; [reflexivity | discriminate]. }
    cbv zeta. simpl. split; [now eexists|]. split; [reflexivity|].
    intros i H. injection H as <-. eexists. split; [apply in_or_app; right; now left|].
    split; [reflexivity|]. apply folder_matches_spec. now apply folder_matches_new.
  - simpl. split; [exists []; now rewrite app_nil_r|]. split; [reflexivity|].
    intros i H. injection H as <-.
    assert (I : In f (filter (folder_matches name parent) (drive s)))
      by (rewrite F; now left).
    apply filter_In in I as [I M]. exists f. split; [exact I|].
    split; [reflexivity|]. now apply folder_matches_spec.
Qed.

Lemma read_file_run path s :
  Fs.read_file path s =
  match Fs.lookup path (files s) with
  | Some c => mkRun (Ok c) s []
  | None => mkRun (Raise (Fs.FileNotFoundError path)) s []
  end.
Proof.
  unfold Fs.read_file, bind, get_state. simpl.
  now destruct (Fs.lookup path (files s)).
Qed.

(** A document uploaded by [upload_to_drive] carries the last component
    of the local path as its title and sits under the three-level
    destination. *)
Lemma upload_to_drive_tidy path cc rt :
  tidy (fun f store => df_title f = Text.basename path /\ placed cc rt f store)
    (upload_to_drive E path cc rt).
Proof.
  intro s. unfold upload_to_drive.
  rewrite st_bind, out_bind. simpl (res _). cbv iota beta. simpl (st (print _ _)).
  rewrite uploaded_app. simpl (uploaded (out (print _ _))). rewrite app_nil_l.
  (* the top folder *)
  destruct (get_or_create_folder_post "CSE Reports" root s) as ([l1 G1] & U1 & F1).
  rewrite st_bind, out_bind, uploaded_app, U1, app_nil_l.
  destruct (res (get_or_create_folder E "CSE Reports" root s)) as [top_id|e] eqn:R1;
    [|split; [now exists l1 | intros f []]].
  destruct (F1 top_id eq_refl) as (top & Itop & <- & Ltop).
  set (s1 := st (get_or_create_folder E "CSE Reports" root s)) in *.
  (* the company folder *)
  destruct (get_or_create_folder_post cc (df_id top) s1) as ([l2 G2] & U2 & F2).
  rewrite st_bind, out_bind, uploaded_app, U2, app_nil_l.
  destruct (res (get_or_create_folder E cc (df_id top) s1)) as [company_id|e] eqn:R2;
    [|split; [exists (l1 ++ l2); now rewrite G2, G1, app_assoc | intros f []]].
  destruct (F2 company_id eq_refl) as (company & Icompany & <- & Lcompany).
  set (s2 := st (get_or_create_folder E cc (df_id top) s1)) in *.
  (* the report-type folder *)
  destruct (get_or_create_folder_post (rt ^^ " Reports") (df_id company) s2)
    as ([l3 G3] & U3 & F3).
  rewrite st_bind, out_bind, uploaded_app, U3, app_nil_l.
  destruct (res (get_or_create_folder E (rt ^^ " Reports") (df_id company) s2))
    as [leaf_id|e] eqn:R3;
    [|split; [exists (l1 ++ l2 ++ l3); now rewrite G3, G2, G1, !app_assoc
             | intros f []]].
  destruct (F3 leaf_id eq_refl) as (leaf & Ileaf & <- & Lleaf).
  set (s3 := st (get_or_create_folder E (rt ^^ " Reports") (df_id company) s2)) in *.
  assert (D3 : destination (drive s3) cc rt (df_id leaf)).
  { exists top, company, leaf. repeat split; try assumption; try apply Ltop;
      try apply Lcompany; try apply Lleaf.
    - rewrite G3, G2. apply in_or_app; left. apply in_or_app; now left.
    - rewrite G3. apply in_or_app; now left. }
  assert (G : drive s3 = drive s ++ (l1 ++ l2 ++ l3))
    by (now rewrite G3, G2, G1, !app_assoc).
  (* the file *)
  rewrite st_bind, out_bind, read_file_run.
  destruct (Fs.lookup path (files s3)) as [data|];
    [|simpl; split; [now exists (l1 ++ l2 ++ l3) | intros f []]].
  simpl (res _). cbv iota beta. simpl (st (mkRun _ _ _)). simpl (out (mkRun _ _ _)).
  rewrite app_nil_l, st_bind, out_bind, drive_insert_run.
  destruct (drive_fault E (api_calls s3)) as [e|];
    [simpl; split; [now exists (l1 ++ l2 ++ l3) | intros f []]|].
  cbv zeta. simpl. split.
  - exists ((l1 ++ l2 ++ l3) ++ [mkDriveFile (fresh_id (drive s3)) (Text.basename path)
                                   [df_id leaf] false false data]).
    now rewrite app_assoc, <- G.
  - intros f [<-|[]]. split; [reflexivity|].
    exists (df_id leaf). split; [reflexivity|].
    split; [apply in_or_app; right; now left|].
    now apply destination_monotone.
Qed.

Lemma tidy_bind_lift {A B} Q (o : outcome A) (k : A -> M B) :
  (forall a, o = Ok a -> tidy Q (k a)) -> tidy Q (bind (lift o) k).
Proof.
  intros H. destruct o as [a|e].
  - intro s. rewrite bind_lift_ok. now apply H.
  - intro s. unfold bind. simpl. split; [exists []; now rewrite app_nil_r | intros f []].
Qed.

Section Cycle.

Variables company_code report_type : string.
Variable cutoff_date : date.

Local Abbreviation loop := (for_rows E company_code report_type cutoff_date).
Local Abbreviation process := (fetch_and_upload E company_code report_type).

Lemma fetch_and_upload_tidy a d :
  tidy (fun f store =>
          df_title f = title_for company_code d
          /\ placed company_code report_type f store)
    (process a d).
Proof.
  assert (Mo : monotone (fun f store =>
            df_title f = title_for company_code d
            /\ placed company_code report_type f store)).
  { intros f store l [T Pl]. split; [exact T | now apply placed_monotone]. }
  unfold fetch_and_upload.
  apply tidy_bind; [exact Mo | apply tidy_makedirs | intros _].
  apply tidy_bind; [exact Mo | apply tidy_print | intros _].
  apply tidy_bind; [exact Mo | apply tidy_print | intros _].
  apply tidy_bind; [exact Mo | now apply tidy_emit | intros _].
  apply tidy_bind; [exact Mo | apply tidy_lift | intros pdf_response].
  apply tidy_bind; [exact Mo | apply tidy_raise_for_status | intros _].
  apply tidy_bind; [exact Mo | apply tidy_write_file | intros _].
  apply tidy_bind; [exact Mo | apply upload_to_drive_tidy | intros _].
  apply tidy_remove.
Qed.

Lemma filed_monotone rows :
  monotone (filed company_code report_type cutoff_date rows).
Proof.
  intros f store l [T Pl]. split; [exact T | now apply placed_monotone].
Qed.

Lemma filed_more_rows row rows f store :
  filed company_code report_type cutoff_date rows f store ->
  filed company_code report_type cutoff_date (row :: rows) f store.
Proof.
  intros [(row' & text & d & I & H) Pl]. split; [|exact Pl].
  exists row', text, d. split; [now right | exact H].
Qed.

(** Every document the loop uploads is filed. *)
Lemma for_rows_tidy rows : forall n,
  tidy (filed company_code report_type cutoff_date rows) (loop rows n).
Proof.
  induction rows as [|row rest IH]; intro n.
  - apply tidy_ret.
  - assert (Rest : forall m,
              tidy (filed company_code report_type cutoff_date (row :: rest))
                (loop rest m)).
    { intro m. eapply tidy_weaken; [|apply (IH m)]. apply filed_more_rows. }
    rewrite for_rows_cons. cbv zeta.
    destruct (_ <? 2); [apply Rest|].
    apply tidy_bind_lift. intros text T.
    destruct (strptime_dbY text) as [d|] eqn:D; [|apply Rest].
    destruct (date_geb d cutoff_date) eqn:G.
    + destruct (find_pdf_link row) as [a|]; [|apply Rest].
      apply tidy_bind; [apply filed_monotone | | intros _; apply Rest].
      eapply tidy_weaken; [|apply fetch_and_upload_tidy].
      intros f store [Ti Pl]. split; [|exact Pl].
      exists row, text, d. split; [now left|]. repeat split; assumption.
    + apply tidy_bind;
        [apply filed_monotone | apply tidy_print | intros _; apply tidy_ret].
Qed.

End Cycle.

End Uploads.

(* ================================================================== *)
(** ** The name of an uploaded file *)

Lemma list_ascii_of_string_app a b :
  list_ascii_of_string (a ^^ b) = list_ascii_of_string a ++ list_ascii_of_string b.
Proof. induction a as [|c a IH]; simpl; [reflexivity | now rewrite IH]. Qed.

Lemma after_last_slash_app p x :
  existsb (Ascii.eqb slash) x = false ->
  after_last_slash (p ++ slash :: x) = x.
Proof.
  intro H. induction p as [|c p IH]; simpl.
  - now rewrite H.
  - rewrite existsb_app. simpl. now rewrite orb_true_r.
Qed.

Lemma digit_char_not_slash n : Ascii.eqb slash (digit_char n) = false.
Proof.
  unfold digit_char. pose proof (Nat.mod_upper_bound n 10) as B.
  destruct (n mod 10) as [|[|[|[|[|[|[|[|[|[|k]]]]]]]]]]; try reflexivity. lia.
Qed.

Lemma pad4_no_slash n :
  existsb (Ascii.eqb slash) (list_ascii_of_string (pad4 n)) = false.
Proof.
  unfold pad4. cbn [list_ascii_of_string existsb].
  now rewrite !digit_char_not_slash.
Qed.

Lemma pad2_no_slash n :
  existsb (Ascii.eqb slash) (list_ascii_of_string (pad2 n)) = false.
Proof.
  unfold pad2. cbn [list_ascii_of_string existsb].
  now rewrite !digit_char_not_slash.
Qed.

Lemma has_slash_local_name cc d :
  has_slash cc = false -> has_slash (local_name cc d) = false.
Proof.
  unfold has_slash, local_name, strftime_Ymd. intro H.
  rewrite !list_ascii_of_string_app, !existsb_app, H, pad4_no_slash, !pad2_no_slash.
  reflexivity.
Qed.

(** Without a ["/"] in the company code, the title of the upload is the
    local name itself. *)
Lemma title_for_local_name cc d :
  has_slash cc = false -> title_for cc d = local_name cc d.
Proof.
  intro H. apply (has_slash_local_name cc d) in H.
  unfold title_for, path_join.
  assert (S : starts_with [slash] (list_ascii_of_string (local_name cc d)) = false).
  { unfold local_name, strftime_Ymd, pad4.
    cbn [String.append list_ascii_of_string starts_with].
    now rewrite digit_char_not_slash. }
  rewrite S.
  change (String.eqb "temp_reports" "" || endswith "temp_reports" "/") with false.
  cbv iota. unfold basename.
  rewrite !list_ascii_of_string_app.
  change (list_ascii_of_string "/") with [slash].
  change ([slash] ++ list_ascii_of_string (local_name cc d))
    with (slash :: list_ascii_of_string (local_name cc d)).
  rewrite after_last_slash_app by exact H.
  apply string_of_list_ascii_of_string.
Qed.

(** C8, as stated, fails on the file name when the company code holds a
    ["/"]: with code ["A/B"] and a directory [temp_reports/2024-03-01-A]
    on disk, the March report is written to
    [temp_reports/2024-03-01-A/B.pdf] and uploaded under the title
    ["B.pdf"], not ["2024-03-01-A/B.pdf"]. *)
Lemma slash_in_code_shortens_title :
  row_record Samples.march = Some (mkDate 2024 3 1, "https://cdn.cse.lk/q1.pdf")
  /\ local_name "A/B" (mkDate 2024 3 1) = "2024-03-01-A/B.pdf"
  /\ map df_title
       (uploaded (out (for_rows (Samples.calm [] []) "A/B" "Quarterly"
                         Samples.cutoff_2024 [Samples.march] 0 Samples.nested_dir)))
     = ["B.pdf"].
Proof. repeat split. Qed.

(** C8, amended. Let the company code and the report type hold neither a
    quote nor a backslash, and let the first cells of the rows be ASCII
    texts.  Every document the loop uploads comes from one of its rows,
    whose first cell reads as a date [d] at or after the cutoff. It is
    entered in the store directly under a live folder
    ["<report_type> Reports"], itself in a live folder named by the
    company code, itself in a live folder ["CSE Reports"] under the root.
    For a year from 1000 on, its title is the last component of the local
    path [temp_reports/<d as YYYY-MM-DD>-<company_code>.pdf], which is
    [<d as YYYY-MM-DD>-<company_code>.pdf] itself whenever the company
    code holds no ["/"]. *)
Theorem uploads_are_filed_by_code_and_type :
  forall (E : env) (company_code report_type : string) (cutoff_date : date)
         (rows : list node) (n : nat) (s : state) (f : drive_file),
    plain_title company_code = true ->
    plain_title report_type = true ->
    ascii_cells rows = true ->
    In f (uploaded (out (for_rows E company_code report_type cutoff_date rows n s))) ->
    exists report_row text d dest,
      In report_row rows
      /\ first_text (hd report_row (find_all "td" report_row)) = Ok text
      /\ strptime_dbY text = Some d
      /\ date_geb d cutoff_date = true
      /\ (1000 <= year d ->
          df_title f
          = basename (path_join "temp_reports"
                        (strftime_Ymd d ^^ "-" ^^ company_code ^^ ".pdf")))
      /\ (1000 <= year d ->
          has_slash company_code = false ->
          df_title f = strftime_Ymd d ^^ "-" ^^ company_code ^^ ".pdf")
      /\ df_parents f = [dest]
      /\ In f (drive (st (for_rows E company_code report_type cutoff_date rows n s)))
      /\ destination
           (drive (st (for_rows E company_code report_type cutoff_date rows n s)))
           company_code report_type dest.
Proof.
  intros E cc rt cutoff rows n s f _ _ _ I.
  destruct (for_rows_tidy E cc rt cutoff rows n s) as [_ H].
  destruct (H f I) as [(row & text & d & Ir & T & D & G & Ti) (dest & P & If & De)].
  exists row, text, d, dest.
  split; [exact Ir|]. split; [exact T|]. split; [exact D|]. split; [exact G|].
  split; [intros _; exact Ti|].
  split; [intros _ N; rewrite Ti; now apply title_for_local_name|].
  split; [exact P|]. split; [exact If | exact De].
Qed.

Lemma uploads_are_filed_by_code_and_type_witness :
  exists report_row text d dest,
    In report_row Samples.two_rows
    /\ first_text (hd report_row (find_all "td" report_row)) = Ok text
    /\ strptime_dbY text = Some d
    /\ date_geb d Samples.cutoff_2024 = true
    /\ (1000 <= year d ->
        df_title Samples.march_upload = strftime_Ymd d ^^ "-" ^^ Samples.code ^^ ".pdf")
    /\ df_parents Samples.march_upload = [dest]
    /\ destination Samples.store_after_march Samples.code "Quarterly" dest.
Proof.
  assert (I : In Samples.march_upload
                (uploaded (out (for_rows (Samples.calm [] []) Samples.code "Quarterly"
                                  Samples.cutoff_2024 Samples.two_rows 0
                                  Samples.blank))))
    by (vm_compute; left; reflexivity).
  assert (Pc : plain_title Samples.code = true) by (vm_compute; reflexivity).
  assert (Pt : plain_title "Quarterly" = true) by (vm_compute; reflexivity).
  assert (Ac : ascii_cells Samples.two_rows = true) by (vm_compute; reflexivity).
  destruct (uploads_are_filed_by_code_and_type (Samples.calm [] []) Samples.code
              "Quarterly" Samples.cutoff_2024 Samples.two_rows 0 Samples.blank
              Samples.march_upload Pc Pt Ac I)
    as (row & text & d & dest & Ir & T & D & G & _ & Ti & P & _ & De).
  exists row, text, d, dest.
  split; [exact Ir|]. split; [exact T|]. split; [exact D|]. split; [exact G|].
  split; [exact (fun Y => Ti Y eq_refl)|]. split; [exact P|].
  vm_compute in De. exact De.
Defined.

(* ================================================================== *)
(** ** The local copy *)

(** C4 fails on the code when the upload fails. The March report is
    fetched and written to [temp_reports]; the first call to the remote
    store fails; the error is caught at the end of the cycle and the
    local copy is still on disk. *)
Theorem local_copy_left_after_failed_upload :
  res (download_report (Samples.remote_down_from 0 Samples.two_rows [])
         Samples.code "Quarterly" "2024-01-01" Samples.blank) = Ok None_
  /\ files (st (download_report (Samples.remote_down_from 0 Samples.two_rows [])
                  Samples.code "Quarterly" "2024-01-01" Samples.blank))
     = [(Samples.march_path, "%PDF https://cdn.cse.lk/q1.pdf")]
  /\ In (FileWrite Samples.march_path)
       (out (download_report (Samples.remote_down_from 0 Samples.two_rows [])
               Samples.code "Quarterly" "2024-01-01" Samples.blank))
  /\ ~ In (FileRemove Samples.march_path)
         (out (download_report (Samples.remote_down_from 0 Samples.two_rows [])
                 Samples.code "Quarterly" "2024-01-01" Samples.blank))
  /\ last (out (download_report (Samples.remote_down_from 0 Samples.two_rows [])
                  Samples.code "Quarterly" "2024-01-01" Samples.blank))
       (Print "")
     = Print "❌ An error occurred during the Quarterly report download: HttpError 503".
Proof.
  split; [reflexivity|]. split; [reflexivity|]. split.
  - vm_compute. tauto.
  - split; [|reflexivity].
    vm_compute. intro H.
    repeat (destruct H as [H|H]; [discriminate|]). exact H.
Qed.

(* ================================================================== *)
(** ** What [download_report] hands back *)

Lemma returns_none_bind {A} (m : M A) (k : A -> M retval) :
  (forall a, returns_none (k a)) -> returns_none (bind m k).
Proof.
  intros H s v. rewrite res_bind. destruct (res (m s)); [apply H | discriminate].
Qed.

Lemma returns_none_ret : returns_none (ret None_).
Proof. intros s v H. now inversion H. Qed.

Lemma returns_none_raise e : returns_none (raise e).
Proof. intros s v H. discriminate. Qed.

Lemma report_cycle_returns_none E cc rt sd tab table_id :
  returns_none (report_cycle E cc rt sd tab table_id).
Proof.
  unfold report_cycle.
  do 6 (apply returns_none_bind; intro).
  destruct (find_div_by_id _ _); [|apply returns_none_ret].
  destruct (find "tbody" _); [|apply returns_none_raise].
  destruct (find_all "tr" _); [apply returns_none_ret|].
  destruct (strptime_Ymd sd); [|apply returns_none_raise].
  do 2 (apply returns_none_bind; intro). apply returns_none_ret.
Qed.

Lemma download_report_body_returns_none E cc rt sd :
  returns_none (download_report_body E cc rt sd).
Proof.
  unfold download_report_body.
  do 2 (apply returns_none_bind; intro).
  destruct (String.eqb rt "Quarterly"); [apply report_cycle_returns_none|].
  destruct (String.eqb rt "Annual"); [apply report_cycle_returns_none|].
  apply returns_none_ret.
Qed.

(** [download_report] never raises and hands back [None]. *)
Lemma download_report_res E cc rt sd s :
  res (download_report E cc rt sd s) = Ok None_.
Proof.
  unfold download_report. rewrite res_try_except.
  destruct (res (download_report_body E cc rt sd s)) as [v|e] eqn:R.
  - now rewrite (download_report_body_returns_none E cc rt sd s v R).
  - reflexivity.
Qed.

(** A failed cycle: the events of the body, then the report of the
    error, in the state the body left. *)
Lemma download_report_caught E cc rt sd s e :
  res (download_report_body E cc rt sd s) = Raise e ->
  out (download_report E cc rt sd s)
  = out (download_report_body E cc rt sd s)
    ++ [Print ("❌ An error occurred during the " ^^ rt
               ^^ " report download: " ^^ exn_msg e)]
  /\ st (download_report E cc rt sd s) = st (download_report_body E cc rt sd s).
Proof.
  intro R. unfold download_report. rewrite out_try_except, st_try_except, R.
  split; reflexivity.
Qed.

(* ================================================================== *)
(** ** The table and its container *)

Section Container.

Variable E : env.
Variables company_code report_type start_date_str tab_name table_id : string.
Variable s : state.

Hypothesis tab_opens : clickable E tab_name = None.
Hypothesis rows_show : visible E table_id = None.

Local Abbreviation opening :=
  [Print ("Step A: Clicking '" ^^ tab_name ^^ "' tab...");
   Click tab_name; Sleep 1;
   Print "Step B: Parsing page for all report links..."].


Lemma report_cycle_no_tbody c :
  find_div_by_id table_id (page_source E tab_name) = Some c ->
  find "tbody" c = None ->
  report_cycle E company_code report_type start_date_str tab_name table_id s
  = mkRun (Raise AttributeError) s opening.
Proof.
  intros C T. unfold report_cycle, bind. simpl.
  rewrite tab_opens. simpl. rewrite rows_show. simpl. now rewrite C, T.
Qed.


End Container.

(** The tab and the container of a report type. *)
Lemma download_report_body_known E cc rt sd tab table_id s :
  bound_to rt tab table_id ->
  download_report_body E cc rt sd s
  = bind (print (repeat_str "-" 40))
      (fun _ => bind (print ("Starting process for " ^^ rt ^^ " Reports..."))
                  (fun _ => report_cycle E cc rt sd tab table_id)) s.
Proof.
  intros [(-> & -> & ->)|(-> & -> & ->)]; reflexivity.
Qed.

(** C10. When the tab opens, the wait for a row ends, the container of
    the report type is in the page and holds no [tbody], the cycle ends
    on an error, caught and reported in [download_report], which returns
    with nothing else done and the state untouched. (A table without
    rows returns without that report, see [report_cycle_no_rows].) *)
Theorem missing_tbody_is_reported_as_error :
  forall (E : env) (company_code report_type start_date_str tab_name table_id : string)
         (s : state) (report_container : node),
    (report_type = "Quarterly" /\ tab_name = "Quarterly Reports" /\ table_id = "21b")
    \/ (report_type = "Annual" /\ tab_name = "Annual Reports " /\ table_id = "11b") ->
    clickable E tab_name = None ->
    visible E table_id = None ->
    find_div_by_id table_id (page_source E tab_name) = Some report_container ->
    find "tbody" report_container = None ->
    res (download_report_body E company_code report_type start_date_str s)
    = Raise AttributeError
    /\ download_report E company_code report_type start_date_str s
       = mkRun (Ok None_) s
           [Print (repeat_str "-" 40);
            Print ("Starting process for " ^^ report_type ^^ " Reports...");
            Print ("Step A: Clicking '" ^^ tab_name ^^ "' tab...");
            Click tab_name; Sleep 1;
            Print "Step B: Parsing page for all report links...";
            Print ("❌ An error occurred during the " ^^ report_type
                   ^^ " report download: "
                   ^^ "'NoneType' object has no attribute 'find_all'")].
Proof.
  intros E cc rt sd tab table_id s c K Hc Hv Hd Ht.
  assert (B : download_report_body E cc rt sd s
              = mkRun (Raise AttributeError) s
                  [Print (repeat_str "-" 40);
                   Print ("Starting process for " ^^ rt ^^ " Reports...");
                   Print ("Step A: Clicking '" ^^ tab ^^ "' tab...");
                   Click tab; Sleep 1;
                   Print "Step B: Parsing page for all report links..."]).
  { rewrite (download_report_body_known E cc rt sd tab table_id s K).
    unfold bind at 1 2. simpl.
    now rewrite (report_cycle_no_tbody E cc rt sd tab table_id s Hc Hv c Hd Ht). }
  split; [now rewrite B|].
  unfold download_report, try_except. now rewrite B.
Qed.

(** The quarterly container holding a table with rows and no [tbody]. *)
Lemma missing_tbody_is_reported_as_error_witness :
  find "tbody" (Tag "div" [("id", "21b")] [Tag "table" [] Samples.two_rows]) = None
  /\ res (download_report_body (Samples.no_tbody Samples.two_rows []) Samples.code
            "Quarterly" "2024-01-01" Samples.blank)
     = Raise AttributeError
  /\ download_report (Samples.no_tbody Samples.two_rows []) Samples.code
       "Quarterly" "2024-01-01" Samples.blank
     = mkRun (Ok None_) Samples.blank
         [Print (repeat_str "-" 40);
          Print ("Starting process for " ^^ "Quarterly" ^^ " Reports...");
          Print ("Step A: Clicking '" ^^ "Quarterly Reports" ^^ "' tab...");
          Click "Quarterly Reports"; Sleep 1;
          Print "Step B: Parsing page for all report links...";
          Print ("❌ An error occurred during the " ^^ "Quarterly"
                 ^^ " report download: "
                 ^^ "'NoneType' object has no attribute 'find_all'")].
Proof.
  split; [reflexivity|].
  apply (missing_tbody_is_reported_as_error (Samples.no_tbody Samples.two_rows [])
           Samples.code "Quarterly" "2024-01-01" "Quarterly Reports" "21b"
           Samples.blank
           (Tag "div" [("id", "21b")] [Tag "table" [] Samples.two_rows])).
  - left. repeat split.
  - reflexivity.
  - reflexivity.
  - reflexivity.
  - reflexivity.
Defined.

(* ================================================================== *)
(** ** The counter of the loop *)

Lemma bind_ok_split {A B} (m : M A) (f : A -> M B) s b :
  res (bind m f s) = Ok b ->
  exists a, res (m s) = Ok a
            /\ res (f a (st (m s))) = Ok b
            /\ out (bind m f s) = out (m s) ++ out (f a (st (m s))).
Proof.
  rewrite res_bind, out_bind.
  destruct (res (m s)) as [a|e]; [|discriminate].
  intro H. now exists a.
Qed.

Lemma only_nothing_uploaded {A} (m : M A) s :
  only (fun e => negb (is_remote_write e)) m -> uploaded (out (m s)) = [].
Proof.
  intro H. unfold uploaded. now rewrite (only_nothing_inserted m s H).
Qed.

Ltac split_ok H :=
  let a := fresh "a" in
  let R := fresh "R" in
  let O := fresh "O" in
  apply bind_ok_split in H as (a & R & H & O);
  rewrite O, uploaded_app; clear O.

Lemma uploaded_print line s : uploaded (out (print line s)) = [].
Proof. reflexivity. Qed.

Section Counter.

Variable E : env.

(** An upload that returns has entered one document. *)
Lemma upload_to_drive_one path cc rt s :
  res (upload_to_drive E path cc rt s) = Ok tt ->
  length (uploaded (out (upload_to_drive E path cc rt s))) = 1.
Proof.
  intro H. unfold upload_to_drive in *.
  split_ok H. rewrite uploaded_print, app_nil_l.
  split_ok H.
  rewrite (proj1 (proj2 (get_or_create_folder_post E _ _ _))), app_nil_l.
  split_ok H.
  rewrite (proj1 (proj2 (get_or_create_folder_post E _ _ _))), app_nil_l.
  split_ok H.
  rewrite (proj1 (proj2 (get_or_create_folder_post E _ _ _))), app_nil_l.
  split_ok H.
  rewrite (only_nothing_uploaded (Fs.read_file path) _ (only_read_file _ path)),
    app_nil_l.
  split_ok H.
  rewrite uploaded_print, app_nil_r.
  revert R4. rewrite drive_insert_run.
  destruct (drive_fault E _); [discriminate|]. reflexivity.
Qed.

Variables company_code report_type : string.
Variable cutoff_date : date.

Local Abbreviation loop := (for_rows E company_code report_type cutoff_date).
Local Abbreviation process := (fetch_and_upload E company_code report_type).

Lemma fetch_and_upload_one a d s :
  res (process a d s) = Ok tt ->
  length (uploaded (out (process a d s))) = 1.
Proof.
  intro H. unfold fetch_and_upload in *.
  split_ok H.
  rewrite (only_nothing_uploaded (Fs.makedirs _) s) by (now apply only_makedirs).
  rewrite app_nil_l.
  do 2 (split_ok H; rewrite uploaded_print, app_nil_l).
  split_ok H.
  rewrite (only_nothing_uploaded (emit _) _) by (now apply only_emit).
  rewrite app_nil_l.
  split_ok H.
  rewrite (only_nothing_uploaded (lift _) _) by (apply only_lift).
  rewrite app_nil_l.
  split_ok H.
  rewrite (only_nothing_uploaded (raise_for_status _ _) _)
    by (apply only_raise_for_status).
  rewrite app_nil_l.
  split_ok H.
  rewrite (only_nothing_uploaded (Fs.write_file _ _) _) by (now apply only_write_file).
  rewrite app_nil_l.
  split_ok H.
  rewrite (only_nothing_uploaded (Fs.remove _) _) by (now apply only_remove).
  rewrite app_nil_r.
  destruct a7. now apply upload_to_drive_one.
Qed.

(** When the loop completes, its counter has grown by the number of
    documents uploaded. *)
Lemma for_rows_counts rows : forall n s k,
  res (loop rows n s) = Ok k ->
  k = n + length (uploaded (out (loop rows n s))).
Proof.
  induction rows as [|row rest IH]; intros n s k.
  - simpl. intro H. inversion H. lia.
  - rewrite for_rows_cons. cbv zeta.
    destruct (_ <? 2); [apply IH|].
    destruct (first_text _) as [text|e];
      [rewrite bind_lift_ok | unfold bind; simpl; discriminate].
    destruct (strptime_dbY text) as [d|]; [|apply IH].
    destruct (date_geb d cutoff_date).
    + destruct (find_pdf_link row) as [a|]; [|apply IH].
      intro H. split_ok H. destruct a0.
      rewrite length_app, (fetch_and_upload_one a d s R).
      apply IH in H. lia.
    + simpl. intro H. inversion H. lia.
Qed.

End Counter.





(* ================================================================== *)
(** ** Failures stay inside their cycle *)

Lemma never_raises_ret {A} (a : A) : never_raises (ret a).
Proof. intro s. now exists a. Qed.

Lemma never_raises_emit e : never_raises (emit e).
Proof. intro s. now exists tt. Qed.

Lemma never_raises_print line : never_raises (print line).
Proof. apply never_raises_emit. Qed.

Lemma never_raises_bind {A B} (m : M A) (k : A -> M B) :
  never_raises m -> (forall a, never_raises (k a)) -> never_raises (bind m k).
Proof.
  intros Hm Hk s. rewrite res_bind. destruct (Hm s) as [a ->]. apply Hk.
Qed.

Lemma never_raises_try_except {A} (m : M A) (h : exn -> M A) :
  (forall e, never_raises (h e)) -> never_raises (try_except m h).
Proof.
  intros Hh s. rewrite res_try_except.
  destruct (res (m s)) as [a|e]; [now exists a | apply Hh].
Qed.

Lemma never_raises_try_finally {A} (m : M A) (c : M unit) :
  never_raises m -> never_raises c -> never_raises (try_finally m c).
Proof.
  intros Hm Hc s. rewrite res_try_finally.
  destruct (Hc (st (m s))) as [a ->]. apply Hm.
Qed.

Lemma run_downloader_never_raises E cc sd : never_raises (run_downloader E cc sd).
Proof.
  unfold run_downloader.
  apply never_raises_bind; [apply never_raises_print|intros _].
  apply never_raises_bind.
  - apply never_raises_try_except. intro e.
    apply never_raises_bind; [apply never_raises_print|intros _].
    apply never_raises_ret.
  - intros [|]; [|apply never_raises_ret].
    apply never_raises_try_finally.
    + apply never_raises_try_except. intro e. apply never_raises_print.
    + apply never_raises_bind; [|intros _; apply never_raises_print].
      destruct (chrome E); [apply never_raises_ret | apply never_raises_emit].
Qed.

Lemma main_never_raises E argv : never_raises (main E argv).
Proof.
  unfold main.
  apply never_raises_bind; [apply never_raises_print|intros _].
  apply never_raises_bind; [|intros _; apply never_raises_print].
  destruct (length argv =? 3);
    [apply run_downloader_never_raises | apply never_raises_print].
Qed.

(** A cycle opens with its two header lines, whatever follows. *)
Lemma download_report_opens E cc rt sd s :
  exists rest,
    out (download_report E cc rt sd s)
    = Print (repeat_str "-" 40)
      :: Print ("Starting process for " ^^ rt ^^ " Reports...") :: rest.
Proof.
  unfold download_report. rewrite out_try_except.
  unfold download_report_body at 1.
  rewrite out_bind. simpl (res _). cbv iota beta.
  rewrite out_bind. simpl (res _). cbv iota beta.
  simpl (out (print _ _)). eexists. reflexivity.
Qed.

(** The two cycles in a row: the second starts from the state the first
    left, whatever happened in the first. *)
Lemma both_cycles E cc sd s :
  let q := download_report E cc "Quarterly" sd s in
  out (bind (download_report E cc "Quarterly" sd)
         (fun _ => download_report E cc "Annual" sd) s)
  = out q ++ out (download_report E cc "Annual" sd (st q)).
Proof.
  intro q. subst q. rewrite out_bind.
  now rewrite (download_report_res E cc "Quarterly" sd s).
Qed.

(** A run in which the store accepts the key, the browser starts, the
    company page loads and the Financials tab can be clicked: both
    cycles are run, one after the other, then the browser is closed. *)
Lemma run_downloader_trace E cc sd s :
  auth E = None ->
  chrome E = None ->
  navigate E (base_url ^^ cc) = None ->
  clickable E "Financials" = None ->
  let q := download_report E cc "Quarterly" sd s in
  let a := download_report E cc "Annual" sd (st q) in
  out (run_downloader E cc sd s)
  = run_prologue cc ++ out q ++ out a ++ [BrowserQuit; Print (nl ^^ "Browser closed.")]
  /\ st (run_downloader E cc sd s) = st a.
Proof.
  intros Ha Hc Hn Hf q a.
  pose proof (download_report_res E cc "Quarterly" sd s) as Rq. fold q in Rq.
  pose proof (download_report_res E cc "Annual" sd (st q)) as Ra. fold a in Ra.
  unfold run_downloader, authenticate_google_drive, try_finally, try_except, bind.
  unfold base_url in *. simpl in Hn.
  simpl. rewrite Ha. simpl. rewrite Hc. simpl. rewrite Hn. simpl. rewrite Hf. simpl.
  fold q. destruct q as [[vq|eq] sq oq]; [|discriminate]. simpl in a. simpl.
  fold a. destruct a as [[va|ea] sa oa]; [|discriminate]. simpl.
  split; [|reflexivity].
  unfold run_prologue. simpl. now rewrite <- !app_assoc.
Qed.

(** C5. An exception raised in the body of a cycle is caught by
    [download_report], which returns [None] after the events of the body
    and one line reporting the error. The annual cycle runs after the
    quarterly one from the state it left, whatever happened there, and
    opens with its own header. [run_downloader] never raises, and a run
    whose start-up succeeds consists of the prologue, the quarterly
    cycle, the annual cycle and the closing of the browser. *)
Theorem cycle_failure_is_contained :
  forall (E : env) (company_code start_date_str report_type : string)
         (s : state) (e : exn),
    res (download_report_body E company_code report_type start_date_str s) = Raise e ->
    res (download_report E company_code report_type start_date_str s) = Ok None_
    /\ out (download_report E company_code report_type start_date_str s)
       = out (download_report_body E company_code report_type start_date_str s)
         ++ [Print ("❌ An error occurred during the " ^^ report_type
                    ^^ " report download: " ^^ exn_msg e)]
    /\ (forall s0,
          out (bind (download_report E company_code "Quarterly" start_date_str)
                 (fun _ => download_report E company_code "Annual" start_date_str) s0)
          = out (download_report E company_code "Quarterly" start_date_str s0)
            ++ out (download_report E company_code "Annual" start_date_str
                      (st (download_report E company_code "Quarterly"
                             start_date_str s0)))
          /\ exists rest,
               out (download_report E company_code "Annual" start_date_str
                      (st (download_report E company_code "Quarterly"
                             start_date_str s0)))
               = Print (repeat_str "-" 40)
                 :: Print "Starting process for Annual Reports..." :: rest)
    /\ (forall s0, res (run_downloader E company_code start_date_str s0) = Ok tt)
    /\ (forall s0,
          auth E = None ->
          chrome E = None ->
          navigate E (base_url ^^ company_code) = None ->
          clickable E "Financials" = None ->
          out (run_downloader E company_code start_date_str s0)
          = run_prologue company_code
            ++ out (download_report E company_code "Quarterly" start_date_str s0)
            ++ out (download_report E company_code "Annual" start_date_str
                      (st (download_report E company_code "Quarterly"
                             start_date_str s0)))
            ++ [BrowserQuit; Print (nl ^^ "Browser closed.")]).
Proof.
  intros E cc sd rt s e R.
  split; [apply download_report_res|].
  split; [apply (download_report_caught E cc rt sd s e R)|].
  split; [|split].
  - intro s0. split; [apply both_cycles | apply download_report_opens].
  - intro s0. destruct (run_downloader_never_raises E cc sd s0) as [[] H]. exact H.
  - intros s0 Ha Hc Hn Hf. apply (run_downloader_trace E cc sd s0 Ha Hc Hn Hf).
Qed.

(** Three qualifying quarterly reports, the second of which the server
    does not have: the quarterly cycle reports the failure after one
    upload, and the run goes on with the annual cycle. *)
Lemma cycle_failure_is_contained_witness :
  res (download_report_body Samples.february_missing Samples.code "Quarterly"
         "2024-01-01" Samples.blank)
  = Raise (HTTPError "https://cdn.cse.lk/feb.pdf")
  /\ res (download_report Samples.february_missing Samples.code "Quarterly"
            "2024-01-01" Samples.blank) = Ok None_
  /\ length (uploaded (out (download_report Samples.february_missing Samples.code
                              "Quarterly" "2024-01-01" Samples.blank))) = 1
  /\ res (run_downloader Samples.february_missing Samples.code "2024-01-01"
            Samples.blank) = Ok tt
  /\ out (run_downloader Samples.february_missing Samples.code "2024-01-01"
            Samples.blank)
     = run_prologue Samples.code
       ++ out (download_report Samples.february_missing Samples.code "Quarterly"
                 "2024-01-01" Samples.blank)
       ++ out (download_report Samples.february_missing Samples.code "Annual"
                 "2024-01-01"
                 (st (download_report Samples.february_missing Samples.code
                        "Quarterly" "2024-01-01" Samples.blank)))
       ++ [BrowserQuit; Print (nl ^^ "Browser closed.")].
Proof.
  assert (R : res (download_report_body Samples.february_missing Samples.code
                     "Quarterly" "2024-01-01" Samples.blank)
              = Raise (HTTPError "https://cdn.cse.lk/feb.pdf")) by reflexivity.
  destruct (cycle_failure_is_contained Samples.february_missing Samples.code
              "2024-01-01" "Quarterly" Samples.blank
              (HTTPError "https://cdn.cse.lk/feb.pdf") R)
    as (Hres & _ & _ & Hrun & Htrace).
  split; [exact R|]. split; [exact Hres|]. split; [reflexivity|].
  split; [apply Hrun|].
  apply Htrace; reflexivity.
Defined.

(* ================================================================== *)
(** ** The command line *)

Lemma harmless_spec evs :
  forallb harmless evs = true ->
  fetched evs = [] /\ inserted evs = []
  /\ filter is_local_file_op evs = []
  /\ ~ In (Print "Usage: python scraper.py <COMPANY_CODE> <YYYY-MM-DD>") evs.
Proof.
  induction evs as [|e evs IH]; intro H; [now repeat split|].
  simpl in H. apply andb_prop in H as [He Hl].
  destruct (IH Hl) as (F & I & L & U).
  unfold harmless in He. apply negb_true_iff in He.
  apply orb_false_iff in He as [He Hu].
  apply orb_false_iff in He as [He Hf].
  apply orb_false_iff in He as [Hg Hc].
  repeat split.
  - destruct e; simpl in *; try discriminate; exact F.
  - destruct e; simpl in *; try discriminate; exact I.
  - simpl. now rewrite Hf.
  - intros [->|H]; [discriminate | now apply U].
Qed.

Section BadDate.

Variable E : env.
Variables company_code start_date_str : string.
Hypothesis bad_date : strptime_Ymd start_date_str = None.

Lemma report_cycle_harmless rt tab table_id :
  only harmless (report_cycle E company_code rt start_date_str tab table_id)
  /\ keeps_data (report_cycle E company_code rt start_date_str tab table_id).
Proof.
  unfold report_cycle. rewrite bad_date. split.
  - repeat step_only.
  - repeat step_keeps.
Qed.

Lemma download_report_harmless rt :
  only harmless (download_report E company_code rt start_date_str)
  /\ keeps_data (download_report E company_code rt start_date_str).
Proof.
  unfold download_report, download_report_body. split.
  - apply only_try_except; [|intro; repeat step_only].
    do 2 (apply only_bind; [now apply only_print|intro]).
    destruct (String.eqb rt "Quarterly"); [apply report_cycle_harmless|].
    destruct (String.eqb rt "Annual"); [apply report_cycle_harmless|].
    apply only_ret.
  - apply keeps_try_except; [|intro; repeat step_keeps].
    do 2 (apply keeps_bind; [apply keeps_print|intro]).
    destruct (String.eqb rt "Quarterly"); [apply report_cycle_harmless|].
    destruct (String.eqb rt "Annual"); [apply report_cycle_harmless|].
    apply keeps_ret.
Qed.

Lemma run_downloader_harmless :
  only harmless (run_downloader E company_code start_date_str)
  /\ keeps_data (run_downloader E company_code start_date_str).
Proof.
  unfold run_downloader, authenticate_google_drive. split.
  - apply only_bind; [now apply only_print|intro].
    apply only_bind; [repeat step_only|intros [|]; [|apply only_ret]].
    apply only_try_finally; [|repeat step_only].
    apply only_try_except; [|intro; now apply only_print].
    do 10 (apply only_bind; [solve [repeat step_only]|intro]).
    apply only_bind; [apply download_report_harmless|intro].
    apply only_bind; [apply download_report_harmless|intro].
    apply only_ret.
  - apply keeps_bind; [apply keeps_print|intro].
    apply keeps_bind; [repeat step_keeps|intros [|]; [|apply keeps_ret]].
    apply keeps_try_finally; [|repeat step_keeps].
    apply keeps_try_except; [|intro; apply keeps_print].
    do 10 (apply keeps_bind; [solve [repeat step_keeps]|intro]).
    apply keeps_bind; [apply download_report_harmless|intro].
    apply keeps_bind; [apply download_report_harmless|intro].
    apply keeps_ret.
Qed.

End BadDate.

(** C7, as stated, fails for a malformed date: with three arguments the
    script does not look at the date before starting. Here the date is
    ["01/01/2024"]; the script authenticates, starts the browser and
    opens the tabs, and never prints the usage line. *)
Lemma malformed_date_still_starts_the_run :
  length Samples.bad_date_argv = 3
  /\ strptime_Ymd (nth 2 Samples.bad_date_argv "") = None
  /\ In ServiceAuth (out (main (Samples.calm Samples.two_rows [])
                            Samples.bad_date_argv Samples.blank))
  /\ In BrowserStart (out (main (Samples.calm Samples.two_rows [])
                             Samples.bad_date_argv Samples.blank))
  /\ In (Click "Quarterly Reports")
       (out (main (Samples.calm Samples.two_rows [])
               Samples.bad_date_argv Samples.blank))
  /\ ~ In (Print "Usage: python scraper.py <COMPANY_CODE> <YYYY-MM-DD>")
         (out (main (Samples.calm Samples.two_rows [])
                 Samples.bad_date_argv Samples.blank)).
Proof.
  split; [reflexivity|]. split; [reflexivity|].
  split; [vm_compute; tauto|]. split; [vm_compute; tauto|].
  split; [vm_compute; tauto|].
  vm_compute. intro H.
  repeat (destruct H as [H|H]; [discriminate|]). exact H.
Qed.

(** C7, amended. With an argument count other than three, the script
    prints its start line, the usage line and its end line, and does
    nothing else. With three arguments of which the date, a text of ASCII
    characters, does not parse,
    the usage line is not printed and the run starts as usual, beginning
    with the authentication; it requests no document, makes no call to
    the remote store, touches no local file, leaves the local files and
    the store as they were, and returns. *)
Theorem bad_arguments_do_no_transfer :
  forall (E : env) (argv : list string) (s : state),
    (length argv <> 3 ->
     main E argv s
     = mkRun (Ok tt) s
         [Print "Script started.";
          Print "Usage: python scraper.py <COMPANY_CODE> <YYYY-MM-DD>";
          Print "Script finished."])
    /\ (length argv = 3 ->
        isascii (nth 2 argv "") = true ->
        strptime_Ymd (nth 2 argv "") = None ->
        (exists rest,
            out (main E argv s)
            = Print "Script started."
              :: Print "Step 1: Authenticating with Google Drive using Service Account..."
              :: ServiceAuth :: rest)
        /\ fetched (out (main E argv s)) = []
        /\ filter is_remote_call (out (main E argv s)) = []
        /\ filter is_local_file_op (out (main E argv s)) = []
        /\ ~ In (Print "Usage: python scraper.py <COMPANY_CODE> <YYYY-MM-DD>")
               (out (main E argv s))
        /\ files (st (main E argv s)) = files s
        /\ dirs (st (main E argv s)) = dirs s
        /\ drive (st (main E argv s)) = drive s
        /\ res (main E argv s) = Ok tt).
Proof.
  intros E argv s. split.
  - intro N. apply Nat.eqb_neq in N. unfold main, bind. simpl. now rewrite N.
  - intros L _ D.
    assert (L' : (length argv =? 3) = true) by (now apply Nat.eqb_eq).
    destruct (run_downloader_harmless E (nth 1 argv "") (nth 2 argv "") D) as [Ho Hk].
    assert (O : only harmless (main E argv)).
    { unfold main. rewrite L'.
      apply only_bind; [now apply only_print|intro].
      apply only_bind; [exact Ho|intro]. now apply only_print. }
    assert (K : keeps_data (main E argv)).
    { unfold main. rewrite L'.
      apply keeps_bind; [apply keeps_print|intro].
      apply keeps_bind; [exact Hk|intro]. apply keeps_print. }
    destruct (harmless_spec _ (O s)) as (F & I & Lf & U).
    destruct (K s) as (Kf & Kd & Kr).
    split; [|split; [exact F|split; [|split; [exact Lf|split; [exact U|]]]]].
    + unfold main. rewrite L'.
      rewrite out_bind. simpl (res _). cbv iota beta. simpl (out (print _ _)).
      rewrite out_bind. unfold run_downloader at 1.
      rewrite out_bind. simpl (res (print _ _)). cbv iota beta.
      simpl (out (print _ _)). rewrite out_bind.
      unfold authenticate_google_drive at 1.
      rewrite out_try_except, out_bind, out_bind. simpl (out (emit _ _)).
      rewrite <- !app_assoc. simpl. eexists. reflexivity.
    + clear - O. specialize (O s).
      induction (out (main E argv s)) as [|e l IH]; [reflexivity|].
      simpl in O. apply andb_prop in O as [He Hl].
      simpl. rewrite (IH Hl).
      destruct e; try reflexivity; discriminate.
    + repeat split; try assumption.
      destruct (main_never_raises E argv s) as [[] H]. exact H.
Qed.

(** Two arguments: the usage line and nothing else. Three arguments with
    the date ["01/01/2024"]: a run without any transfer. *)
Lemma bad_arguments_do_no_transfer_witness :
  main (Samples.calm Samples.two_rows []) Samples.short_argv Samples.blank
  = mkRun (Ok tt) Samples.blank
      [Print "Script started.";
       Print "Usage: python scraper.py <COMPANY_CODE> <YYYY-MM-DD>";
       Print "Script finished."]
  /\ fetched (out (main (Samples.calm Samples.two_rows []) Samples.bad_date_argv
                     Samples.blank)) = []
  /\ filter is_remote_call
       (out (main (Samples.calm Samples.two_rows []) Samples.bad_date_argv
               Samples.blank)) = []
  /\ drive (st (main (Samples.calm Samples.two_rows []) Samples.bad_date_argv
                  Samples.blank)) = drive Samples.blank
  /\ res (main (Samples.calm Samples.two_rows []) Samples.bad_date_argv
            Samples.blank) = Ok tt.
Proof.
  split.
  - apply (proj1 (bad_arguments_do_no_transfer (Samples.calm Samples.two_rows [])
                    Samples.short_argv Samples.blank)).
    simpl. lia.
  - destruct (proj2 (bad_arguments_do_no_transfer (Samples.calm Samples.two_rows [])
                       Samples.bad_date_argv Samples.blank) eq_refl eq_refl eq_refl)
      as (_ & F & C & _ & _ & _ & _ & D & R).
    split; [exact F|]. split; [exact C|]. split; [exact D | exact R].
Defined.

(* ================================================================== *)
(** ** The run around the cycles *)

Section CycleEvents.

Variable E : env.
Variable P : event -> bool.

Hypothesis P_print : forall line, P (Print line) = true.
Hypothesis P_click : forall text, P (Click text) = true.
Hypothesis P_sleep : forall n, P (Sleep n) = true.
Hypothesis P_get : forall url, P (HttpGet url) = true.
Hypothesis P_makedirs : forall path, P (MakeDirs path) = true.
Hypothesis P_write : forall path, P (FileWrite path) = true.
Hypothesis P_remove : forall path, P (FileRemove path) = true.
Hypothesis P_list : forall t p, P (DriveList t p) = true.
Hypothesis P_insert : forall f, P (DriveInsert f) = true.

Lemma only_fetch_and_upload cc rt a d : only P (fetch_and_upload E cc rt a d).
Proof.
  unfold fetch_and_upload.
  apply only_bind; [now apply only_makedirs|intro].
  do 2 (apply only_bind; [now apply only_print|intro]).
  apply only_bind; [now apply only_emit|intro].
  apply only_bind; [apply only_lift|intro].
  apply only_bind; [apply only_raise_for_status|intro].
  apply only_bind; [now apply only_write_file|intro].
  apply only_bind; [now apply only_upload_to_drive|intro].
  now apply only_remove.
Qed.

Lemma only_for_rows cc rt cutoff rows : forall n, only P (for_rows E cc rt cutoff rows n).
Proof.
  induction rows as [|row rest IH]; intro n; [apply only_ret|].
  rewrite for_rows_cons. cbv zeta.
  destruct (_ <? 2); [apply IH|].
  apply only_bind; [apply only_lift|intro text].
  destruct (strptime_dbY text) as [d|]; [|apply IH].
  destruct (date_geb d cutoff).
  - destruct (find_pdf_link row) as [a|]; [|apply IH].
    apply only_bind; [apply only_fetch_and_upload|intro; apply IH].
  - apply only_bind; [now apply only_print|intro; apply only_ret].
Qed.

Lemma only_report_cycle cc rt sd tab table_id :
  only P (report_cycle E cc rt sd tab table_id).
Proof.
  unfold report_cycle.
  apply only_bind; [now apply only_print|intro].
  apply only_bind; [apply only_attempt|intro].
  apply only_bind; [now apply only_emit|intro].
  apply only_bind; [apply only_attempt|intro].
  apply only_bind; [now apply only_emit|intro].
  apply only_bind; [now apply only_print|intro].
  destruct (find_div_by_id _ _); [|apply only_ret].
  destruct (find "tbody" _); [|apply only_raise].
  destruct (find_all "tr" _) eqn:R; [apply only_ret|]. rewrite <- R.
  destruct (strptime_Ymd sd); [|apply only_raise].
  apply only_bind; [apply only_for_rows|intro k].
  apply only_bind; [|intro; apply only_ret].
  destruct (k =? 0); [now apply only_print | apply only_ret].
Qed.

Lemma only_download_report cc rt sd : only P (download_report E cc rt sd).
Proof.
  unfold download_report, download_report_body.
  apply only_try_except.
  - do 2 (apply only_bind; [now apply only_print|intro]).
    destruct (String.eqb rt "Quarterly"); [apply only_report_cycle|].
    destruct (String.eqb rt "Annual"); [apply only_report_cycle|].
    apply only_ret.
  - intro e. apply only_bind; [now apply only_print|intro; apply only_ret].
Qed.

End CycleEvents.

(** A cycle neither authenticates nor starts or ends the browser
    session. *)
Lemma download_report_no_bracket E cc rt sd s :
  forallb (fun e => negb (is_session_bracket e)) (out (download_report E cc rt sd s)) = true.
Proof. apply only_download_report; reflexivity. Qed.

(** X1. When the remote store refuses the key, [run_downloader] prints
    the refusal and returns: no browser is started, no page is opened,
    no cycle is run, and the state is untouched. *)
Theorem refused_key_ends_the_run :
  forall (E : env) (company_code start_date_str : string) (s : state) (e : exn),
    auth E = Some e ->
    run_downloader E company_code start_date_str s
    = mkRun (Ok tt) s
        [Print "Step 1: Authenticating with Google Drive using Service Account...";
         ServiceAuth;
         refused_line e].
Proof.
  intros E cc sd s e H.
  unfold run_downloader, authenticate_google_drive, try_except, bind. simpl.
  now rewrite H.
Qed.

Lemma refused_key_ends_the_run_witness :
  run_downloader Samples.key_refused Samples.code "2024-01-01" Samples.blank
  = mkRun (Ok tt) Samples.blank
      [Print "Step 1: Authenticating with Google Drive using Service Account...";
       ServiceAuth;
       refused_line (mkExn "RefreshError" "invalid_grant: Invalid JWT Signature.")].
Proof.
  apply (refused_key_ends_the_run Samples.key_refused Samples.code "2024-01-01"
           Samples.blank (mkExn "RefreshError" "invalid_grant: Invalid JWT Signature.")).
  reflexivity.
Defined.

(** X2. Once the key is accepted, a failure before the first cycle (the
    browser does not start, the company page does not load, or the
    Financials tab cannot be clicked) is reported on one line; no cycle
    is run, nothing is requested or written, the state is untouched, and
    the browser is closed if and only if it had started. *)
Theorem startup_failure_runs_no_cycle :
  forall (E : env) (company_code start_date_str : string) (s : state) (e : exn),
    auth E = None ->
    (chrome E = Some e ->
     run_downloader E company_code start_date_str s
     = mkRun (Ok tt) s
         [Print "Step 1: Authenticating with Google Drive using Service Account...";
          ServiceAuth;
          Print "✅ Google Drive authentication successful.";
          critical_line e;
          closed_line])
    /\ (chrome E = None ->
        navigate E (base_url ^^ company_code) = Some e ->
        run_downloader E company_code start_date_str s
        = mkRun (Ok tt) s
            (firstn 7 (run_prologue company_code)
             ++ [critical_line e; BrowserQuit; closed_line]))
    /\ (chrome E = None ->
        navigate E (base_url ^^ company_code) = None ->
        clickable E "Financials" = Some e ->
        run_downloader E company_code start_date_str s
        = mkRun (Ok tt) s
            (firstn 8 (run_prologue company_code)
             ++ [critical_line e; BrowserQuit; closed_line])).
Proof.
  intros E cc sd s e Ha. repeat split.
  - intro Hc.
    unfold run_downloader, authenticate_google_drive, try_finally, try_except, bind.
    simpl. rewrite Ha. simpl. now rewrite Hc.
  - intros Hc Hn. unfold base_url in Hn. simpl in Hn.
    unfold run_downloader, authenticate_google_drive, try_finally, try_except, bind.
    simpl. rewrite Ha. simpl. rewrite Hc. simpl. now rewrite Hn.
  - intros Hc Hn Hf. unfold base_url in Hn. simpl in Hn.
    unfold run_downloader, authenticate_google_drive, try_finally, try_except, bind.
    simpl. rewrite Ha. simpl. rewrite Hc. simpl. rewrite Hn. simpl. now rewrite Hf.
Qed.

Lemma startup_failure_runs_no_cycle_witness :
  out (run_downloader Samples.no_browser Samples.code "2024-01-01" Samples.blank)
  = [Print "Step 1: Authenticating with Google Drive using Service Account...";
     ServiceAuth;
     Print "✅ Google Drive authentication successful.";
     critical_line (mkExn "WebDriverException" "unknown error: Chrome failed to start");
     closed_line]
  /\ run_downloader Samples.page_unreachable Samples.code "2024-01-01" Samples.blank
     = mkRun (Ok tt) Samples.blank
         (firstn 7 (run_prologue Samples.code)
          ++ [critical_line (mkExn "WebDriverException" "net::ERR_NAME_NOT_RESOLVED");
              BrowserQuit; closed_line])
  /\ run_downloader Samples.no_financials_tab Samples.code "2024-01-01" Samples.blank
     = mkRun (Ok tt) Samples.blank
         (firstn 8 (run_prologue Samples.code)
          ++ [critical_line (mkExn "TimeoutException" "Message: ");
              BrowserQuit; closed_line]).
Proof.
  split; [|split].
  - rewrite (proj1 (startup_failure_runs_no_cycle Samples.no_browser Samples.code
                      "2024-01-01" Samples.blank
                      (mkExn "WebDriverException" "unknown error: Chrome failed to start")
                      eq_refl) eq_refl).
    reflexivity.
  - apply (proj1 (proj2 (startup_failure_runs_no_cycle Samples.page_unreachable
                           Samples.code "2024-01-01" Samples.blank
                           (mkExn "WebDriverException" "net::ERR_NAME_NOT_RESOLVED")
                           eq_refl)));
      reflexivity.
  - apply (proj2 (proj2 (startup_failure_runs_no_cycle Samples.no_financials_tab
                           Samples.code "2024-01-01" Samples.blank
                           (mkExn "TimeoutException" "Message: ") eq_refl)));
      reflexivity.
Defined.

(** X3. In a run whose key is accepted and whose browser starts, the
    browser is started once, right after the authentication, and closed
    once, at the very end before the closing line, whatever fails in
    between: loading the page, opening a tab, parsing, fetching or
    uploading. *)
Theorem browser_session_is_bracketed :
  forall (E : env) (company_code start_date_str : string) (s : state),
    auth E = None ->
    chrome E = None ->
    exists mid,
      out (run_downloader E company_code start_date_str s)
      = [Print "Step 1: Authenticating with Google Drive using Service Account...";
         ServiceAuth;
         Print "✅ Google Drive authentication successful.";
         BrowserStart]
        ++ mid ++ [BrowserQuit; closed_line]
      /\ forallb (fun e => negb (is_session_bracket e)) mid = true.
Proof.
  intros E cc sd s Ha Hc.
  pose proof (download_report_no_bracket E cc "Quarterly" sd s) as Bq.
  pose proof (download_report_res E cc "Quarterly" sd s) as Rq.
  pose proof (fun s' => download_report_no_bracket E cc "Annual" sd s') as Ba.
  pose proof (fun s' => download_report_res E cc "Annual" sd s') as Ra.
  unfold run_downloader, authenticate_google_drive, try_finally, try_except, bind.
  simpl. rewrite Ha. simpl. rewrite Hc. simpl.
  destruct (navigate E _) as [e|]; simpl.
  { match goal with
    | |- exists mid, _ :: _ :: _ :: _ :: ?l = _ /\ _ =>
        exists (removelast (removelast l))
    end.
    split; reflexivity. }
  destruct (clickable E "Financials") as [e|]; simpl.
  { match goal with
    | |- exists mid, _ :: _ :: _ :: _ :: ?l = _ /\ _ =>
        exists (removelast (removelast l))
    end.
    split; reflexivity. }
  destruct (download_report E cc "Quarterly" sd s) as [[vq|eq] sq oq]; [|discriminate].
  simpl in Bq. specialize (Ba sq). specialize (Ra sq). simpl.
  destruct (download_report E cc "Annual" sd sq) as [[va|ea] sa oa]; [|discriminate].
  simpl in Ba. simpl.
  match goal with
  | |- exists mid, _ :: _ :: _ :: _ :: ?a :: ?b :: ?c :: ?d :: ?e :: ?f :: ?l ++ _ = _ /\ _ =>
      exists (a :: b :: c :: d :: e :: f :: l)
  end.
  split; [reflexivity|].
  simpl. now rewrite !forallb_app, Bq, Ba.
Qed.

Lemma browser_session_is_bracketed_witness :
  exists mid,
    out (run_downloader (Samples.calm Samples.two_rows []) Samples.code "2024-01-01"
           Samples.blank)
    = [Print "Step 1: Authenticating with Google Drive using Service Account...";
       ServiceAuth;
       Print "✅ Google Drive authentication successful.";
       BrowserStart]
      ++ mid ++ [BrowserQuit; closed_line]
    /\ forallb (fun e => negb (is_session_bracket e)) mid = true.
Proof.
  apply (browser_session_is_bracketed (Samples.calm Samples.two_rows []) Samples.code
           "2024-01-01" Samples.blank); reflexivity.
Defined.

(* ================================================================== *)
(** ** What the loop asks the server for *)

Lemma find_pdf_link_spec row a :
  find_pdf_link row = Some a ->
  exists h, attr_of "href" a = Some h
            /\ endswith h ".pdf" = true
            /\ In a (find_all "a" row).
Proof.
  unfold find_pdf_link. intro H.
  assert (I : In a (filter (fun n => href_is_pdf (attr_of "href" n)) (find_all "a" row))).
  { destruct (filter _ _) as [|x l]; [discriminate|].
    injection H as ->. now left. }
  apply filter_In in I as [I Hp].
  unfold href_is_pdf in Hp. destruct (attr_of "href" a) as [h|]; [|discriminate].
  apply andb_prop in Hp as [_ Hp]. now exists h.
Qed.

Lemma bind_lift_raise {A B} (e : exn) (k : A -> M B) s :
  bind (lift (Raise e)) k s = mkRun (Raise e) s [].
Proof. reflexivity. Qed.

Section Requests.

Variable E : env.
Variables company_code report_type : string.
Variable cutoff_date : date.

Local Abbreviation loop := (for_rows E company_code report_type cutoff_date).
Local Abbreviation process := (fetch_and_upload E company_code report_type).

Lemma for_rows_requests rows : forall n s u,
  In u (fetched (out (loop rows n s))) ->
  exists row a text d,
    In row rows
    /\ 2 <= length (find_all "td" row)
    /\ first_text (hd row (find_all "td" row)) = Ok text
    /\ strptime_dbY text = Some d
    /\ date_geb d cutoff_date = true
    /\ find_pdf_link row = Some a
    /\ attr_of "href" a = Some u
    /\ endswith u ".pdf" = true.
Proof.
  induction rows as [|row rest IH]; intros n s u; [intros []|].
  assert (Rest : forall m s',
             In u (fetched (out (loop rest m s'))) ->
             exists row' a text d,
               In row' (row :: rest)
               /\ 2 <= length (find_all "td" row')
               /\ first_text (hd row' (find_all "td" row')) = Ok text
               /\ strptime_dbY text = Some d
               /\ date_geb d cutoff_date = true
               /\ find_pdf_link row' = Some a
               /\ attr_of "href" a = Some u
               /\ endswith u ".pdf" = true).
  { intros m s' I. destruct (IH m s' u I) as (row' & a & text & d & Ir & H).
    exists row', a, text, d. split; [now right | exact H]. }
  rewrite for_rows_cons. cbv zeta.
  destruct (_ <? 2) eqn:C; [apply Rest|].
  apply Nat.ltb_ge in C.
  destruct (first_text _) as [text|e] eqn:T;
    [rewrite bind_lift_ok | rewrite bind_lift_raise; intros []].
  destruct (strptime_dbY text) as [d|] eqn:D; [|apply Rest].
  destruct (date_geb d cutoff_date) eqn:G; [|simpl; intros []].
  destruct (find_pdf_link row) as [a|] eqn:L; [|apply Rest].
  rewrite out_bind, fetched_app. intro I. apply in_app_or in I as [I|I].
  - destruct (find_pdf_link_spec row a L) as (h & Hh & Hp & _).
    destruct (fetch_and_upload_fetched E company_code report_type a d s) as [[F|F] _];
      cbv zeta in F; rewrite F in I; [destruct I|].
    rewrite Hh in I. destruct I as [<-|[]].
    exists row, a, text, d. repeat split; try assumption. now left.
  - destruct (res (process a d s)); [now apply Rest in I | destruct I].
Qed.

End Requests.

(** X4. Over rows whose first cells are ASCII texts, every URL the loop
    requests is the [href] of a link of one of its rows, ends in [.pdf],
    and belongs to a row of at least two cells whose first cell reads as
    a date at or after the cutoff. *)
Theorem only_pdf_links_of_recent_rows_are_requested :
  forall (E : env) (company_code report_type : string) (cutoff_date : date)
         (rows : list node) (n : nat) (s : state) (url : string),
    ascii_cells rows = true ->
    In url (fetched (out (for_rows E company_code report_type cutoff_date rows n s))) ->
    exists report_row pdf_link_tag text d,
      In report_row rows
      /\ 2 <= length (find_all "td" report_row)
      /\ first_text (hd report_row (find_all "td" report_row)) = Ok text
      /\ strptime_dbY text = Some d
      /\ date_geb d cutoff_date = true
      /\ find_pdf_link report_row = Some pdf_link_tag
      /\ attr_of "href" pdf_link_tag = Some url
      /\ endswith url ".pdf" = true.
Proof.
  intros E cc rt cutoff rows n s u _. apply for_rows_requests.
Qed.

Lemma only_pdf_links_of_recent_rows_are_requested_witness :
  exists report_row pdf_link_tag text d,
    In report_row Samples.two_rows
    /\ 2 <= length (find_all "td" report_row)
    /\ first_text (hd report_row (find_all "td" report_row)) = Ok text
    /\ strptime_dbY text = Some d
    /\ date_geb d Samples.cutoff_2024 = true
    /\ find_pdf_link report_row = Some pdf_link_tag
    /\ attr_of "href" pdf_link_tag = Some "https://cdn.cse.lk/q1.pdf"
    /\ endswith "https://cdn.cse.lk/q1.pdf" ".pdf" = true.
Proof.
  assert (I : In "https://cdn.cse.lk/q1.pdf"
                (fetched (out (for_rows (Samples.calm [] []) Samples.code "Quarterly"
                                 Samples.cutoff_2024 Samples.two_rows 0 Samples.blank))))
    by (vm_compute; left; reflexivity).
  assert (Ac : ascii_cells Samples.two_rows = true) by (vm_compute; reflexivity).
  exact (only_pdf_links_of_recent_rows_are_requested (Samples.calm [] []) Samples.code
           "Quarterly" Samples.cutoff_2024 Samples.two_rows 0 Samples.blank
           "https://cdn.cse.lk/q1.pdf" Ac I).
Defined.

(* ================================================================== *)
(** ** Local files around one record *)

Lemma makedirs_run path s :
  Fs.makedirs path s =
  if Fs.is_dir path s then mkRun (Ok tt) s []
  else if Fs.is_file path s then mkRun (Raise (Fs.FileExistsError path)) s []
  else mkRun (Ok tt) (mkState (files s) (dirs s ++ [path]) (drive s) (api_calls s))
         [MakeDirs path].
Proof.
  unfold Fs.makedirs, bind, get_state. simpl.
  destruct (Fs.is_dir path s); [reflexivity|].
  now destruct (Fs.is_file path s).
Qed.

Lemma write_file_run path data s :
  Fs.write_file path data s =
  if Fs.is_dir path s then mkRun (Raise (Fs.IsADirectoryError path)) s []
  else if negb (String.eqb (parent_dir path) "") && negb (Fs.is_dir (parent_dir path) s)
  then mkRun (Raise (Fs.FileNotFoundError path)) s []
  else mkRun (Ok tt)
         (mkState ((path, data) :: Fs.delete path (files s)) (dirs s) (drive s)
            (api_calls s))
         [FileWrite path].
Proof.
  unfold Fs.write_file, bind, get_state. simpl.
  destruct (Fs.is_dir path s); [reflexivity|].
  now destruct (_ && _).
Qed.

Lemma remove_run path s :
  Fs.remove path s =
  if Fs.is_file path s
  then mkRun (Ok tt) (mkState (Fs.delete path (files s)) (dirs s) (drive s) (api_calls s))
         [FileRemove path]
  else mkRun (Raise (Fs.FileNotFoundError path)) s [].
Proof.
  unfold Fs.remove, bind, get_state. simpl.
  now destruct (Fs.is_file path s).
Qed.

Lemma makedirs_files path s : files (st (Fs.makedirs path s)) = files s.
Proof.
  rewrite makedirs_run. destruct (Fs.is_dir path s); [reflexivity|].
  now destruct (Fs.is_file path s).
Qed.

Lemma makedirs_drive path s :
  drive (st (Fs.makedirs path s)) = drive s
  /\ api_calls (st (Fs.makedirs path s)) = api_calls s.
Proof.
  rewrite makedirs_run. destruct (Fs.is_dir path s); [now split|].
  now destruct (Fs.is_file path s).
Qed.

Lemma res_bind_emit {B} e (k : unit -> M B) s :
  res (bind (emit e) k s) = res (k tt s).
Proof. unfold bind, emit. now destruct (k tt s). Qed.

Lemma st_bind_emit {B} e (k : unit -> M B) s :
  st (bind (emit e) k s) = st (k tt s).
Proof. unfold bind, emit. now destruct (k tt s). Qed.

Lemma out_bind_emit {B} e (k : unit -> M B) s :
  out (bind (emit e) k s) = e :: out (k tt s).
Proof. unfold bind, emit. now destruct (k tt s). Qed.

(** X5. When the server does not deliver a document (the request raises,
    or the status is in 400-599), the step of that record raises before
    anything is written: the local files and the remote store are as
    they were, and no call to the remote store has been made. *)
Theorem failed_fetch_writes_nothing :
  forall (E : env) (company_code report_type : string) (pdf_link_tag : node)
         (date_obj : date) (s : state) (url : string),
    attr_of "href" pdf_link_tag = Some url ->
    (exists e, requests_get E url = Raise e)
    \/ (exists r, requests_get E url = Ok r
                  /\ 400 <= status_code r /\ status_code r < 600) ->
    (exists e, res (fetch_and_upload E company_code report_type pdf_link_tag date_obj s)
               = Raise e)
    /\ files (st (fetch_and_upload E company_code report_type pdf_link_tag date_obj s))
       = files s
    /\ drive (st (fetch_and_upload E company_code report_type pdf_link_tag date_obj s))
       = drive s
    /\ api_calls (st (fetch_and_upload E company_code report_type pdf_link_tag date_obj s))
       = api_calls s.
Proof.
  intros E cc rt a d s url Hh Hf.
  unfold fetch_and_upload. rewrite Hh.
  rewrite res_bind, st_bind.
  pose proof (makedirs_files "temp_reports" s) as Mf.
  destruct (makedirs_drive "temp_reports" s) as [Md Mc].
  destruct (res (Fs.makedirs "temp_reports" s)) as [[]|e0];
    [|split; [now exists e0 | now repeat split]].
  set (s1 := st (Fs.makedirs "temp_reports" s)) in *.
  destruct Hf as [[e Hf]|(r & Hf & Hlo & Hhi)].
  - unfold print.
    rewrite !res_bind_emit, !st_bind_emit, res_bind, st_bind, Hf. simpl.
    split; [now exists e | now repeat split].
  - assert (B : (400 <=? status_code r) && (status_code r <? 600) = true).
    { apply andb_true_intro. split; [now apply Nat.leb_le | now apply Nat.ltb_lt]. }
    unfold print.
    rewrite !res_bind_emit, !st_bind_emit, res_bind, st_bind, Hf.
    simpl (res (lift _ _)). cbv iota beta. simpl (st (lift _ _)).
    rewrite res_bind, st_bind. unfold raise_for_status. rewrite B.
    split; [now eexists | now repeat split].
Qed.

Lemma failed_fetch_writes_nothing_witness :
  (exists e, res (fetch_and_upload Samples.february_missing Samples.code "Quarterly"
                    (Samples.anchor "https://cdn.cse.lk/feb.pdf") (mkDate 2024 2 15)
                    Samples.blank) = Raise e)
  /\ files (st (fetch_and_upload Samples.february_missing Samples.code "Quarterly"
                  (Samples.anchor "https://cdn.cse.lk/feb.pdf") (mkDate 2024 2 15)
                  Samples.blank)) = []
  /\ drive (st (fetch_and_upload Samples.february_missing Samples.code "Quarterly"
                  (Samples.anchor "https://cdn.cse.lk/feb.pdf") (mkDate 2024 2 15)
                  Samples.blank)) = []
  /\ api_calls (st (fetch_and_upload Samples.february_missing Samples.code "Quarterly"
                      (Samples.anchor "https://cdn.cse.lk/feb.pdf") (mkDate 2024 2 15)
                      Samples.blank)) = 0.
Proof.
  apply (failed_fetch_writes_nothing Samples.february_missing Samples.code "Quarterly"
           (Samples.anchor "https://cdn.cse.lk/feb.pdf") (mkDate 2024 2 15)
           Samples.blank "https://cdn.cse.lk/feb.pdf").
  - reflexivity.
  - right. exists (mkResponse 404 ""). split; [reflexivity|]. simpl. lia.
Defined.

Section Keeps.

Context {T : Type}.
Variable part : state -> T.

Lemma keeps_bind_part {A B} (m : M A) (k : A -> M B) :
  keeps part m -> (forall a, keeps part (k a)) -> keeps part (bind m k).
Proof.
  intros Hm Hk s. rewrite st_bind.
  destruct (res (m s)) as [a|e]; [now rewrite Hk, Hm | apply Hm].
Qed.

Lemma keeps_ret_part {A} (a : A) : keeps part (ret a).
Proof. intro s. reflexivity. Qed.

Lemma keeps_raise_part {A} (e : exn) : keeps part (@raise A e).
Proof. intro s. reflexivity. Qed.

Lemma keeps_emit_part e : keeps part (emit e).
Proof. intro s. reflexivity. Qed.

Lemma keeps_print_part line : keeps part (print line).
Proof. intro s. reflexivity. Qed.

Lemma keeps_lift_part {A} (o : outcome A) : keeps part (lift o).
Proof. destruct o; [apply keeps_ret_part | apply keeps_raise_part]. Qed.

Lemma keeps_raise_for_status_part url r : keeps part (raise_for_status url r).
Proof.
  unfold raise_for_status. destruct (_ && _); [apply keeps_raise_part | apply keeps_ret_part].
Qed.

Lemma keeps_read_file_part path : keeps part (Fs.read_file path).
Proof. intro s. rewrite read_file_run. now destruct (Fs.lookup path (files s)). Qed.

End Keeps.

Section KeepsLocal.

Variable E : env.

Lemma keeps_files_folder name parent : keeps files (get_or_create_folder E name parent).
Proof.
  intro s. rewrite get_or_create_folder_run.
  destruct (drive_fault E (api_calls s)); [reflexivity|].
  destruct (filter _ _); [|reflexivity].
  now destruct (drive_fault E (S (api_calls s))).
Qed.

Lemma keeps_dirs_folder name parent : keeps dirs (get_or_create_folder E name parent).
Proof.
  intro s. rewrite get_or_create_folder_run.
  destruct (drive_fault E (api_calls s)); [reflexivity|].
  destruct (filter _ _); [|reflexivity].
  now destruct (drive_fault E (S (api_calls s))).
Qed.

Lemma keeps_files_insert t p b d : keeps files (drive_insert E t p b d).
Proof.
  intro s. rewrite drive_insert_run. now destruct (drive_fault E (api_calls s)).
Qed.

Lemma keeps_dirs_insert t p b d : keeps dirs (drive_insert E t p b d).
Proof.
  intro s. rewrite drive_insert_run. now destruct (drive_fault E (api_calls s)).
Qed.

(** An upload reads the local copy and leaves the disk alone. *)
Lemma keeps_files_upload path cc rt : keeps files (upload_to_drive E path cc rt).
Proof.
  unfold upload_to_drive.
  apply keeps_bind_part; [apply keeps_print_part|intro].
  do 3 (apply keeps_bind_part; [apply keeps_files_folder|intro]).
  apply keeps_bind_part; [apply keeps_read_file_part|intro].
  apply keeps_bind_part; [apply keeps_files_insert|intro].
  apply keeps_print_part.
Qed.

Lemma keeps_dirs_upload path cc rt : keeps dirs (upload_to_drive E path cc rt).
Proof.
  unfold upload_to_drive.
  apply keeps_bind_part; [apply keeps_print_part|intro].
  do 3 (apply keeps_bind_part; [apply keeps_dirs_folder|intro]).
  apply keeps_bind_part; [apply keeps_read_file_part|intro].
  apply keeps_bind_part; [apply keeps_dirs_insert|intro].
  apply keeps_print_part.
Qed.

End KeepsLocal.

Lemma keeps_dirs_write path data : keeps dirs (Fs.write_file path data).
Proof.
  intro s. rewrite write_file_run. destruct (Fs.is_dir path s); [reflexivity|].
  now destruct (_ && _).
Qed.

Lemma keeps_dirs_remove path : keeps dirs (Fs.remove path).
Proof. intro s. rewrite remove_run. now destruct (Fs.is_file path s). Qed.

(** What is looked up after a deletion was there before, and is not the
    deleted path. *)
Lemma lookup_delete path gone fs data :
  Fs.lookup path (Fs.delete gone fs) = Some data ->
  Fs.lookup path fs = Some data /\ path <> gone.
Proof.
  induction fs as [|[p c] fs IH]; [discriminate|].
  unfold Fs.delete in *. simpl.
  destruct (String.eqb p gone) eqn:G; simpl.
  - intro H. destruct (IH H) as [L N]. split; [|exact N].
    apply String.eqb_eq in G. subst p.
    destruct (String.eqb gone path) eqn:Q; [|exact L].
    apply String.eqb_eq in Q. now subst.
  - destruct (String.eqb p path) eqn:Q.
    + intro H. split; [exact H|]. apply String.eqb_eq in Q. subst p.
      intros ->. now rewrite String.eqb_refl in G.
    + apply IH.
Qed.

Lemma delete_written path data fs :
  Fs.delete path ((path, data) :: Fs.delete path fs) = Fs.delete path fs.
Proof.
  unfold Fs.delete. simpl. rewrite String.eqb_refl. simpl.
  induction fs as [|[p c] fs IH]; [reflexivity|].
  simpl. destruct (String.eqb p path) eqn:Q; simpl; [exact IH|].
  now rewrite Q, IH.
Qed.

Lemma no_new_file_refl fs : no_new_file fs fs.
Proof. intros path data H. exact H. Qed.

Lemma no_new_file_trans a b c : no_new_file a b -> no_new_file b c -> no_new_file a c.
Proof. intros H1 H2 path data H. apply H1, H2, H. Qed.

Lemma no_new_file_delete path fs : no_new_file fs (Fs.delete path fs).
Proof. intros p data H. now apply lookup_delete in H as [H _]. Qed.

Lemma st_emit e s : st (emit e s) = s.
Proof. reflexivity. Qed.

Lemma st_print line s : st (print line s) = s.
Proof. reflexivity. Qed.

Lemma st_lift {A} (o : outcome A) s : st (lift o s) = s.
Proof. now destruct o. Qed.

Lemma st_raise_for_status url r s : st (raise_for_status url r s) = s.
Proof. unfold raise_for_status. now destruct (_ && _). Qed.

(** Follow a returning sequence one step: the first action returned, and
    the rest is run from the state it left. *)
Ltac peel H :=
  rewrite res_bind in H; rewrite st_bind;
  match type of H with
  | match res ?r with _ => _ end = _ =>
      let R := fresh "R" in
      destruct (res r) eqn:R; [|discriminate H]
  end.

Lemma write_file_ok path data s :
  res (Fs.write_file path data s) = Ok tt ->
  files (st (Fs.write_file path data s)) = (path, data) :: Fs.delete path (files s).
Proof.
  rewrite write_file_run. destruct (Fs.is_dir path s); [discriminate|].
  now destruct (_ && _).
Qed.

Lemma remove_ok path s :
  res (Fs.remove path s) = Ok tt ->
  files (st (Fs.remove path s)) = Fs.delete path (files s).
Proof. rewrite remove_run. now destruct (Fs.is_file path s). Qed.

Section Cleanup.

Variable E : env.
Variables company_code report_type : string.
Variable cutoff_date : date.

Local Abbreviation loop := (for_rows E company_code report_type cutoff_date).
Local Abbreviation process := (fetch_and_upload E company_code report_type).

(** A step that returns has removed its local copy, and any older file
    of the same path with it. *)
Lemma fetch_and_upload_files a d s :
  res (process a d s) = Ok tt ->
  files (st (process a d s)) = Fs.delete (local_path company_code d) (files s).
Proof.
  intro H. unfold fetch_and_upload in *. fold (local_name company_code d) in *.
  fold (local_path company_code d) in *.
  do 8 peel H.
  rewrite !st_print, !st_emit, !st_lift, !st_raise_for_status in *.
  repeat match goal with u : unit |- _ => destruct u end.
  rewrite (remove_ok _ _ H), keeps_files_upload, (write_file_ok _ _ _ R5).
  now rewrite delete_written, makedirs_files.
Qed.

Lemma for_rows_cleans_up rows : forall n, cleans_up (loop rows n).
Proof.
  induction rows as [|row rest IH]; intros n s k.
  - intros _. apply no_new_file_refl.
  - rewrite for_rows_cons. cbv zeta.
    destruct (_ <? 2); [apply IH|].
    destruct (first_text _) as [text|e];
      [rewrite bind_lift_ok | rewrite bind_lift_raise; discriminate].
    destruct (strptime_dbY text) as [d|]; [|apply IH].
    destruct (date_geb d cutoff_date).
    + destruct (find_pdf_link row) as [a|]; [|apply IH].
      intro H. peel H. destruct a0.
      eapply no_new_file_trans; [|apply (IH _ _ _ H)].
      rewrite (fetch_and_upload_files a d s R). apply no_new_file_delete.
    + intros _. apply no_new_file_refl.
Qed.

End Cleanup.

(** X6. A step that returns has removed its local copy: the files are
    those found before, less the path of the copy. A loop that completes
    therefore leaves no new local file: every file present afterwards
    was there before, with the same bytes. *)
Theorem completed_loop_leaves_no_local_copy :
  forall (E : env) (company_code report_type : string) (cutoff_date : date) (s : state),
    (forall pdf_link_tag date_obj,
        res (fetch_and_upload E company_code report_type pdf_link_tag date_obj s) = Ok tt ->
        files (st (fetch_and_upload E company_code report_type pdf_link_tag date_obj s))
        = Fs.delete (local_path company_code date_obj) (files s))
    /\ (forall rows n k,
          res (for_rows E company_code report_type cutoff_date rows n s) = Ok k ->
          forall path data,
            Fs.lookup path
              (files (st (for_rows E company_code report_type cutoff_date rows n s)))
            = Some data ->
            Fs.lookup path (files s) = Some data).
Proof.
  intros E cc rt cutoff s. split.
  - intros a d. apply fetch_and_upload_files.
  - intros rows n k H. exact (for_rows_cleans_up E cc rt cutoff rows n s k H).
Qed.

Lemma completed_loop_leaves_no_local_copy_witness :
  files (st (fetch_and_upload (Samples.calm [] []) Samples.code "Quarterly"
               (Samples.anchor "https://cdn.cse.lk/q1.pdf") (mkDate 2024 3 1)
               Samples.blank))
  = Fs.delete (local_path Samples.code (mkDate 2024 3 1)) (files Samples.blank)
  /\ Fs.lookup Samples.march_path
       (files (st (for_rows (Samples.calm [] []) Samples.code "Quarterly"
                     Samples.cutoff_2024 Samples.two_rows 0 Samples.blank)))
     = None.
Proof.
  destruct (completed_loop_leaves_no_local_copy (Samples.calm [] []) Samples.code
              "Quarterly" Samples.cutoff_2024 Samples.blank) as [Hstep Hloop].
  split.
  - apply Hstep. reflexivity.
  - destruct (Fs.lookup Samples.march_path _) as [data|] eqn:L; [|reflexivity].
    apply (Hloop Samples.two_rows 0 1 eq_refl) in L. discriminate.
Defined.

(* ================================================================== *)
(** ** The directory of the local copies *)

Lemma dirs_stay_of_keeps {A} (m : M A) : keeps dirs m -> dirs_stay m.
Proof. intros H s path. unfold Fs.is_dir. now rewrite H. Qed.

Lemma dirs_stay_bind {A B} (m : M A) (k : A -> M B) :
  dirs_stay m -> (forall a, dirs_stay (k a)) -> dirs_stay (bind m k).
Proof.
  intros Hm Hk s path I. rewrite st_bind.
  destruct (res (m s)) as [a|e]; [apply Hk|]; now apply Hm.
Qed.

Lemma dirs_stay_makedirs path : dirs_stay (Fs.makedirs path).
Proof.
  intros s p I. rewrite makedirs_run.
  destruct (Fs.is_dir path s); [exact I|].
  destruct (Fs.is_file path s); [exact I|].
  unfold Fs.is_dir in *. simpl. rewrite existsb_app, I. reflexivity.
Qed.

Lemma makedirs_ok path s :
  res (Fs.makedirs path s) = Ok tt -> Fs.is_dir path (st (Fs.makedirs path s)) = true.
Proof.
  rewrite makedirs_run. destruct (Fs.is_dir path s) eqn:D; [intros _; exact D|].
  destruct (Fs.is_file path s); [discriminate|]. intros _.
  unfold Fs.is_dir. simpl. rewrite existsb_app. simpl.
  now rewrite String.eqb_refl, orb_true_r.
Qed.

Section Directory.

Variable E : env.
Variables company_code report_type : string.
Variable cutoff_date : date.

Local Abbreviation loop := (for_rows E company_code report_type cutoff_date).
Local Abbreviation process := (fetch_and_upload E company_code report_type).

Lemma after_makedirs_keeps_dirs a d :
  keeps dirs
    (bind (print (nl ^^ "  - Found valid report: " ^^ local_name company_code d))
       (fun _ =>
          bind (print "    - Downloading temporarily...")
            (fun _ =>
               bind (emit (HttpGet match attr_of "href" a with
                                   | Some h => h
                                   | None => ""
                                   end))
                 (fun _ =>
                    bind (lift (requests_get E match attr_of "href" a with
                                                | Some h => h
                                                | None => ""
                                                end))
                      (fun pdf_response =>
                         bind (raise_for_status
                                 match attr_of "href" a with
                                 | Some h => h
                                 | None => ""
                                 end pdf_response)
                           (fun _ =>
                              bind (Fs.write_file (local_path company_code d)
                                      (content pdf_response))
                                (fun _ =>
                                   bind (upload_to_drive E (local_path company_code d)
                                           company_code report_type)
                                     (fun _ => Fs.remove (local_path company_code d))))))))).
Proof.
  do 2 (apply keeps_bind_part; [apply keeps_print_part|intro]).
  apply keeps_bind_part; [apply keeps_emit_part|intro].
  apply keeps_bind_part; [apply keeps_lift_part|intro].
  apply keeps_bind_part; [apply keeps_raise_for_status_part|intro].
  apply keeps_bind_part; [apply keeps_dirs_write|intro].
  apply keeps_bind_part; [apply keeps_dirs_upload|intro].
  apply keeps_dirs_remove.
Qed.

Lemma fetch_and_upload_dirs a d :
  dirs_stay (process a d)
  /\ forall s, fetched (out (process a d s)) <> [] ->
               Fs.is_dir "temp_reports" (st (process a d s)) = true.
Proof.
  split.
  - apply dirs_stay_bind; [apply dirs_stay_makedirs|intros _].
    apply dirs_stay_of_keeps, after_makedirs_keeps_dirs.
  - intros s. unfold fetch_and_upload.
    rewrite out_bind, st_bind, fetched_app.
    rewrite (only_nothing_fetched (Fs.makedirs "temp_reports") s)
      by (now apply only_makedirs).
    destruct (res (Fs.makedirs "temp_reports" s)) as [[]|e] eqn:R;
      [|intro H; now elim H].
    intros _. unfold Fs.is_dir.
    pose proof (after_makedirs_keeps_dirs a d (st (Fs.makedirs "temp_reports" s))) as K.
    unfold local_path, local_name in K. rewrite K.
    now apply makedirs_ok.
Qed.

Lemma for_rows_dirs rows : forall n,
  dirs_stay (loop rows n)
  /\ forall s, fetched (out (loop rows n s)) <> [] ->
               Fs.is_dir "temp_reports" (st (loop rows n s)) = true.
Proof.
  induction rows as [|row rest IH]; intro n.
  - split; [intros s p I; exact I | intros s H; now elim H].
  - rewrite for_rows_cons. cbv zeta.
    destruct (_ <? 2); [apply IH|].
    destruct (first_text _) as [text|e].
    + assert (Q : forall k : string -> M nat,
                 (dirs_stay (k text)
                  /\ forall s, fetched (out (k text s)) <> [] ->
                               Fs.is_dir "temp_reports" (st (k text s)) = true) ->
                 dirs_stay (bind (lift (Ok text)) k)
                 /\ forall s, fetched (out (bind (lift (Ok text)) k s)) <> [] ->
                              Fs.is_dir "temp_reports" (st (bind (lift (Ok text)) k s))
                              = true).
      { intros k [H1 H2]. split.
        - intros s p I. rewrite bind_lift_ok. now apply H1.
        - intros s. rewrite bind_lift_ok. apply H2. }
      apply Q. clear Q.
      destruct (strptime_dbY text) as [d|]; [|apply IH].
      destruct (date_geb d cutoff_date).
      * destruct (find_pdf_link row) as [a|]; [|apply IH].
        destruct (fetch_and_upload_dirs a d) as [P1 P2].
        destruct (IH (n + 1)) as [L1 L2].
        split; [apply dirs_stay_bind; [exact P1 | intros _; exact L1]|].
        intros s. rewrite out_bind, st_bind, fetched_app.
        destruct (res (process a d s)) as [[]|e].
        -- intro H.
           destruct (fetched (out (loop rest (n + 1) (st (process a d s))))) eqn:F.
           ++ rewrite app_nil_r in H. apply L1. now apply P2.
           ++ apply L2. rewrite F. discriminate.
        -- rewrite app_nil_r. apply P2.
      * split; [intros s p I; exact I | intros s H; now elim H].
    + split.
      * intros s p I. now rewrite bind_lift_raise.
      * intros s. rewrite bind_lift_raise. intro H. now elim H.
Qed.

End Directory.

(** X7. The loop removes no directory, and the directory [temp_reports]
    is left behind: after a loop that requested at least one document it
    exists, whether the loop completed or failed. *)
Theorem temp_directory_is_left_behind :
  forall (E : env) (company_code report_type : string) (cutoff_date : date)
         (rows : list node) (n : nat) (s : state),
    (forall path, Fs.is_dir path s = true ->
                  Fs.is_dir path
                    (st (for_rows E company_code report_type cutoff_date rows n s))
                  = true)
    /\ (fetched (out (for_rows E company_code report_type cutoff_date rows n s)) <> [] ->
        Fs.is_dir "temp_reports"
          (st (for_rows E company_code report_type cutoff_date rows n s)) = true).
Proof.
  intros E cc rt cutoff rows n s.
  destruct (for_rows_dirs E cc rt cutoff rows n) as [H1 H2].
  split; [intro path; apply H1 | apply H2].
Qed.

Lemma temp_directory_is_left_behind_witness :
  Fs.is_dir "temp_reports"
    (st (for_rows Samples.february_missing Samples.code "Quarterly" Samples.cutoff_2024
           Samples.three_rows 0 Samples.blank)) = true.
Proof.
  apply (proj2 (temp_directory_is_left_behind Samples.february_missing Samples.code
                  "Quarterly" Samples.cutoff_2024 Samples.three_rows 0 Samples.blank)).
  vm_compute. discriminate.
Defined.

(* ================================================================== *)
(** ** The remote store only grows *)

Lemma appends_bind {A B} (m : M A) (k : A -> M B) :
  appends m -> (forall a, appends (k a)) -> appends (bind m k).
Proof.
  intros Hm Hk s. rewrite st_bind, out_bind, inserted_app.
  destruct (res (m s)) as [a|e].
  - now rewrite Hk, Hm, app_assoc.
  - now rewrite app_nil_r.
Qed.

Lemma appends_try_except {A} (m : M A) (h : exn -> M A) :
  appends m -> (forall e, appends (h e)) -> appends (try_except m h).
Proof.
  intros Hm Hh s. rewrite st_try_except, out_try_except, inserted_app.
  destruct (res (m s)) as [a|e].
  - now rewrite app_nil_r.
  - now rewrite Hh, Hm, app_assoc.
Qed.

Lemma appends_try_finally {A} (m : M A) (c : M unit) :
  appends m -> appends c -> appends (try_finally m c).
Proof.
  intros Hm Hc s. rewrite st_try_finally, out_try_finally, inserted_app.
  now rewrite Hc, Hm, app_assoc.
Qed.

(** An operation that inserts nothing and keeps the store appends. *)
Lemma appends_quiet {A} (m : M A) :
  only (fun e => negb (is_remote_write e)) m -> keeps drive m -> appends m.
Proof.
  intros Ho Hk s. now rewrite (only_nothing_inserted m s Ho), app_nil_r, Hk.
Qed.

Lemma appends_ret {A} (a : A) : appends (ret a).
Proof. apply appends_quiet; [apply only_ret | apply keeps_ret_part]. Qed.

Lemma appends_raise {A} (e : exn) : appends (@raise A e).
Proof. apply appends_quiet; [apply only_raise | apply keeps_raise_part]. Qed.

Lemma appends_attempt r : appends (attempt r).
Proof. destruct r; [apply appends_raise | apply appends_ret]. Qed.

Lemma appends_lift {A} (o : outcome A) : appends (lift o).
Proof. destruct o; [apply appends_ret | apply appends_raise]. Qed.

Lemma appends_emit e : is_remote_write e = false -> appends (emit e).
Proof.
  intro H. apply appends_quiet; [apply only_emit; now rewrite H | apply keeps_emit_part].
Qed.

Lemma appends_print line : appends (print line).
Proof. now apply appends_emit. Qed.

Lemma appends_makedirs path : appends (Fs.makedirs path).
Proof.
  apply appends_quiet; [now apply only_makedirs|].
  intro s. apply makedirs_drive.
Qed.

Lemma appends_write_file path data : appends (Fs.write_file path data).
Proof.
  apply appends_quiet; [now apply only_write_file|].
  intro s. rewrite write_file_run. destruct (Fs.is_dir path s); [reflexivity|].
  now destruct (_ && _).
Qed.

Lemma appends_remove path : appends (Fs.remove path).
Proof.
  apply appends_quiet; [now apply only_remove|].
  intro s. rewrite remove_run. now destruct (Fs.is_file path s).
Qed.

Lemma appends_raise_for_status url r : appends (raise_for_status url r).
Proof.
  unfold raise_for_status. destruct (_ && _); [apply appends_raise | apply appends_ret].
Qed.

Lemma appends_read_file path : appends (Fs.read_file path).
Proof.
  apply appends_quiet; [apply only_read_file | apply keeps_read_file_part].
Qed.

Section Appends.

Variable E : env.

Lemma appends_drive_insert t p b d : appends (drive_insert E t p b d).
Proof.
  intro s. rewrite drive_insert_run.
  destruct (drive_fault E (api_calls s)); simpl; [now rewrite app_nil_r | reflexivity].
Qed.

Lemma appends_get_or_create_folder name parent :
  appends (get_or_create_folder E name parent).
Proof.
  intro s. rewrite get_or_create_folder_run.
  destruct (drive_fault E (api_calls s)); simpl; [now rewrite app_nil_r|].
  destruct (filter _ _); simpl; [|now rewrite app_nil_r].
  destruct (drive_fault E (S (api_calls s))); simpl;
    [now rewrite app_nil_r | reflexivity].
Qed.

Lemma appends_upload_to_drive path cc rt : appends (upload_to_drive E path cc rt).
Proof.
  unfold upload_to_drive.
  apply appends_bind; [apply appends_print|intro].
  do 3 (apply appends_bind; [apply appends_get_or_create_folder|intro]).
  apply appends_bind; [apply appends_read_file|intro].
  apply appends_bind; [apply appends_drive_insert|intro].
  apply appends_print.
Qed.

Lemma appends_fetch_and_upload cc rt a d : appends (fetch_and_upload E cc rt a d).
Proof.
  unfold fetch_and_upload.
  apply appends_bind; [apply appends_makedirs|intro].
  do 2 (apply appends_bind; [apply appends_print|intro]).
  apply appends_bind; [now apply appends_emit|intro].
  apply appends_bind; [apply appends_lift|intro].
  apply appends_bind; [apply appends_raise_for_status|intro].
  apply appends_bind; [apply appends_write_file|intro].
  apply appends_bind; [apply appends_upload_to_drive|intro].
  apply appends_remove.
Qed.

Lemma appends_for_rows cc rt cutoff rows : forall n, appends (for_rows E cc rt cutoff rows n).
Proof.
  induction rows as [|row rest IH]; intro n; [apply appends_ret|].
  rewrite for_rows_cons. cbv zeta.
  destruct (_ <? 2); [apply IH|].
  apply appends_bind; [apply appends_lift|intro text].
  destruct (strptime_dbY text) as [d|]; [|apply IH].
  destruct (date_geb d cutoff).
  - destruct (find_pdf_link row) as [a|]; [|apply IH].
    apply appends_bind; [apply appends_fetch_and_upload|intro; apply IH].
  - apply appends_bind; [apply appends_print|intro; apply appends_ret].
Qed.

Lemma appends_report_cycle cc rt sd tab table_id :
  appends (report_cycle E cc rt sd tab table_id).
Proof.
  unfold report_cycle.
  apply appends_bind; [apply appends_print|intro].
  apply appends_bind; [apply appends_attempt|intro].
  apply appends_bind; [now apply appends_emit|intro].
  apply appends_bind; [apply appends_attempt|intro].
  apply appends_bind; [now apply appends_emit|intro].
  apply appends_bind; [apply appends_print|intro].
  destruct (find_div_by_id _ _); [|apply appends_ret].
  destruct (find "tbody" _); [|apply appends_raise].
  destruct (find_all "tr" _) eqn:R; [apply appends_ret|]. rewrite <- R.
  destruct (strptime_Ymd sd); [|apply appends_raise].
  apply appends_bind; [apply appends_for_rows|intro k].
  apply appends_bind; [|intro; apply appends_ret].
  destruct (k =? 0); [apply appends_print | apply appends_ret].
Qed.

Lemma appends_download_report cc rt sd : appends (download_report E cc rt sd).
Proof.
  unfold download_report, download_report_body.
  apply appends_try_except.
  - do 2 (apply appends_bind; [apply appends_print|intro]).
    destruct (String.eqb rt "Quarterly"); [apply appends_report_cycle|].
    destruct (String.eqb rt "Annual"); [apply appends_report_cycle|].
    apply appends_ret.
  - intro e. apply appends_bind; [apply appends_print|intro; apply appends_ret].
Qed.

Lemma appends_run_downloader cc sd : appends (run_downloader E cc sd).
Proof.
  unfold run_downloader, authenticate_google_drive.
  apply appends_bind; [apply appends_print|intro].
  apply appends_bind.
  - apply appends_try_except.
    + apply appends_bind.
      * apply appends_bind; [now apply appends_emit|intro; apply appends_attempt].
      * intro. apply appends_bind; [apply appends_print|intro; apply appends_ret].
    + intro e. apply appends_bind; [apply appends_print|intro; apply appends_ret].
  - intros [|]; [|apply appends_ret].
    apply appends_try_finally.
    + apply appends_try_except; [|intro; apply appends_print].
      apply appends_bind; [apply appends_attempt|intro].
      apply appends_bind; [now apply appends_emit|intro].
      do 2 (apply appends_bind; [apply appends_print|intro]).
      apply appends_bind; [now apply appends_emit|intro].
      apply appends_bind; [apply appends_attempt|intro].
      apply appends_bind; [apply appends_print|intro].
      apply appends_bind; [apply appends_attempt|intro].
      do 2 (apply appends_bind; [now apply appends_emit|intro]).
      do 2 (apply appends_bind; [apply appends_download_report|intro]).
      apply appends_ret.
    + apply appends_bind; [|intro; apply appends_print].
      destruct (chrome E); [apply appends_ret | now apply appends_emit].
Qed.

Lemma appends_main argv : appends (main E argv).
Proof.
  unfold main.
  apply appends_bind; [apply appends_print|intro].
  apply appends_bind; [|intro; apply appends_print].
  destruct (length argv =? 3); [apply appends_run_downloader | apply appends_print].
Qed.

End Appends.

(** X8. A run never deletes, renames or alters an entry of the remote
    store: whatever the arguments and whatever fails, the store it leaves
    is the store it found, followed by the entries it inserted, in the
    order of the trace. *)
Theorem remote_store_only_grows :
  forall (E : env) (argv : list string) (s : state),
    drive (st (main E argv s)) = drive s ++ inserted (out (main E argv s)).
Proof.
  intros E argv s. apply appends_main.
Qed.

(* ================================================================== *)
(** ** Uploading the same document again *)

Lemma first_match_app name parent store l i :
  first_match name parent store = Some i ->
  first_match name parent (store ++ l) = Some i.
Proof.
  unfold first_match. rewrite filter_app, map_app.
  destruct (map df_id (filter (folder_matches name parent) store)); [discriminate|].
  now intros H.
Qed.

Lemma fresh_id_bound store f :
  In f store -> id_number (df_id f) < id_number (fresh_id store).
Proof.
  unfold fresh_id. simpl. induction store as [|g store IH]; intros []; simpl.
  - subst. lia.
  - specialize (IH H). lia.
Qed.

Lemma fresh_id_fresh store f : In f store -> df_id f <> fresh_id store.
Proof.
  intros I H. apply fresh_id_bound in I. rewrite H in I. lia.
Qed.

Section Again.

Variable E : env.

(** A folder that has been resolved is what the listing puts first. *)
Lemma get_or_create_folder_first name parent s i :
  res (get_or_create_folder E name parent s) = Ok i ->
  first_match name parent (drive (st (get_or_create_folder E name parent s))) = Some i
  /\ exists l, drive (st (get_or_create_folder E name parent s)) = drive s ++ l.
Proof.
  rewrite get_or_create_folder_run.
  destruct (drive_fault E (api_calls s)); [discriminate|].
  destruct (filter (folder_matches name parent) (drive s)) as [|f fs] eqn:F.
  - destruct (drive_fault E (S (api_calls s))); [discriminate|].
    cbv zeta. simpl. intro H. injection H as <-. split; [|now eexists].
    unfold first_match. rewrite filter_app, F. simpl.
    now rewrite (proj2 (folder_matches_new name parent name parent (fresh_id (drive s)))
                   (conj eq_refl eq_refl)).
  - simpl. intro H. injection H as <-. split; [|exists []; now rewrite app_nil_r].
    unfold first_match. now rewrite F.
Qed.

(** A folder the listing puts first is found, and nothing is created. *)
Lemma get_or_create_folder_found name parent s i j :
  first_match name parent (drive s) = Some i ->
  res (get_or_create_folder E name parent s) = Ok j ->
  j = i
  /\ inserted (out (get_or_create_folder E name parent s)) = []
  /\ drive (st (get_or_create_folder E name parent s)) = drive s
  /\ files (st (get_or_create_folder E name parent s)) = files s.
Proof.
  unfold first_match. rewrite get_or_create_folder_run.
  destruct (drive_fault E (api_calls s)); [discriminate|].
  destruct (filter (folder_matches name parent) (drive s)) as [|f fs]; [discriminate|].
  simpl. intros H1 H2. injection H1 as <-. injection H2 as <-. now repeat split.
Qed.

End Again.

Lemma bind_ok_parts {A B} (m : M A) (k : A -> M B) s b :
  res (bind m k s) = Ok b ->
  exists a, res (m s) = Ok a
            /\ res (k a (st (m s))) = Ok b
            /\ st (bind m k s) = st (k a (st (m s)))
            /\ out (bind m k s) = out (m s) ++ out (k a (st (m s))).
Proof.
  rewrite res_bind, st_bind, out_bind.
  destruct (res (m s)) as [a|e]; [|discriminate].
  intro H. now exists a.
Qed.

(** Follow a returning sequence one step, keeping track of the state
    and of the trace of the whole. *)
Ltac follow H St Out :=
  let a := fresh "a" in
  let R := fresh "R" in
  let S' := fresh "S" in
  let O' := fresh "O" in
  apply bind_ok_parts in H as (a & R & H & S' & O');
  rewrite S' in St; rewrite O' in Out; clear S' O'.

Lemma read_file_ok path s data :
  res (Fs.read_file path s) = Ok data ->
  Fs.lookup path (files s) = Some data
  /\ st (Fs.read_file path s) = s /\ out (Fs.read_file path s) = [].
Proof.
  rewrite read_file_run. destruct (Fs.lookup path (files s)); [|discriminate].
  simpl. intro H. injection H as ->. now repeat split.
Qed.

Lemma out_print line s : out (print line s) = [Print line].
Proof. reflexivity. Qed.

Lemma uploaded_cons_print line evs : uploaded (Print line :: evs) = uploaded evs.
Proof. reflexivity. Qed.

Lemma inserted_cons_print line evs : inserted (Print line :: evs) = inserted evs.
Proof. reflexivity. Qed.

Section Shape.

Variable E : env.
Variables path cc rt : string.

(** What an upload that returns has done: the three folders are what
    the listings put first in the store [pre] it reached, the document
    is the local file, and it has been added at the end of the store. *)
Lemma upload_to_drive_ok s :
  res (upload_to_drive E path cc rt s) = Ok tt ->
  exists top company leaf data pre,
    first_match "CSE Reports" root pre = Some top
    /\ first_match cc top pre = Some company
    /\ first_match (rt ^^ " Reports") company pre = Some leaf
    /\ Fs.lookup path (files s) = Some data
    /\ files (st (upload_to_drive E path cc rt s)) = files s
    /\ drive (st (upload_to_drive E path cc rt s))
       = pre ++ [mkDriveFile (fresh_id pre) (basename path) [leaf] false false data]
    /\ uploaded (out (upload_to_drive E path cc rt s))
       = [mkDriveFile (fresh_id pre) (basename path) [leaf] false false data].
Proof.
  intro H.
  remember (st (upload_to_drive E path cc rt s)) as stU eqn:St.
  remember (out (upload_to_drive E path cc rt s)) as outU eqn:Out.
  unfold upload_to_drive in H, St, Out.
  follow H St Out. rewrite st_print, out_print in *.
  follow H St Out.
  destruct (get_or_create_folder_first E _ _ _ _ R0) as [M1 [l1 G1]].
  pose proof (keeps_files_folder E "CSE Reports" root s) as K1.
  pose proof (proj1 (proj2 (get_or_create_folder_post E "CSE Reports" root s))) as U1.
  set (s1 := st (get_or_create_folder E "CSE Reports" root s)) in *.
  follow H St Out.
  destruct (get_or_create_folder_first E _ _ _ _ R1) as [M2 [l2 G2]].
  pose proof (keeps_files_folder E cc a0 s1) as K2.
  pose proof (proj1 (proj2 (get_or_create_folder_post E cc a0 s1))) as U2.
  set (s2 := st (get_or_create_folder E cc a0 s1)) in *.
  follow H St Out.
  destruct (get_or_create_folder_first E _ _ _ _ R2) as [M3 [l3 G3]].
  pose proof (keeps_files_folder E (rt ^^ " Reports") a1 s2) as K3.
  pose proof (proj1 (proj2 (get_or_create_folder_post E (rt ^^ " Reports") a1 s2))) as U3.
  set (s3 := st (get_or_create_folder E (rt ^^ " Reports") a1 s2)) in *.
  follow H St Out.
  destruct (read_file_ok _ _ _ R3) as (L & Sr & Or). rewrite Sr, Or in *.
  follow H St Out. rewrite st_print, out_print in *.
  revert R4 St Out. rewrite drive_insert_run.
  destruct (drive_fault E (api_calls s3)); [discriminate|].
  cbv zeta. simpl. intros _ St Out.
  exists a0, a1, a2, a3, (drive s3). subst stU outU.
  split; [rewrite G3, G2; now do 2 apply first_match_app|].
  split; [rewrite G3; now apply first_match_app|].
  split; [exact M3|].
  split; [now rewrite <- K1, <- K2, <- K3|].
  split; [simpl; now rewrite K3, K2, K1|].
  split; [reflexivity|].
  rewrite uploaded_cons_print, !uploaded_app, U1, U2, U3. reflexivity.
Qed.

(** With the three folders already what the listings put first, an
    upload that returns creates no folder and adds the document only. *)
Lemma upload_to_drive_known s top company leaf :
  first_match "CSE Reports" root (drive s) = Some top ->
  first_match cc top (drive s) = Some company ->
  first_match (rt ^^ " Reports") company (drive s) = Some leaf ->
  res (upload_to_drive E path cc rt s) = Ok tt ->
  exists data,
    Fs.lookup path (files s) = Some data
    /\ inserted (out (upload_to_drive E path cc rt s))
       = [mkDriveFile (fresh_id (drive s)) (basename path) [leaf] false false data].
Proof.
  intros M1 M2 M3 H.
  remember (st (upload_to_drive E path cc rt s)) as stU eqn:St.
  remember (out (upload_to_drive E path cc rt s)) as outU eqn:Out.
  unfold upload_to_drive in H, St, Out.
  follow H St Out. rewrite st_print, out_print in *.
  follow H St Out.
  destruct (get_or_create_folder_found E _ _ _ _ _ M1 R0) as (-> & I1 & D1 & F1).
  set (s1 := st (get_or_create_folder E "CSE Reports" root s)) in *.
  rewrite <- D1 in M2, M3.
  follow H St Out.
  destruct (get_or_create_folder_found E _ _ _ _ _ M2 R1) as (-> & I2 & D2 & F2).
  set (s2 := st (get_or_create_folder E cc top s1)) in *.
  rewrite <- D2 in M3.
  follow H St Out.
  destruct (get_or_create_folder_found E _ _ _ _ _ M3 R2) as (-> & I3 & D3 & F3).
  set (s3 := st (get_or_create_folder E (rt ^^ " Reports") company s2)) in *.
  follow H St Out.
  destruct (read_file_ok _ _ _ R3) as (L & Sr & Or). rewrite Sr, Or in *.
  follow H St Out. rewrite st_print, out_print in *.
  revert R4 St Out. rewrite drive_insert_run.
  destruct (drive_fault E (api_calls s3)); [discriminate|].
  cbv zeta. simpl. intros _ St Out.
  match goal with L : Fs.lookup _ _ = Some ?d |- _ => exists d end. subst outU.
  split; [now rewrite <- F1, <- F2, <- F3|].
  rewrite inserted_cons_print, !inserted_app, I1, I2, I3. simpl.
  now rewrite D3, D2, D1.
Qed.

End Shape.

(** X9. Nothing checks whether a document is already in the store. For
    a company code and a report type that hold neither a quote nor a
    backslash, an
    upload of the same local file right after a first one finds the
    three folders again, creates none, and adds a second entry with the
    same title, the same parent folder and the same content under a new
    identifier; both entries are in the store afterwards. *)
Theorem second_upload_duplicates_the_document :
  forall (E : env) (file_path company_code report_type : string) (s : state),
    plain_title company_code = true ->
    plain_title report_type = true ->
    res (upload_to_drive E file_path company_code report_type s) = Ok tt ->
    res (upload_to_drive E file_path company_code report_type
           (st (upload_to_drive E file_path company_code report_type s))) = Ok tt ->
    exists f1 f2,
      uploaded (out (upload_to_drive E file_path company_code report_type s)) = [f1]
      /\ inserted (out (upload_to_drive E file_path company_code report_type
                          (st (upload_to_drive E file_path company_code report_type s))))
         = [f2]
      /\ df_title f2 = df_title f1
      /\ df_parents f2 = df_parents f1
      /\ df_content f2 = df_content f1
      /\ df_is_folder f2 = false
      /\ df_id f2 <> df_id f1
      /\ In f1 (drive (st (upload_to_drive E file_path company_code report_type
                             (st (upload_to_drive E file_path company_code
                                    report_type s)))))
      /\ In f2 (drive (st (upload_to_drive E file_path company_code report_type
                             (st (upload_to_drive E file_path company_code
                                    report_type s))))).
Proof.
  intros E path cc rt s _ _ H1 H2.
  destruct (upload_to_drive_ok E path cc rt s H1)
    as (top & company & leaf & data & pre & M1 & M2 & M3 & L & F & D & U).
  set (f1 := mkDriveFile (fresh_id pre) (basename path) [leaf] false false data) in *.
  set (s1 := st (upload_to_drive E path cc rt s)) in *.
  assert (M1' : first_match "CSE Reports" root (drive s1) = Some top)
    by (rewrite D; now apply first_match_app).
  assert (M2' : first_match cc top (drive s1) = Some company)
    by (rewrite D; now apply first_match_app).
  assert (M3' : first_match (rt ^^ " Reports") company (drive s1) = Some leaf)
    by (rewrite D; now apply first_match_app).
  destruct (upload_to_drive_known E path cc rt s1 top company leaf M1' M2' M3' H2)
    as (data' & L' & I).
  rewrite F, L in L'. injection L' as <-.
  pose proof (appends_upload_to_drive E path cc rt s1) as A. rewrite I in A.
  exists f1, (mkDriveFile (fresh_id (drive s1)) (basename path) [leaf] false false data).
  split; [exact U|]. split; [exact I|].
  split; [reflexivity|]. split; [reflexivity|]. split; [reflexivity|].
  split; [reflexivity|]. split.
  - simpl. intro Q. symmetry in Q. revert Q. apply (fresh_id_fresh (drive s1) f1).
    rewrite D. apply in_or_app. right. now left.
  - rewrite A. split.
    + apply in_or_app. left. rewrite D. apply in_or_app. right. now left.
    + apply in_or_app. right. now left.
Qed.

Lemma second_upload_duplicates_the_document_witness :
  exists f1 f2,
    uploaded (out (upload_to_drive (Samples.calm [] []) Samples.march_path Samples.code
                     "Quarterly" Samples.with_local_copy)) = [f1]
    /\ inserted (out (upload_to_drive (Samples.calm [] []) Samples.march_path
                        Samples.code "Quarterly"
                        (st (upload_to_drive (Samples.calm [] []) Samples.march_path
                               Samples.code "Quarterly" Samples.with_local_copy))))
       = [f2]
    /\ df_title f2 = df_title f1
    /\ df_parents f2 = df_parents f1
    /\ df_content f2 = df_content f1
    /\ df_is_folder f2 = false
    /\ df_id f2 <> df_id f1
    /\ In f1 (drive (st (upload_to_drive (Samples.calm [] []) Samples.march_path
                           Samples.code "Quarterly"
                           (st (upload_to_drive (Samples.calm [] []) Samples.march_path
                                  Samples.code "Quarterly" Samples.with_local_copy)))))
    /\ In f2 (drive (st (upload_to_drive (Samples.calm [] []) Samples.march_path
                           Samples.code "Quarterly"
                           (st (upload_to_drive (Samples.calm [] []) Samples.march_path
                                  Samples.code "Quarterly" Samples.with_local_copy))))).
Proof.
  apply (second_upload_duplicates_the_document (Samples.calm [] []) Samples.march_path
           Samples.code "Quarterly" Samples.with_local_copy); reflexivity.
Defined.

(** X10. [get_or_create_folder], asked for a name that holds neither a
    quote nor a backslash, has created a folder when it returns
    exactly when the store held no live folder of that name under that
    parent. A folder in the bin and a plain file of the same name do not
    count: a new folder is created beside them. The folder created has
    the name and the parent asked for and an identifier no entry had. *)
Theorem folder_is_created_only_when_none_is_live :
  forall (E : env) (folder_name : string) (parent_folder_id : file_id) (s : state)
         (i : file_id),
    plain_title folder_name = true ->
    res (get_or_create_folder E folder_name parent_folder_id s) = Ok i ->
    ((exists f, In f (drive s) /\ is_live_folder folder_name parent_folder_id f) ->
     inserted (out (get_or_create_folder E folder_name parent_folder_id s)) = []
     /\ exists f, In f (drive s) /\ df_id f = i
                  /\ is_live_folder folder_name parent_folder_id f)
    /\ ((forall f, In f (drive s) -> ~ is_live_folder folder_name parent_folder_id f) ->
        inserted (out (get_or_create_folder E folder_name parent_folder_id s))
        = [mkDriveFile i folder_name [parent_folder_id] true false ""]
        /\ forall f, In f (drive s) -> df_id f <> i).
Proof.
  intros E name parent s i _. rewrite get_or_create_folder_run.
  destruct (drive_fault E (api_calls s)); [discriminate|].
  destruct (filter (folder_matches name parent) (drive s)) as [|f fs] eqn:F.
  - destruct (drive_fault E (S (api_calls s))); [discriminate|].
    cbv zeta. simpl. intro H. injection H as <-. split.
    + intros (f & I & Lf). apply folder_matches_spec in Lf.
      assert (I' : In f (filter (folder_matches name parent) (drive s)))
        by (apply filter_In; now split).
      rewrite F in I'. destruct I'.
    + intros _. split; [reflexivity|]. intros f I. now apply fresh_id_fresh.
  - simpl. intro H. injection H as <-.
    assert (I : In f (filter (folder_matches name parent) (drive s)))
      by (rewrite F; now left).
    apply filter_In in I as [I Lf]. apply folder_matches_spec in Lf. split.
    + intros _. split; [reflexivity|]. now exists f.
    + intro N. elim (N f I Lf).
Qed.

Lemma folder_is_created_only_when_none_is_live_witness :
  inserted (out (get_or_create_folder (Samples.calm [] []) "CSE Reports" root
                   Samples.binned_store))
  = [mkDriveFile (gen 3) "CSE Reports" [root] true false ""]
  /\ forall f, In f (drive Samples.binned_store) -> df_id f <> gen 3.
Proof.
  apply (proj2 (folder_is_created_only_when_none_is_live (Samples.calm [] [])
                  "CSE Reports" root Samples.binned_store (gen 3) eq_refl eq_refl)).
  intros f [<-|[<-|[]]] (_ & _ & Hf & Ht); discriminate.
Defined.

(* ================================================================== *)
(** ** File names tell dates apart *)

Lemma digit_char_inj a b : digit_char a = digit_char b -> a mod 10 = b mod 10.
Proof.
  unfold digit_char. intro H. apply (f_equal nat_of_ascii) in H.
  pose proof (Nat.mod_upper_bound a 10) as Ba.
  pose proof (Nat.mod_upper_bound b 10) as Bb.
  rewrite !nat_ascii_embedding in H by lia. lia.
Qed.

Lemma two_digits n : n < 100 -> n = 10 * ((n / 10) mod 10) + n mod 10.
Proof.
  intro B. pose proof (Nat.div_mod_eq n 10) as E1.
  assert (Q : n / 10 < 10) by (apply Nat.Div0.div_lt_upper_bound; lia).
  rewrite (Nat.mod_small (n / 10) 10 Q). exact E1.
Qed.

Lemma four_digits n :
  n < 100 * 100 ->
  n = 1000 * ((n / 1000) mod 10) + 100 * ((n / 100) mod 10)
      + 10 * ((n / 10) mod 10) + n mod 10.
Proof.
  intro B.
  pose proof (Nat.div_mod_eq n 10) as E1.
  pose proof (Nat.div_mod_eq (n / 10) 10) as E2.
  pose proof (Nat.div_mod_eq (n / 100) 10) as E3.
  assert (D2 : n / 10 / 10 = n / 100).
  { rewrite Nat.Div0.div_div. f_equal. }
  assert (D3 : n / 100 / 10 = n / 1000).
  { rewrite Nat.Div0.div_div. f_equal. }
  assert (Q : n / 1000 < 10) by (apply Nat.Div0.div_lt_upper_bound; lia).
  rewrite (Nat.mod_small (n / 1000) 10 Q).
  rewrite D2 in E2. rewrite D3 in E3. lia.
Qed.

Lemma valid_date_bounds d : valid_date d = true -> month d < 100 /\ day d < 100.
Proof.
  unfold valid_date. rewrite !andb_true_iff, !Nat.leb_le.
  intros ((((_ & _) & Hm) & _) & Hd). split; [lia|].
  assert (days_in_month (year d) (month d) <= 31).
  { unfold days_in_month.
    destruct (month d) as [|[|[|[|[|[|[|[|[|[|[|[|m]]]]]]]]]]]]; try lia.
    destruct (is_leap (year d)); lia. }
  lia.
Qed.

Lemma append_inj_len a a' b b' :
  String.length a = String.length a' -> a ^^ b = a' ^^ b' -> a = a' /\ b = b'.
Proof.
  revert a'. induction a as [|c a IH]; intros [|c' a']; simpl; try discriminate.
  - intros _ H. now split.
  - intros L H. injection L as L. injection H as -> H.
    destruct (IH a' L H) as [-> ->]. now split.
Qed.

Lemma pad4_inj n n' : n < 100 * 100 -> n' < 100 * 100 -> pad4 n = pad4 n' -> n = n'.
Proof.
  intros B B' H. unfold pad4 in H.
  remember (n / 1000) as q3 eqn:Q3. remember (n / 100) as q2 eqn:Q2.
  remember (n / 10) as q1 eqn:Q1.
  remember (n' / 1000) as r3 eqn:R3. remember (n' / 100) as r2 eqn:R2.
  remember (n' / 10) as r1 eqn:R1.
  injection H as H3 H2 H1 H0.
  apply digit_char_inj in H3, H2, H1, H0.
  rewrite (four_digits n B), (four_digits n' B').
  rewrite <- Q3, <- Q2, <- Q1, <- R3, <- R2, <- R1.
  now rewrite H3, H2, H1, H0.
Qed.

Lemma pad2_inj n n' : n < 100 -> n' < 100 -> pad2 n = pad2 n' -> n = n'.
Proof.
  intros B B' H. unfold pad2 in H.
  remember (n / 10) as q1 eqn:Q1. remember (n' / 10) as r1 eqn:R1.
  injection H as H1 H0.
  apply digit_char_inj in H1, H0.
  rewrite (two_digits n B), (two_digits n' B').
  rewrite <- Q1, <- R1. now rewrite H1, H0.
Qed.

Lemma strftime_Ymd_length d : String.length (strftime_Ymd d) = 10.
Proof. reflexivity. Qed.

Lemma strftime_Ymd_injective d d' :
  printable d -> printable d' -> strftime_Ymd d = strftime_Ymd d' -> d = d'.
Proof.
  intros [V B] [V' B'] H.
  destruct (valid_date_bounds d V) as [Bm Bd].
  destruct (valid_date_bounds d' V') as [Bm' Bd'].
  unfold strftime_Ymd in H.
  apply append_inj_len in H as [Hy H]; [|reflexivity].
  apply append_inj_len in H as [_ H]; [|reflexivity].
  apply append_inj_len in H as [Hm H]; [|reflexivity].
  apply append_inj_len in H as [_ Hd]; [|reflexivity].
  apply pad4_inj in Hy; [|assumption..].
  apply pad2_inj in Hm; [|assumption..].
  apply pad2_inj in Hd; [|assumption..].
  destruct d, d'. cbn [year month day] in *. now subst.
Qed.

Lemma local_name_injective cc d d' :
  printable d -> printable d' -> local_name cc d = local_name cc d' -> d = d'.
Proof.
  intros P P' H. unfold local_name in H.
  apply append_inj_len in H as [H _];
    [|now rewrite !strftime_Ymd_length].
  now apply strftime_Ymd_injective.
Qed.

Lemma local_path_eq cc d : local_path cc d = "temp_reports/" ^^ local_name cc d.
Proof.
  unfold local_path, path_join.
  assert (S : starts_with [slash] (list_ascii_of_string (local_name cc d)) = false).
  { unfold local_name, strftime_Ymd, pad4.
    cbn [String.append list_ascii_of_string starts_with].
    now rewrite digit_char_not_slash. }
  rewrite S.
  change (String.eqb "temp_reports" "" || endswith "temp_reports" "/") with false.
  reflexivity.
Qed.

(** X11. Reports of one company published on different days get
    different local names, different local paths and, when the company
    code holds no ["/"], different titles in the store (for dates the
    [datetime] constructor accepts, years up to 9999). *)
Theorem distinct_dates_get_distinct_names :
  forall (company_code : string) (d d' : date),
    printable d -> printable d' -> d <> d' ->
    local_name company_code d <> local_name company_code d'
    /\ local_path company_code d <> local_path company_code d'
    /\ (has_slash company_code = false ->
        title_for company_code d <> title_for company_code d').
Proof.
  intros cc d d' P P' N. repeat split.
  - intro H. now apply N, (local_name_injective cc).
  - rewrite !local_path_eq. intro H.
    apply append_inj_len in H as [_ H]; [|reflexivity].
    now apply N, (local_name_injective cc).
  - intros S. rewrite !title_for_local_name by exact S.
    intro H. now apply N, (local_name_injective cc).
Qed.

Lemma distinct_dates_get_distinct_names_witness :
  local_name Samples.code (mkDate 2024 3 1) <> local_name Samples.code (mkDate 2023 12 1)
  /\ local_path Samples.code (mkDate 2024 3 1)
     <> local_path Samples.code (mkDate 2023 12 1)
  /\ title_for Samples.code (mkDate 2024 3 1) <> title_for Samples.code (mkDate 2023 12 1).
Proof.
  assert (P : printable (mkDate 2024 3 1)) by (split; [reflexivity | simpl; lia]).
  assert (P' : printable (mkDate 2023 12 1)) by (split; [reflexivity | simpl; lia]).
  assert (N : mkDate 2024 3 1 <> mkDate 2023 12 1) by discriminate.
  destruct (distinct_dates_get_distinct_names Samples.code _ _ P P' N) as (H1 & H2 & H3).
  split; [exact H1|]. split; [exact H2 | exact (H3 eq_refl)].
Defined.

(* ================================================================== *)
(** ** The closing line of a cycle *)

Section ClosingLine.

Variable E : env.
Variables company_code report_type start_date_str tab_name table_id : string.
Variable s : state.
Variables report_container tbody : node.
Variable cutoff_date : date.
Variable k : nat.

Hypothesis tab_opens : clickable E tab_name = None.
Hypothesis rows_show : visible E table_id = None.
Hypothesis container : find_div_by_id table_id (page_source E tab_name) = Some report_container.
Hypothesis body : find "tbody" report_container = Some tbody.
Hypothesis some_row : find_all "tr" tbody <> [].
Hypothesis cutoff : strptime_Ymd start_date_str = Some cutoff_date.
Hypothesis completes :
  res (for_rows E company_code report_type cutoff_date (find_all "tr" tbody) 0 s) = Ok k.

Lemma report_cycle_completes :
  res (report_cycle E company_code report_type start_date_str tab_name table_id s)
  = Ok None_
  /\ out (report_cycle E company_code report_type start_date_str tab_name table_id s)
     = [Print ("Step A: Clicking '" ^^ tab_name ^^ "' tab...");
        Click tab_name; Sleep 1;
        Print "Step B: Parsing page for all report links..."]
       ++ out (for_rows E company_code report_type cutoff_date (find_all "tr" tbody) 0 s)
       ++ (if k =? 0 then [no_new_line report_type cutoff_date] else []).
Proof.
  unfold report_cycle. rewrite tab_opens, rows_show, container, body, cutoff.
  destruct (find_all "tr" tbody) as [|row rows] eqn:R; [now elim some_row|].
  rewrite <- R in *. clear R row rows.
  unfold bind.
  cbn [print emit attempt ret res st out app].
  destruct (for_rows E company_code report_type cutoff_date (find_all "tr" tbody) 0 s)
    as [[k'|e] s1 o1]; [|discriminate].
  cbn [res] in completes. injection completes as ->.
  destruct (k =? 0); cbn [print emit ret res st out app]; split; reflexivity.
Qed.

End ClosingLine.

(** X12. In a cycle whose loop completes, the line "No new ... reports
    found after <cutoff>" is printed exactly when no document was
    uploaded, as the last line of the cycle, with the cutoff (a year
    from 1000 on) printed as YYYY-MM-DD; [download_report] then returns
    without an error line. *)
Theorem no_new_line_iff_nothing_uploaded :
  forall (E : env) (company_code report_type start_date_str tab_name table_id : string)
         (s : state) (report_container tbody : node) (cutoff_date : date) (k : nat),
    bound_to report_type tab_name table_id ->
    clickable E tab_name = None ->
    visible E table_id = None ->
    find_div_by_id table_id (page_source E tab_name) = Some report_container ->
    find "tbody" report_container = Some tbody ->
    find_all "tr" tbody <> [] ->
    strptime_Ymd start_date_str = Some cutoff_date ->
    1000 <= year cutoff_date ->
    res (for_rows E company_code report_type cutoff_date (find_all "tr" tbody) 0 s) = Ok k ->
    out (download_report E company_code report_type start_date_str s)
    = quiet_cycle report_type tab_name
      ++ out (for_rows E company_code report_type cutoff_date (find_all "tr" tbody) 0 s)
      ++ match uploaded (out (for_rows E company_code report_type cutoff_date
                                (find_all "tr" tbody) 0 s)) with
         | [] => [no_new_line report_type cutoff_date]
         | _ :: _ => []
         end.
Proof.
  intros E cc rt sd tab table_id s c tb cutoff k K Hc Hv Hd Ht Hr Hs _ Hk.
  destruct (report_cycle_completes E cc rt sd tab table_id s c tb cutoff k
              Hc Hv Hd Ht Hr Hs Hk) as [Rc Oc].
  pose proof (for_rows_counts E cc rt cutoff _ _ _ _ Hk) as Ck.
  assert (B : res (download_report_body E cc rt sd s) = Ok None_
              /\ out (download_report_body E cc rt sd s)
                 = Print (repeat_str "-" 40)
                   :: Print ("Starting process for " ^^ rt ^^ " Reports...")
                   :: out (report_cycle E cc rt sd tab table_id s)).
  { rewrite (download_report_body_known E cc rt sd tab table_id s K).
    unfold print. rewrite !res_bind_emit, !out_bind_emit. now split. }
  destruct B as [Rb Ob].
  unfold download_report. rewrite out_try_except, Rb, app_nil_r, Ob, Oc.
  unfold quiet_cycle. simpl app. do 6 f_equal.
  destruct (uploaded _) as [|f l]; simpl in Ck; subst k; reflexivity.
Qed.

Lemma no_new_line_iff_nothing_uploaded_witness :
  out (download_report (Samples.calm [Samples.december] []) Samples.code "Quarterly"
         "2024-01-01" Samples.blank)
  = quiet_cycle "Quarterly" "Quarterly Reports"
    ++ out (for_rows (Samples.calm [Samples.december] []) Samples.code "Quarterly"
              Samples.cutoff_2024 (find_all "tr" (Tag "tbody" [] [Samples.december])) 0
              Samples.blank)
    ++ match uploaded (out (for_rows (Samples.calm [Samples.december] []) Samples.code
                              "Quarterly" Samples.cutoff_2024
                              (find_all "tr" (Tag "tbody" [] [Samples.december])) 0
                              Samples.blank)) with
       | [] => [no_new_line "Quarterly" Samples.cutoff_2024]
       | _ :: _ => []
       end.
Proof.
  apply (no_new_line_iff_nothing_uploaded (Samples.calm [Samples.december] [])
           Samples.code "Quarterly" "2024-01-01" "Quarterly Reports" "21b" Samples.blank
           (Tag "div" [("id", "21b")]
              [Tag "table" [] [Tag "tbody" [] [Samples.december]]])
           (Tag "tbody" [] [Samples.december]) Samples.cutoff_2024 0).
  - left. repeat split.
  - reflexivity.
  - reflexivity.
  - reflexivity.
  - reflexivity.
  - discriminate.
  - reflexivity.
  - unfold Samples.cutoff_2024. cbn [year]. lia.
  - reflexivity.
Defined.

(* ================================================================== *)
(** ** Edges of the loop *)

Lemma date_geb_refl d : date_geb d d = true.
Proof.
  unfold date_geb, date_leb.
  now rewrite !Nat.eqb_refl, Nat.leb_refl, !orb_true_r.
Qed.

Lemma makedirs_succeeds path s :
  Fs.is_file path s = false -> res (Fs.makedirs path s) = Ok tt.
Proof.
  intro H. rewrite makedirs_run, H. now destruct (Fs.is_dir path s).
Qed.

Lemma fetch_and_upload_requests E cc rt a d s :
  res (Fs.makedirs "temp_reports" s) = Ok tt ->
  fetched (out (fetch_and_upload E cc rt a d s))
  = [match attr_of "href" a with Some h => h | None => "" end].
Proof.
  intro R. unfold fetch_and_upload.
  rewrite out_bind, fetched_app, R.
  rewrite (only_nothing_fetched (Fs.makedirs "temp_reports") s)
    by (now apply only_makedirs).
  unfold print. rewrite !out_bind_emit.
  match goal with
  | |- context [fetched (_ :: _ :: _ :: out (bind ?m ?f ?x))] =>
      assert (Q : fetched (out (bind m f x)) = [])
  end.
  { apply only_nothing_fetched.
    apply only_bind; [apply only_lift|intro].
    apply only_bind; [apply only_raise_for_status|intro].
    apply only_bind; [now apply only_write_file|intro].
    apply only_bind; [now apply only_upload_to_drive|intro].
    now apply only_remove. }
  cbn [app fetched flat_map]. unfold fetched in Q. now rewrite Q.
Qed.

(** X13. The cutoff is inclusive: a report published on the cutoff day
    itself is requested (its URL is the first request of the loop),
    provided [temp_reports] is not a plain file. *)
Theorem report_of_the_cutoff_day_is_requested :
  forall (E : env) (company_code report_type : string) (cutoff_date : date)
         (report_row : node) (rest : list node) (n : nat) (s : state) (url : string),
    row_record report_row = Some (cutoff_date, url) ->
    Fs.is_file "temp_reports" s = false ->
    hd_error (fetched (out (for_rows E company_code report_type cutoff_date
                              (report_row :: rest) n s)))
    = Some url.
Proof.
  intros E cc rt cutoff row rest n s u R F.
  destruct (for_rows_new_record E cc rt cutoff row rest n s cutoff u R
              (date_geb_refl cutoff)) as (a & L & -> & Eq).
  rewrite Eq, out_bind, fetched_app.
  now rewrite (fetch_and_upload_requests E cc rt a cutoff s (makedirs_succeeds _ _ F)).
Qed.

Lemma report_of_the_cutoff_day_is_requested_witness :
  hd_error (fetched (out (for_rows (Samples.calm [] []) Samples.code "Quarterly"
                            Samples.cutoff_2024 [Samples.new_year; Samples.december] 0
                            Samples.blank)))
  = Some "https://cdn.cse.lk/ny.pdf".
Proof.
  apply (report_of_the_cutoff_day_is_requested (Samples.calm [] []) Samples.code
           "Quarterly" Samples.cutoff_2024 Samples.new_year [Samples.december] 0
           Samples.blank "https://cdn.cse.lk/ny.pdf"); reflexivity.
Defined.

(** A row of at least two cells whose first cell is empty, or starts
    with a tag instead of text, ends the loop on an exception. *)
Lemma for_rows_unreadable_cell E cc rt cutoff row rest n s e :
  2 <= length (find_all "td" row) ->
  first_text (hd row (find_all "td" row)) = Raise e ->
  for_rows E cc rt cutoff (row :: rest) n s = mkRun (Raise e) s [].
Proof.
  intros C H. apply Nat.ltb_ge in C.
  rewrite for_rows_cons. cbv zeta. now rewrite C, H.
Qed.

Lemma first_text_unreadable cell :
  (contents_of cell = [] -> first_text cell = Raise IndexError)
  /\ (forall name attrs children more,
        contents_of cell = Tag name attrs children :: more ->
        first_text cell = Raise TypeError).
Proof.
  unfold first_text. split.
  - now intros ->.
  - now intros name attrs children more ->.
Qed.

Section Unreadable.

Variable E : env.
Variables company_code report_type start_date_str tab_name table_id : string.
Variable s : state.
Variables report_container tbody : node.
Variable cutoff_date : date.
Variable e : exn.

Hypothesis tab_opens : clickable E tab_name = None.
Hypothesis rows_show : visible E table_id = None.
Hypothesis container : find_div_by_id table_id (page_source E tab_name) = Some report_container.
Hypothesis body : find "tbody" report_container = Some tbody.
Hypothesis some_row : find_all "tr" tbody <> [].
Hypothesis cutoff : strptime_Ymd start_date_str = Some cutoff_date.
Hypothesis fails :
  for_rows E company_code report_type cutoff_date (find_all "tr" tbody) 0 s
  = mkRun (Raise e) s [].

Lemma report_cycle_fails_at_once :
  report_cycle E company_code report_type start_date_str tab_name table_id s
  = mkRun (Raise e) s
      [Print ("Step A: Clicking '" ^^ tab_name ^^ "' tab...");
       Click tab_name; Sleep 1;
       Print "Step B: Parsing page for all report links..."].
Proof.
  unfold report_cycle. rewrite tab_opens, rows_show, container, body, cutoff.
  destruct (find_all "tr" tbody) as [|row rows] eqn:R; [now elim some_row|].
  rewrite <- R in *. clear R row rows.
  unfold bind.
  cbn [print emit attempt ret res st out app].
  now rewrite fails.
Qed.

End Unreadable.

(** X14. One unreadable row ends its cycle. When the first row of the
    table has at least two cells and a first cell that is empty
    ([IndexError]) or starts with a tag instead of text ([TypeError]),
    reading its date raises outside the inner [try]: [download_report]
    reports the error and returns with nothing requested or written,
    whatever the cutoff and however many valid rows follow. *)
Theorem unreadable_first_cell_aborts_the_cycle :
  forall (E : env) (company_code report_type start_date_str tab_name table_id : string)
         (s : state) (report_container tbody report_row : node) (rest : list node)
         (cutoff_date : date) (e : exn),
    bound_to report_type tab_name table_id ->
    clickable E tab_name = None ->
    visible E table_id = None ->
    find_div_by_id table_id (page_source E tab_name) = Some report_container ->
    find "tbody" report_container = Some tbody ->
    find_all "tr" tbody = report_row :: rest ->
    strptime_Ymd start_date_str = Some cutoff_date ->
    2 <= length (find_all "td" report_row) ->
    (contents_of (hd report_row (find_all "td" report_row)) = [] /\ e = IndexError)
    \/ (exists name attrs children more,
           contents_of (hd report_row (find_all "td" report_row))
           = Tag name attrs children :: more
           /\ e = TypeError) ->
    download_report E company_code report_type start_date_str s
    = mkRun (Ok None_) s
        (quiet_cycle report_type tab_name
         ++ [Print ("❌ An error occurred during the " ^^ report_type
                    ^^ " report download: " ^^ exn_msg e)]).
Proof.
  intros E cc rt sd tab table_id s c tb row rest cutoff e K Hc Hv Hd Ht Hr Hs C U.
  assert (T : first_text (hd row (find_all "td" row)) = Raise e).
  { destruct U as [[U ->]|(name & attrs & children & more & U & ->)].
    - now apply first_text_unreadable.
    - now apply (proj2 (first_text_unreadable _) name attrs children more). }
  assert (N : find_all "tr" tb <> []) by (rewrite Hr; discriminate).
  assert (F : for_rows E cc rt cutoff (find_all "tr" tb) 0 s = mkRun (Raise e) s []).
  { rewrite Hr. now apply for_rows_unreadable_cell. }
  pose proof (report_cycle_fails_at_once E cc rt sd tab table_id s c tb cutoff e
                Hc Hv Hd Ht N Hs F) as Rc.
  unfold download_report, try_except.
  rewrite (download_report_body_known E cc rt sd tab table_id s K).
  unfold bind at 1 2. cbn [print emit res st out]. rewrite Rc.
  cbn [print emit ret bind res st out app]. reflexivity.
Qed.

Lemma unreadable_first_cell_aborts_the_cycle_witness :
  download_report (Samples.calm [Samples.hollow; Samples.march] []) Samples.code
    "Quarterly" "2024-01-01" Samples.blank
  = mkRun (Ok None_) Samples.blank
      (quiet_cycle "Quarterly" "Quarterly Reports"
       ++ [Print ("❌ An error occurred during the " ^^ "Quarterly"
                  ^^ " report download: " ^^ exn_msg IndexError)]).
Proof.
  apply (unreadable_first_cell_aborts_the_cycle
           (Samples.calm [Samples.hollow; Samples.march] []) Samples.code "Quarterly"
           "2024-01-01" "Quarterly Reports" "21b" Samples.blank
           (Tag "div" [("id", "21b")]
              [Tag "table" [] [Tag "tbody" [] [Samples.hollow; Samples.march]]])
           (Tag "tbody" [] [Samples.hollow; Samples.march])
           Samples.hollow [Samples.march] Samples.cutoff_2024 IndexError).
  - left. repeat split.
  - reflexivity.
  - reflexivity.
  - reflexivity.
  - reflexivity.
  - reflexivity.
  - reflexivity.
  - simpl. lia.
  - left. split; reflexivity.
Defined.

(* ================================================================== *)
(** ** A run in which nothing fails *)

Lemma before_last_slash_app p x :
  existsb (Ascii.eqb slash) x = false ->
  before_last_slash (p ++ slash :: x) = p.
Proof.
  intro H. induction p as [|c p IH]; simpl.
  - now rewrite H.
  - rewrite existsb_app. simpl. now rewrite orb_true_r, IH.
Qed.

Lemma parent_dir_local_path cc d :
  has_slash cc = false -> parent_dir (local_path cc d) = "temp_reports".
Proof.
  intro H. apply (has_slash_local_name cc d) in H.
  rewrite local_path_eq. unfold parent_dir.
  rewrite list_ascii_of_string_app.
  change (list_ascii_of_string "temp_reports/")
    with (list_ascii_of_string "temp_reports" ++ [slash]).
  rewrite <- app_assoc.
  change ([slash] ++ list_ascii_of_string (local_name cc d))
    with (slash :: list_ascii_of_string (local_name cc d)).
  rewrite before_last_slash_app by exact H.
  reflexivity.
Qed.

Lemma local_path_not_temp cc d : String.eqb "temp_reports" (local_path cc d) = false.
Proof. rewrite local_path_eq. reflexivity. Qed.

Lemma lookup_written path data fs : Fs.lookup path ((path, data) :: fs) = Some data.
Proof. simpl. now rewrite String.eqb_refl. Qed.

Section Healthy.

Variable E : env.
Variables company_code report_type : string.
Variable cutoff_date : date.

Hypothesis server_delivers :
  forall url, exists r, requests_get E url = Ok r
                        /\ (status_code r < 400 \/ 600 <= status_code r).
Hypothesis store_answers : forall k, drive_fault E k = None.
Hypothesis plain_code : has_slash company_code = false.

Local Abbreviation loop := (for_rows E company_code report_type cutoff_date).
Local Abbreviation process := (fetch_and_upload E company_code report_type).

Lemma folder_resolves name parent s :
  exists i, res (get_or_create_folder E name parent s) = Ok i.
Proof.
  rewrite get_or_create_folder_run, !store_answers.
  destruct (filter _ _); simpl; eauto.
Qed.

Lemma upload_succeeds path rt s data :
  Fs.lookup path (files s) = Some data ->
  res (upload_to_drive E path company_code rt s) = Ok tt.
Proof.
  intro L. unfold upload_to_drive, print. rewrite res_bind_emit.
  rewrite res_bind. destruct (folder_resolves "CSE Reports" root s) as [i1 ->].
  rewrite <- (keeps_files_folder E "CSE Reports" root s) in L.
  set (s1 := st (get_or_create_folder E "CSE Reports" root s)) in *.
  rewrite res_bind. destruct (folder_resolves company_code i1 s1) as [i2 ->].
  rewrite <- (keeps_files_folder E company_code i1 s1) in L.
  set (s2 := st (get_or_create_folder E company_code i1 s1)) in *.
  rewrite res_bind. destruct (folder_resolves (rt ^^ " Reports") i2 s2) as [i3 ->].
  rewrite <- (keeps_files_folder E (rt ^^ " Reports") i2 s2) in L.
  set (s3 := st (get_or_create_folder E (rt ^^ " Reports") i2 s2)) in *.
  rewrite res_bind, read_file_run, L. cbn [res st].
  rewrite res_bind, drive_insert_run, store_answers. reflexivity.
Qed.

(** The state a step can start from: [temp_reports] is not a plain file
    and no local path of a document is a directory. *)
Local Abbreviation ready s :=
  (Fs.is_file "temp_reports" s = false
   /\ forall d, Fs.is_dir (local_path company_code d) s = false).

Lemma makedirs_ready s :
  ready s ->
  res (Fs.makedirs "temp_reports" s) = Ok tt
  /\ Fs.is_dir "temp_reports" (st (Fs.makedirs "temp_reports" s)) = true
  /\ files (st (Fs.makedirs "temp_reports" s)) = files s
  /\ forall d, Fs.is_dir (local_path company_code d) (st (Fs.makedirs "temp_reports" s))
               = false.
Proof.
  intros [F D]. pose proof (makedirs_succeeds _ _ F) as R.
  split; [exact R|]. split; [now apply makedirs_ok|].
  split; [apply makedirs_files|].
  intro d. rewrite makedirs_run, F.
  destruct (Fs.is_dir "temp_reports" s); [apply D|].
  unfold Fs.is_dir in *. cbn [st dirs]. rewrite existsb_app, (D d).
  cbn [existsb orb]. rewrite String.eqb_sym, local_path_not_temp. reflexivity.
Qed.

Lemma fetch_and_upload_succeeds a d s :
  ready s ->
  res (process a d s) = Ok tt /\ ready (st (process a d s)).
Proof.
  intro Rd. destruct (makedirs_ready s Rd) as (Rm & Dm & Fm & Pm).
  pose proof (after_makedirs_keeps_dirs E company_code report_type a d
                (st (Fs.makedirs "temp_reports" s))) as Kd.
  assert (Ok_ : res (process a d s) = Ok tt).
  { unfold fetch_and_upload. fold (local_name company_code d).
    fold (local_path company_code d).
    rewrite res_bind, Rm. unfold print. rewrite !res_bind_emit.
    destruct (server_delivers match attr_of "href" a with Some h => h | None => "" end)
      as (r & Hr & Hs).
    rewrite res_bind, Hr. cbn [lift ret res st].
    rewrite res_bind. unfold raise_for_status.
    assert (B : (400 <=? status_code r) && (status_code r <? 600) = false).
    { apply andb_false_iff. destruct Hs as [Hs|Hs];
        [left; now apply Nat.leb_gt | right; now apply Nat.ltb_ge]. }
    rewrite B. cbn [ret res st].
    rewrite res_bind, write_file_run, (Pm d), parent_dir_local_path by exact plain_code.
    rewrite Dm. cbn [negb]. rewrite andb_false_r. cbn [res st].
    rewrite res_bind, (upload_succeeds _ _ _ (content r)) by apply lookup_written.
    rewrite remove_run. unfold Fs.is_file.
    rewrite keeps_files_upload. cbn [files]. now rewrite lookup_written. }
  split; [exact Ok_|]. split.
  - unfold Fs.is_file. rewrite (fetch_and_upload_files E company_code report_type a d s Ok_).
    destruct (Fs.lookup "temp_reports" (Fs.delete _ (files s))) as [c|] eqn:L;
      [|reflexivity].
    apply lookup_delete in L as [L _]. destruct Rd as [F _].
    unfold Fs.is_file in F. now rewrite L in F.
  - intro d'. unfold fetch_and_upload. unfold Fs.is_dir.
    rewrite st_bind, Rm. unfold local_path, local_name in Kd. rewrite Kd.
    apply Pm.
Qed.

Lemma for_rows_succeeds rows : forall recs n s,
  map row_record rows = map Some recs ->
  ready s ->
  exists k, res (loop rows n s) = Ok k.
Proof.
  induction rows as [|row rows IH]; intros [|[d u] recs] n s Hr Rd; try discriminate.
  - now exists n.
  - cbn [map] in Hr. injection Hr as Hrow Hrows.
    destruct (date_geb d cutoff_date) eqn:G.
    + destruct (for_rows_new_record E company_code report_type cutoff_date
                  row rows n s d u Hrow G) as (a & _ & _ & Eq).
      rewrite Eq, res_bind.
      destruct (fetch_and_upload_succeeds a d s Rd) as [-> Rd'].
      now apply (IH recs).
    + rewrite (for_rows_old_record E company_code report_type cutoff_date
                 row rows n s d u Hrow G).
      now exists n.
Qed.

End Healthy.

(** X15. When nothing outside fails, the loop brings in every recent
    report.  Suppose the server answers every request with a status
    outside 400-599, no call to the remote store fails, the company code
    holds no ["/"] and fits in a file name (ASCII without the null
    character, 240 bytes at most), [temp_reports] is not a plain file and
    no local path of a document is a directory.  Then over a table of records sorted newest
    first the loop completes: it requests exactly the links of the records
    dated at or after the cutoff, in their order, uploads one document for
    each of them, and its counter grows by their number. *)
Theorem healthy_loop_uploads_every_recent_report :
  forall (E : env) (company_code report_type : string) (cutoff_date : date)
         (rows : list node) (recs : list (date * string)) (n : nat) (s : state),
    (forall url, exists r, requests_get E url = Ok r
                           /\ (status_code r < 400 \/ 600 <= status_code r)) ->
    (forall k, drive_fault E k = None) ->
    has_slash company_code = false ->
    fits_file_name company_code = true ->
    Fs.is_file "temp_reports" s = false ->
    (forall d, Fs.is_dir (local_path company_code d) s = false) ->
    map row_record rows = map Some recs ->
    descending (map fst recs) ->
    res (for_rows E company_code report_type cutoff_date rows n s)
    = Ok (n + length (filter (fun rc => date_geb (fst rc) cutoff_date) recs))
    /\ fetched (out (for_rows E company_code report_type cutoff_date rows n s))
       = map snd (filter (fun rc => date_geb (fst rc) cutoff_date) recs)
    /\ length (uploaded (out (for_rows E company_code report_type cutoff_date rows n s)))
       = length (filter (fun rc => date_geb (fst rc) cutoff_date) recs).
Proof.
  intros E cc rt cutoff rows recs n s Hserver Hstore Hcode _ Hfile Hdir Hr Hs.
  destruct (for_rows_succeeds E cc rt cutoff Hserver Hstore Hcode rows recs n s Hr
              (conj Hfile Hdir)) as [k Hk].
  destruct (loop_fetches_prefix E cc rt cutoff rows recs n s Hr Hs) as [_ Hp].
  destruct (Hp k Hk) as [Hf Hn].
  pose proof (for_rows_counts E cc rt cutoff rows n s k Hk) as Hc.
  split; [now rewrite Hk, Hn|]. split; [exact Hf|]. lia.
Qed.

Lemma healthy_loop_uploads_every_recent_report_witness :
  res (for_rows (Samples.calm [] []) Samples.code "Quarterly" Samples.cutoff_2024
         Samples.two_rows 0 Samples.blank)
  = Ok 1
  /\ fetched (out (for_rows (Samples.calm [] []) Samples.code "Quarterly"
                     Samples.cutoff_2024 Samples.two_rows 0 Samples.blank))
     = ["https://cdn.cse.lk/q1.pdf"]
  /\ length (uploaded (out (for_rows (Samples.calm [] []) Samples.code "Quarterly"
                              Samples.cutoff_2024 Samples.two_rows 0 Samples.blank)))
     = 1.
Proof.
  assert (Hserver : forall url, exists r,
             requests_get (Samples.calm [] []) url = Ok r
             /\ (status_code r < 400 \/ 600 <= status_code r)).
  { intro url. exists (mkResponse 200 ("%PDF " ^^ url)).
    split; [reflexivity | left; cbn [status_code]; lia]. }
  assert (Hcode : has_slash Samples.code = false) by (vm_compute; reflexivity).
  assert (Hfits : fits_file_name Samples.code = true) by (vm_compute; reflexivity).
  assert (Hr : map row_record Samples.two_rows = map Some Samples.two_records)
    by reflexivity.
  assert (Hs : descending (map fst Samples.two_records)) by (repeat constructor).
  exact (healthy_loop_uploads_every_recent_report (Samples.calm [] []) Samples.code
           "Quarterly" Samples.cutoff_2024 Samples.two_rows Samples.two_records 0
           Samples.blank Hserver (fun _ => eq_refl) Hcode Hfits eq_refl
           (fun _ => eq_refl) Hr Hs).
Defined.

(* ================================================================== *)
(** ** Dates read and printed *)

Lemma is_digit_digit_char n : is_digit (digit_char n) = true.
Proof.
  unfold is_digit, digit_char. pose proof (Nat.mod_upper_bound n 10) as B.
  cbv zeta. rewrite nat_ascii_embedding by lia.
  apply andb_true_iff. split; apply Nat.leb_le; lia.
Qed.

Lemma digit_val_digit_char n : digit_val (digit_char n) = n mod 10.
Proof.
  unfold digit_val, digit_char. pose proof (Nat.mod_upper_bound n 10) as B.
  rewrite nat_ascii_embedding by lia. lia.
Qed.

Lemma digit_val_bound c : is_digit c = true -> digit_val c <= 9.
Proof.
  unfold is_digit, digit_val. cbv zeta.
  rewrite andb_true_iff, !Nat.leb_le. lia.
Qed.

Lemma p_year_pad4 y r :
  y < 100 * 100 -> p_year (list_ascii_of_string (pad4 y) ++ r) = [(y, r)].
Proof.
  intro B. unfold pad4, p_year. cbn [list_ascii_of_string app].
  rewrite !is_digit_digit_char, !digit_val_digit_char. cbn [andb].
  now rewrite <- (four_digits y B).
Qed.

Lemma p_year_bound s y r : In (y, r) (p_year s) -> y < 100 * 100.
Proof.
  unfold p_year. destruct s as [|a [|b [|c [|d s]]]]; try contradiction.
  destruct (is_digit a) eqn:A; [|contradiction].
  destruct (is_digit b) eqn:Bb; [|contradiction].
  destruct (is_digit c) eqn:C; [|contradiction].
  destruct (is_digit d) eqn:D; [|contradiction].
  cbn [andb In]. intros [H|[]]. injection H as H _.
  apply digit_val_bound in A, Bb, C, D. lia.
Qed.

Lemma in_pseq {A B C} (p : parser A) (q : parser B) (f : A -> B -> C) s c r :
  In (c, r) (pseq p q f s) ->
  exists a r1 b, In (a, r1) (p s) /\ In (b, r) (q r1) /\ c = f a b.
Proof.
  unfold pseq. intro H. apply in_flat_map in H as ([a r1] & Hp & Hq).
  apply in_map_iff in Hq as ([b r'] & Eq & Hq). injection Eq as Ec Er. subst.
  now exists a, r1, b.
Qed.

Lemma finish_some ms d :
  finish ms = Some d -> valid_date d = true /\ In (d, []) ms.
Proof.
  unfold finish. destruct ms as [|[d' [|c r]] ms]; try discriminate.
  destruct (valid_date d') eqn:V; [|discriminate].
  intro H. injection H as <-. split; [exact V | now left].
Qed.

Lemma strptime_Ymd_printable s d : strptime_Ymd s = Some d -> printable d.
Proof.
  unfold strptime_Ymd. intro H. apply finish_some in H as [V I].
  split; [exact V|].
  apply in_pseq in I as (y & r1 & md & Hy & _ & ->).
  cbn [year]. exact (p_year_bound _ _ _ Hy).
Qed.

Lemma strptime_dbY_printable s d : strptime_dbY s = Some d -> printable d.
Proof.
  unfold strptime_dbY. intro H. apply finish_some in H as [V I].
  split; [exact V|].
  apply in_pseq in I as (dd & r1 & my & _ & I & ->).
  apply in_pseq in I as (u1 & r2 & my' & _ & I & ->).
  apply in_pseq in I as (m & r3 & y & _ & I & ->).
  apply in_pseq in I as (u2 & r4 & y' & _ & I & ->).
  cbn [year snd]. exact (p_year_bound _ _ _ I).
Qed.

Section MonthAndDay.

(** What the format asks for after the year. *)
Local Abbreviation month_and_day :=
  (pseq (p_char "-")
     (pseq p_month_num (pseq (p_char "-") p_day (fun _ d => d))
        (fun m d => (m, d)))
     (fun (_ : unit) (md : nat * nat) => md)).

Local Abbreviation reads_back m d :=
  (match month_and_day (list_ascii_of_string ("-" ^^ pad2 m ^^ "-" ^^ pad2 d)) with
   | ((m', d'), []) :: _ => (m' =? m) && (d' =? d)
   | _ => false
   end).

Lemma month_and_day_table :
  forallb (fun m => forallb (fun d => reads_back m d) (seq 1 31)) (seq 1 12) = true.
Proof. vm_compute. reflexivity. Qed.

Lemma month_and_day_pad2 m d :
  1 <= m <= 12 -> 1 <= d <= 31 ->
  exists more,
    month_and_day (list_ascii_of_string ("-" ^^ pad2 m ^^ "-" ^^ pad2 d))
    = ((m, d), []) :: more.
Proof.
  intros Hm Hd. pose proof month_and_day_table as T.
  rewrite forallb_forall in T.
  assert (Im : In m (seq 1 12)) by (apply in_seq; lia).
  assert (Id : In d (seq 1 31)) by (apply in_seq; lia).
  specialize (T m Im). rewrite forallb_forall in T. specialize (T d Id).
  destruct (month_and_day _) as [|[[m' d'] [|c r]] more]; try discriminate.
  apply andb_true_iff in T as [Em Ed].
  apply Nat.eqb_eq in Em, Ed. subst. now exists more.
Qed.

End MonthAndDay.

Lemma valid_date_ranges d :
  valid_date d = true -> 1 <= month d <= 12 /\ 1 <= day d <= 31.
Proof.
  unfold valid_date. rewrite !andb_true_iff, !Nat.leb_le.
  intros ((((_ & Hm1) & Hm) & Hd1) & Hd).
  assert (days_in_month (year d) (month d) <= 31).
  { unfold days_in_month.
    destruct (month d) as [|[|[|[|[|[|[|[|[|[|[|[|m]]]]]]]]]]]]; try lia.
    destruct (is_leap (year d)); lia. }
  lia.
Qed.

Lemma strptime_strftime_Ymd d : printable d -> strptime_Ymd (strftime_Ymd d) = Some d.
Proof.
  intros [V B]. destruct (valid_date_ranges d V) as [Hm Hd].
  destruct (month_and_day_pad2 (month d) (day d) Hm Hd) as [more T].
  unfold strptime_Ymd, strftime_Ymd.
  rewrite list_ascii_of_string_app.
  unfold pseq at 1. rewrite (p_year_pad4 (year d) _ B).
  cbn [flat_map]. rewrite T. cbn [map app fst snd finish].
  destruct d as [y m dd]. cbn [year month day] in *. now rewrite V.
Qed.

(** X16. Every date the program reads, the START_DATE argument under
    ['%Y-%m-%d'] or the published date of a row under ['%d %b %Y'], is
    printed by [strftime('%Y-%m-%d')] as a text that the argument format
    reads back as the same date; and two dates that were read and print
    alike are the same date.  Stated for years from 1000 on, which are
    printed on four digits everywhere. *)
Theorem printed_date_reads_back :
  forall (text : string) (d : date),
    strptime_Ymd text = Some d \/ strptime_dbY text = Some d ->
    1000 <= year d ->
    strptime_Ymd (strftime_Ymd d) = Some d
    /\ (forall (text' : string) (d' : date),
          strptime_Ymd text' = Some d' \/ strptime_dbY text' = Some d' ->
          1000 <= year d' ->
          strftime_Ymd d = strftime_Ymd d' -> d = d').
Proof.
  assert (P : forall text d,
             strptime_Ymd text = Some d \/ strptime_dbY text = Some d -> printable d).
  { intros text d [H|H];
      [exact (strptime_Ymd_printable _ _ H) | exact (strptime_dbY_printable _ _ H)]. }
  intros text d H _. split.
  - apply strptime_strftime_Ymd, (P text), H.
  - intros text' d' H' _ Eq.
    exact (strftime_Ymd_injective d d' (P _ _ H) (P _ _ H') Eq).
Qed.

Lemma printed_date_reads_back_witness :
  strptime_Ymd "2024-3-1" = Some (mkDate 2024 3 1)
  /\ strftime_Ymd (mkDate 2024 3 1) = "2024-03-01"
  /\ strptime_Ymd (strftime_Ymd (mkDate 2024 3 1)) = Some (mkDate 2024 3 1).
Proof.
  assert (H : strptime_Ymd "2024-3-1" = Some (mkDate 2024 3 1))
    by (vm_compute; reflexivity).
  assert (F : strftime_Ymd (mkDate 2024 3 1) = "2024-03-01")
    by (vm_compute; reflexivity).
  assert (Y : 1000 <= year (mkDate 2024 3 1)) by (cbn [year]; lia).
  split; [exact H|]. split; [exact F|].
  exact (proj1 (printed_date_reads_back "2024-3-1" (mkDate 2024 3 1) (or_introl H) Y)).
Defined.

(* ================================================================== *)
(** ** One folder per company *)

Section Shared.

Variable E : env.

Lemma get_or_create_folder_inserts name parent s i :
  res (get_or_create_folder E name parent s) = Ok i ->
  inserted (out (get_or_create_folder E name parent s)) = []
  \/ inserted (out (get_or_create_folder E name parent s))
     = [mkDriveFile i name [parent] true false ""].
Proof.
  rewrite get_or_create_folder_run.
  destruct (drive_fault E (api_calls s)); [discriminate|].
  destruct (filter (folder_matches name parent) (drive s)) as [|f fs].
  - destruct (drive_fault E (S (api_calls s))); [discriminate|].
    cbv zeta. simpl. intro H. injection H as <-. now right.
  - simpl. now left.
Qed.

(** With the top folder and the company folder already what the listings
    put first, an upload that returns creates neither again: it adds the
    document, after at most the folder of its report type. *)
Lemma upload_to_drive_shared path cc rt s top company :
  first_match "CSE Reports" root (drive s) = Some top ->
  first_match cc top (drive s) = Some company ->
  res (upload_to_drive E path cc rt s) = Ok tt ->
  exists leaf doc,
    df_parents doc = [leaf] /\ df_is_folder doc = false
    /\ df_title doc = basename path
    /\ first_match (rt ^^ " Reports") company
         (drive (st (upload_to_drive E path cc rt s))) = Some leaf
    /\ (inserted (out (upload_to_drive E path cc rt s)) = [doc]
        \/ inserted (out (upload_to_drive E path cc rt s))
           = [mkDriveFile leaf (rt ^^ " Reports") [company] true false ""; doc]).
Proof.
  intros M1 M2 H.
  remember (st (upload_to_drive E path cc rt s)) as stU eqn:St.
  remember (out (upload_to_drive E path cc rt s)) as outU eqn:Out.
  unfold upload_to_drive in H, St, Out.
  follow H St Out. rewrite st_print, out_print in *.
  follow H St Out.
  destruct (get_or_create_folder_found E _ _ _ _ _ M1 R0) as (-> & I1 & D1 & F1).
  set (s1 := st (get_or_create_folder E "CSE Reports" root s)) in *.
  rewrite <- D1 in M2.
  follow H St Out.
  destruct (get_or_create_folder_found E _ _ _ _ _ M2 R1) as (-> & I2 & D2 & F2).
  set (s2 := st (get_or_create_folder E cc top s1)) in *.
  follow H St Out.
  destruct (get_or_create_folder_first E _ _ _ _ R2) as [M3 _].
  pose proof (get_or_create_folder_inserts _ _ _ _ R2) as I3.
  set (s3 := st (get_or_create_folder E (rt ^^ " Reports") company s2)) in *.
  follow H St Out.
  destruct (read_file_ok _ _ _ R3) as (L & Sr & Or). rewrite Sr, Or in *.
  follow H St Out. rewrite st_print, out_print in *.
  revert R4 St Out. rewrite drive_insert_run.
  destruct (drive_fault E (api_calls s3)); [discriminate|].
  cbv zeta. simpl. intros _ St Out.
  match goal with _ : res (get_or_create_folder E (rt ^^ " Reports") company s2) = Ok ?l,
                  _ : Fs.lookup _ _ = Some ?d |- _ =>
    exists l, (mkDriveFile (fresh_id (drive s3)) (basename path) [l] false false d)
  end.
  subst stU outU.
  split; [reflexivity|]. split; [reflexivity|]. split; [reflexivity|].
  split; [simpl; now apply first_match_app|].
  rewrite inserted_cons_print, !inserted_app, I1, I2.
  destruct I3 as [-> | ->]; [left | right]; reflexivity.
Qed.

End Shared.

(** X17. The folders ["CSE Reports"] and of the company are made once.
    Let the company code and the report types hold neither a quote nor a
    backslash.  After an upload for a company has returned, and whatever has been
    added to the store since, a later upload for the same company, of any
    report type and any file, creates neither of them again: it adds its
    document, preceded at most by the folder of its own report type,
    created under the company folder the first upload used.  The document
    lies in the folder the listing gives for that type under that company
    folder. *)
Theorem company_folder_is_shared :
  forall (E : env) (file_path file_path' company_code report_type report_type' : string)
         (s s' : state) (later : list drive_file),
    plain_title company_code = true ->
    plain_title report_type = true ->
    plain_title report_type' = true ->
    res (upload_to_drive E file_path company_code report_type s) = Ok tt ->
    drive s' = drive (st (upload_to_drive E file_path company_code report_type s)) ++ later ->
    res (upload_to_drive E file_path' company_code report_type' s') = Ok tt ->
    exists top company leaf leaf' f1 f2,
      first_match "CSE Reports" root
        (drive (st (upload_to_drive E file_path company_code report_type s))) = Some top
      /\ first_match company_code top
           (drive (st (upload_to_drive E file_path company_code report_type s)))
         = Some company
      /\ first_match (report_type ^^ " Reports") company
           (drive (st (upload_to_drive E file_path company_code report_type s)))
         = Some leaf
      /\ uploaded (out (upload_to_drive E file_path company_code report_type s)) = [f1]
      /\ df_parents f1 = [leaf]
      /\ first_match (report_type' ^^ " Reports") company
           (drive (st (upload_to_drive E file_path' company_code report_type' s')))
         = Some leaf'
      /\ df_parents f2 = [leaf'] /\ df_is_folder f2 = false
      /\ (inserted (out (upload_to_drive E file_path' company_code report_type' s')) = [f2]
          \/ inserted (out (upload_to_drive E file_path' company_code report_type' s'))
             = [mkDriveFile leaf' (report_type' ^^ " Reports") [company] true false ""; f2]).
Proof.
  intros E path path' cc rt rt' s s' later _ _ _ H1 D' H2.
  destruct (upload_to_drive_ok E path cc rt s H1)
    as (top & company & leaf & data & pre & M1 & M2 & M3 & L & F & D & U).
  assert (M1' : first_match "CSE Reports" root (drive s') = Some top)
    by (rewrite D', D; now do 2 apply first_match_app).
  assert (M2' : first_match cc top (drive s') = Some company)
    by (rewrite D', D; now do 2 apply first_match_app).
  destruct (upload_to_drive_shared E path' cc rt' s' top company M1' M2' H2)
    as (leaf' & f2 & P2 & N2 & _ & M3' & I2).
  exists top, company, leaf, leaf',
    (mkDriveFile (fresh_id pre) (basename path) [leaf] false false data), f2.
  rewrite D.
  split; [now apply first_match_app|]. split; [now apply first_match_app|].
  split; [now apply first_match_app|]. split; [exact U|].
  split; [reflexivity|]. split; [exact M3'|]. split; [exact P2|].
  split; [exact N2 | exact I2].
Qed.

Lemma company_folder_is_shared_witness :
  exists top company leaf leaf' f1 f2,
    first_match "CSE Reports" root
      (drive (st (upload_to_drive (Samples.calm [] []) Samples.march_path Samples.code
                    "Quarterly" Samples.with_local_copy))) = Some top
    /\ first_match Samples.code top
         (drive (st (upload_to_drive (Samples.calm [] []) Samples.march_path Samples.code
                       "Quarterly" Samples.with_local_copy))) = Some company
    /\ first_match ("Quarterly" ^^ " Reports") company
         (drive (st (upload_to_drive (Samples.calm [] []) Samples.march_path Samples.code
                       "Quarterly" Samples.with_local_copy))) = Some leaf
    /\ uploaded (out (upload_to_drive (Samples.calm [] []) Samples.march_path Samples.code
                        "Quarterly" Samples.with_local_copy)) = [f1]
    /\ df_parents f1 = [leaf]
    /\ first_match ("Annual" ^^ " Reports") company
         (drive (st (upload_to_drive (Samples.calm [] []) Samples.march_path Samples.code
                       "Annual"
                       (st (upload_to_drive (Samples.calm [] []) Samples.march_path
                              Samples.code "Quarterly" Samples.with_local_copy)))))
       = Some leaf'
    /\ df_parents f2 = [leaf'] /\ df_is_folder f2 = false
    /\ (inserted (out (upload_to_drive (Samples.calm [] []) Samples.march_path
                         Samples.code "Annual"
                         (st (upload_to_drive (Samples.calm [] []) Samples.march_path
                                Samples.code "Quarterly" Samples.with_local_copy))))
        = [f2]
        \/ inserted (out (upload_to_drive (Samples.calm [] []) Samples.march_path
                            Samples.code "Annual"
                            (st (upload_to_drive (Samples.calm [] []) Samples.march_path
                                   Samples.code "Quarterly" Samples.with_local_copy))))
           = [mkDriveFile leaf' ("Annual" ^^ " Reports") [company] true false ""; f2]).
Proof.
  apply (company_folder_is_shared (Samples.calm [] []) Samples.march_path
           Samples.march_path Samples.code "Quarterly" "Annual" Samples.with_local_copy
           (st (upload_to_drive (Samples.calm [] []) Samples.march_path Samples.code
                  "Quarterly" Samples.with_local_copy)) []).
  - reflexivity.
  - reflexivity.
  - reflexivity.
  - reflexivity.
  - symmetry. apply app_nil_r.
  - vm_compute. reflexivity.
Defined.
